(** * Aplicacioneduweb: course content ordering and access control

    A shallow embedding of the FastAPI route handlers of the backend
    ([backend/routes/sections.py], [items.py], [courses.py],
    [enrollments.py], [evaluation.py]) over an explicit model of the
    document store, followed by the properties of the reordering engine
    and of the access gate.

    Conventions of the embedding:
    - a collection is the list of its documents in insertion order;
      [find_one] returns the first match, [update_one] and [delete_one]
      touch the first match, [update_many] and [delete_many] every match,
      [insert_one] appends;
    - a handler is a function from the store to an outcome and the store
      it leaves behind; a raised exception keeps the writes made before it
      (the handlers open no transaction);
    - [uuid.uuid4()] is a supply of pairwise distinct strings driven by a
      counter kept next to the collections; [datetime.now()] is the
      argument [now] of a handler;
    - Python [int] is [Z]; document fields that no modelled handler reads
      (summaries, cover images, nested settings, free-form content) are
      left out of the records. *)

From Stdlib Require Import ZArith List String Ascii Bool Lia Permutation.
From Stdlib Require Import DecimalString Floats.
Import ListNotations.
Local Open Scope string_scope.
Local Open Scope Z_scope.

(** ** Outcomes *)

Inductive Exception : Type :=
| HTTPException (status_code : Z) (detail : string)
| TypeError (message : string)
| AttributeError (message : string).

Definition HTTP_400_BAD_REQUEST : Z := 400.
Definition HTTP_403_FORBIDDEN : Z := 403.
Definition HTTP_404_NOT_FOUND : Z := 404.

Inductive result (A : Type) : Type :=
| Ok (a : A)
| Raise (e : Exception).
Arguments Ok {A} a.
Arguments Raise {A} e.

(** ** Documents *)

Inductive CourseStatus : Type := DRAFT | PUBLISHED | SUSPENDED | ARCHIVED.
Inductive CourseFormat : Type := TOPICS | WEEKS | FREE.
Inductive ItemType : Type :=
| PAGE | FILE | VIDEO | URL | FORUM | ASSIGNMENT | QUIZ | FEEDBACK | LABEL.
Inductive EnrollmentRole : Type := TEACHER | EDITOR | STUDENT.
Inductive EnrollmentStatus : Type := ACTIVE | ENROLLMENT_SUSPENDED | ENDED.
Inductive UserRole : Type := admin | teacher | editor | student.

Definition CourseStatus_eqb (a b : CourseStatus) : bool :=
  match a, b with
  | DRAFT, DRAFT | PUBLISHED, PUBLISHED
  | SUSPENDED, SUSPENDED | ARCHIVED, ARCHIVED => true
  | _, _ => false
  end.

Definition EnrollmentRole_eqb (a b : EnrollmentRole) : bool :=
  match a, b with
  | TEACHER, TEACHER | EDITOR, EDITOR | STUDENT, STUDENT => true
  | _, _ => false
  end.

Definition EnrollmentStatus_eqb (a b : EnrollmentStatus) : bool :=
  match a, b with
  | ACTIVE, ACTIVE | ENROLLMENT_SUSPENDED, ENROLLMENT_SUSPENDED
  | ENDED, ENDED => true
  | _, _ => false
  end.

Definition UserRole_eqb (a b : UserRole) : bool :=
  match a, b with
  | admin, admin | teacher, teacher | editor, editor
  | student, student => true
  | _, _ => false
  end.

(** The decoded credential handed to every handler as [current_user]. *)
Record CurrentUser : Type := mkCurrentUser {
  user_id : string;
  role : UserRole
}.

Record User : Type := mkUser {
  u_id : string;
  u_email : string;
  u_role : UserRole
}.

Record Category : Type := mkCategory {
  cat_id : string;
  course_count : Z
}.

Record Course : Type := mkCourse {
  c_id : string;
  fullname : string;
  shortname : string;
  category_id : string;
  format : CourseFormat;
  num_sections : Z;
  c_visible : bool;
  status : CourseStatus;
  created_by : option string;
  c_updated_at : string;
  last_modified_by : option string
}.

Record CourseSection : Type := mkCourseSection {
  s_id : string;
  s_course_id : string;
  s_title : string;
  s_position : Z;
  s_visible : bool;
  s_updated_at : string
}.

Record CourseItem : Type := mkCourseItem {
  i_id : string;
  i_section_id : string;
  i_course_id : string;
  i_title : string;
  item_type : ItemType;
  i_position : Z;
  i_visible : bool;
  i_updated_at : string
}.

Record Enrollment : Type := mkEnrollment {
  e_id : string;
  e_course_id : string;
  e_user_id : string;
  e_role : EnrollmentRole;
  e_status : EnrollmentStatus;
  enrolled_by : option string
}.

Record AuditEntry : Type := mkAuditEntry {
  a_id : string;
  action : string;
  entity_type : string;
  entity_id : string;
  a_user_id : string
}.

(** JSON values as the handlers meet them in request bodies and stored
    documents: [None], booleans, integers and strings. *)
Inductive PyValue : Type :=
| PNone
| PBool (b : bool)
| PInt (n : Z)
| PStr (s : string).

(** An entry of a question's [options] list; a missing key reads as
    [None] through [dict.get]. *)
Record QuestionOption : Type := mkQuestionOption {
  o_id : PyValue;
  o_correct : PyValue
}.

Record Question : Type := mkQuestion {
  q_id : string;
  q_type : string;
  q_points : option float;            (* [None]: the document has no [points] *)
  q_options : list QuestionOption;
  q_correct_answer : option PyValue   (* [None]: no [correct_answer] key *)
}.

Record Quiz : Type := mkQuiz {
  z_id : string;
  z_course_id : string;
  question_ids : list string;
  z_item_id : option string;
  passing_grade : option float
}.

Record QuizAttempt : Type := mkQuizAttempt {
  at_id : string;
  at_quiz_id : string;
  at_user_id : string;
  at_status : string;
  at_answers : list (string * PyValue);
  at_score : option float;
  at_earned_points : option float;
  at_total_points : option float;
  at_finished_at : option string
}.

Record Grade : Type := mkGrade {
  g_id : string;
  g_user_id : string;
  g_item_id : string;
  g_course_id : string;
  grade : float;
  graded_by : string;
  graded_at : string
}.

(** ** The document store *)

Record DB : Type := mkDB {
  users : list User;
  course_categories : list Category;
  courses : list Course;
  course_sections : list CourseSection;
  course_items : list CourseItem;
  enrollments : list Enrollment;
  grades : list Grade;
  questions : list Question;
  quizzes : list Quiz;
  quiz_attempts : list QuizAttempt;
  audit_logs : list AuditEntry;
  uuid_counter : nat
}.

Definition set_course_categories (f : list Category -> list Category) (db : DB) : DB :=
  mkDB (users db) (f (course_categories db)) (courses db) (course_sections db)
       (course_items db) (enrollments db) (grades db) (questions db)
       (quizzes db) (quiz_attempts db) (audit_logs db) (uuid_counter db).

Definition set_courses (f : list Course -> list Course) (db : DB) : DB :=
  mkDB (users db) (course_categories db) (f (courses db)) (course_sections db)
       (course_items db) (enrollments db) (grades db) (questions db)
       (quizzes db) (quiz_attempts db) (audit_logs db) (uuid_counter db).

Definition set_course_sections (f : list CourseSection -> list CourseSection) (db : DB) : DB :=
  mkDB (users db) (course_categories db) (courses db) (f (course_sections db))
       (course_items db) (enrollments db) (grades db) (questions db)
       (quizzes db) (quiz_attempts db) (audit_logs db) (uuid_counter db).

Definition set_course_items (f : list CourseItem -> list CourseItem) (db : DB) : DB :=
  mkDB (users db) (course_categories db) (courses db) (course_sections db)
       (f (course_items db)) (enrollments db) (grades db) (questions db)
       (quizzes db) (quiz_attempts db) (audit_logs db) (uuid_counter db).

Definition set_enrollments (f : list Enrollment -> list Enrollment) (db : DB) : DB :=
  mkDB (users db) (course_categories db) (courses db) (course_sections db)
       (course_items db) (f (enrollments db)) (grades db) (questions db)
       (quizzes db) (quiz_attempts db) (audit_logs db) (uuid_counter db).

Definition set_grades (f : list Grade -> list Grade) (db : DB) : DB :=
  mkDB (users db) (course_categories db) (courses db) (course_sections db)
       (course_items db) (enrollments db) (f (grades db)) (questions db)
       (quizzes db) (quiz_attempts db) (audit_logs db) (uuid_counter db).

Definition set_quiz_attempts (f : list QuizAttempt -> list QuizAttempt) (db : DB) : DB :=
  mkDB (users db) (course_categories db) (courses db) (course_sections db)
       (course_items db) (enrollments db) (grades db) (questions db)
       (quizzes db) (f (quiz_attempts db)) (audit_logs db) (uuid_counter db).

Definition set_audit_logs (f : list AuditEntry -> list AuditEntry) (db : DB) : DB :=
  mkDB (users db) (course_categories db) (courses db) (course_sections db)
       (course_items db) (enrollments db) (grades db) (questions db)
       (quizzes db) (quiz_attempts db) (f (audit_logs db)) (uuid_counter db).

Definition set_uuid_counter (f : nat -> nat) (db : DB) : DB :=
  mkDB (users db) (course_categories db) (courses db) (course_sections db)
       (course_items db) (enrollments db) (grades db) (questions db)
       (quizzes db) (quiz_attempts db) (audit_logs db) (f (uuid_counter db)).

(** *** Collection operations *)

Section Collection.
Context {A : Type}.

Definition find_one (filter : A -> bool) (c : list A) : option A :=
  List.find filter c.

Fixpoint update_one (filter : A -> bool) (upd : A -> A) (c : list A) : list A :=
  match c with
  | [] => []
  | d :: c' => if filter d then upd d :: c' else d :: update_one filter upd c'
  end.

Definition update_many (filter : A -> bool) (upd : A -> A) (c : list A) : list A :=
  map (fun d => if filter d then upd d else d) c.

Definition insert_one (d : A) (c : list A) : list A := c ++ [d].

Fixpoint delete_one (filter : A -> bool) (c : list A) : list A :=
  match c with
  | [] => []
  | d :: c' => if filter d then c' else d :: delete_one filter c'
  end.

Definition delete_many (filter : A -> bool) (c : list A) : list A :=
  List.filter (fun d => negb (filter d)) c.

Definition count_documents (filter : A -> bool) (c : list A) : Z :=
  Z.of_nat (List.length (List.filter filter c)).
End Collection.

(** [find_one(filter, sort=[("position", -1)])] is only ever read for its
    [position]: the largest position among the matches. *)
Fixpoint max_position (ps : list Z) : option Z :=
  match ps with
  | [] => None
  | p :: ps' =>
      match max_position ps' with
      | None => Some p
      | Some m => Some (Z.max p m)
      end
  end.

(** ** Handlers: a state monad with exceptions *)

Definition M (A : Type) : Type := DB -> result A * DB.

Definition ret {A} (a : A) : M A := fun db => (Ok a, db).
Definition raise {A} (e : Exception) : M A := fun db => (Raise e, db).
Definition bind {A B} (m : M A) (k : A -> M B) : M B :=
  fun db =>
    match m db with
    | (Ok a, db') => k a db'
    | (Raise e, db') => (Raise e, db')
    end.
Definition read {A} (q : DB -> A) : M A := fun db => (Ok (q db), db).
Definition write (w : DB -> DB) : M unit := fun db => (Ok tt, w db).

Notation "x <- m ;; k" := (bind m (fun x => k))
  (at level 61, m at next level, right associativity).
Notation "m ;;; k" := (bind m (fun _ => k))
  (at level 61, right associativity).

Definition when (b : bool) (m : M unit) : M unit := if b then m else ret tt.

(** [uuid.uuid4()]: the n-th call yields the n-th string of a sequence
    without repetition. *)
Fixpoint uuid_of_nat (n : nat) : string :=
  match n with
  | O => "u"
  | S k => String "-"%char (uuid_of_nat k)
  end.

Definition uuid4 : M string :=
  fun db => (Ok (uuid_of_nat (uuid_counter db)), set_uuid_counter S db).

(** [utils/audit.py], [log_audit]. *)
Definition log_audit (act ety eid uid : string) : M unit :=
  i <- uuid4 ;;
  write (set_audit_logs (insert_one (mkAuditEntry i act ety eid uid))).

(** *** Python call semantics used by the handlers *)

(** A call that unpacks a mapping with the double-star operator and also
    passes keywords explicitly: a keyword given explicitly that is also a
    key of the unpacked mapping makes the call raise [TypeError] before
    the callee is entered. The result is the first such keyword. *)
Definition keyword_clash (unpacked explicit : list string) : option string :=
  List.find (fun k => existsb (String.eqb k) unpacked) explicit.

Definition call_with_keywords {A} (unpacked explicit : list string) (body : M A) : M A :=
  match keyword_clash unpacked explicit with
  | Some k => raise (TypeError ("got multiple values for keyword argument '" ++ k ++ "'"))
  | None => body
  end.

(** [str(n)] and the [{n}] of an f-string, for an [int]. *)
Definition str_of_Z (n : Z) : string := NilZero.string_of_int (Z.to_int n).

(** [x if x else y] on an [int]: zero is falsy. *)
Definition position_argument (position next_position : Z) : Z :=
  if position =? 0 then next_position else position.

(** [(max_doc["position"] + 1) if max_doc else 0]. *)
Definition next_position (positions : list Z) : Z :=
  match max_position positions with
  | Some p => p + 1
  | None => 0
  end.

(** ** [routes/sections.py]

    The role list of [Depends(require_roles([...]))] is resolved by
    [utils/auth.py] before a handler is entered; the handlers below are
    the function bodies, from the point where [current_user] is bound. *)

(** Request bodies ([models/course.py]). [model_dump()] lists every field
    of the model, defaults included. *)
Record CourseSectionCreate : Type := mkCourseSectionCreate {
  sc_title : string;
  sc_position : Z;          (* [position: int = 0] *)
  sc_course_id : string
}.

Definition CourseSectionCreate_fields : list string :=
  ["title"; "summary"; "position"; "course_id"].

(** [model_dump(exclude_unset=True)]: [None] is a field the request left
    unset. *)
Record CourseSectionUpdate : Type := mkCourseSectionUpdate {
  su_title : option string;
  su_position : option Z;
  su_visible : option bool
}.

Definition archived_detail : string := "Los cursos archivados no se pueden editar".

Definition is_course (course_id : string) (c : Course) : bool := String.eqb (c_id c) course_id.
Definition in_course (course_id : string) (s : CourseSection) : bool := String.eqb (s_course_id s) course_id.
Definition is_section (section_id : string) (s : CourseSection) : bool := String.eqb (s_id s) section_id.

Definition touch_course (now : string) (c : Course) : Course :=
  mkCourse (c_id c) (fullname c) (shortname c) (category_id c) (format c)
           (num_sections c) (c_visible c) (status c) (created_by c) now
           (last_modified_by c).

Definition active_enrollment (course_id uid : string) (e : Enrollment) : bool :=
  String.eqb (e_course_id e) course_id && String.eqb (e_user_id e) uid
  && EnrollmentStatus_eqb (e_status e) ACTIVE.

Definition check_course_access (course_id : string) (current_user : CurrentUser)
    (edit : bool) : M Course :=
  course <- read (fun db => find_one (is_course course_id) (courses db)) ;;
  match course with
  | None => raise (HTTPException HTTP_404_NOT_FOUND "Curso no encontrado")
  | Some course =>
      if edit && CourseStatus_eqb (status course) ARCHIVED
      then raise (HTTPException HTTP_400_BAD_REQUEST archived_detail)
      else
        (if UserRole_eqb (role current_user) student
         then
           enrollment <- read (fun db =>
             find_one (active_enrollment course_id (user_id current_user))
                      (enrollments db)) ;;
           match enrollment with
           | None =>
               if negb (CourseStatus_eqb (status course) PUBLISHED)
                  || negb (c_visible course)
               then raise (HTTPException HTTP_403_FORBIDDEN "No tienes acceso a este curso")
               else ret tt
           | Some _ => ret tt
           end
         else ret tt) ;;;
        ret course
  end.

Definition section_positions (course_id : string) (db : DB) : list Z :=
  map s_position (List.filter (in_course course_id) (course_sections db)).

(** The section is built by a call that unpacks [section_data.model_dump()]
    and also passes [course_id=] and [position=]; the unpacked mapping has
    both keys already, so the call is a keyword clash. *)
Definition create_section (course_id : string) (section_data : CourseSectionCreate)
    (current_user : CurrentUser) (now : string) : M CourseSection :=
  check_course_access course_id current_user true ;;;
  positions <- read (section_positions course_id) ;;
  let next_position := next_position positions in
  section <- call_with_keywords CourseSectionCreate_fields ["course_id"; "position"]
    (i <- uuid4 ;;
     ret (mkCourseSection i course_id (sc_title section_data)
            (position_argument (sc_position section_data) next_position)
            true now)) ;;
  write (set_course_sections (insert_one section)) ;;;
  write (set_courses (update_one (is_course course_id) (touch_course now))) ;;;
  log_audit "create" "section" (s_id section) (user_id current_user) ;;;
  ret section.

Definition apply_section_update (upd : CourseSectionUpdate) (now : string)
    (s : CourseSection) : CourseSection :=
  mkCourseSection (s_id s) (s_course_id s)
    (match su_title upd with Some t => t | None => s_title s end)
    (match su_position upd with Some p => p | None => s_position s end)
    (match su_visible upd with Some v => v | None => s_visible s end)
    now.

Definition section_not_found {A} : M A :=
  raise (HTTPException HTTP_404_NOT_FOUND "Sección no encontrada").

Definition update_section (course_id section_id : string)
    (section_update : CourseSectionUpdate) (current_user : CurrentUser)
    (now : string) : M (option CourseSection) :=
  check_course_access course_id current_user true ;;;
  section <- read (fun db =>
    find_one (fun s => is_section section_id s && in_course course_id s)
             (course_sections db)) ;;
  match section with
  | None => section_not_found
  | Some _ =>
      write (set_course_sections
               (update_one (is_section section_id)
                           (apply_section_update section_update now))) ;;;
      write (set_courses (update_one (is_course course_id) (touch_course now))) ;;;
      log_audit "update" "section" section_id (user_id current_user) ;;;
      read (fun db => find_one (is_section section_id) (course_sections db))
  end.

Definition in_section (section_id : string) (i : CourseItem) : bool :=
  String.eqb (i_section_id i) section_id.

Definition delete_section (course_id section_id : string) (force : bool)
    (current_user : CurrentUser) (now : string) : M string :=
  check_course_access course_id current_user true ;;;
  section <- read (fun db =>
    find_one (fun s => is_section section_id s && in_course course_id s)
             (course_sections db)) ;;
  match section with
  | None => section_not_found
  | Some _ =>
      item_count <- read (fun db => count_documents (in_section section_id) (course_items db)) ;;
      if (0 <? item_count) && negb force
      then raise (HTTPException HTTP_400_BAD_REQUEST
                    ("La sección tiene " ++ str_of_Z item_count
                     ++ " elementos. Usa force=true para confirmar."))
      else
        when (0 <? item_count)
             (write (set_course_items (delete_many (in_section section_id)))) ;;;
        write (set_course_sections (delete_one (is_section section_id))) ;;;
        write (set_courses (update_one (is_course course_id) (touch_course now))) ;;;
        log_audit "delete" "section" section_id (user_id current_user) ;;;
        ret "Sección eliminada"
  end.

Definition set_section_position (p : Z) (now : string) (s : CourseSection) : CourseSection :=
  mkCourseSection (s_id s) (s_course_id s) (s_title s) p (s_visible s) now.

(** [{"$inc": {"position": k}}] *)
Definition inc_section_position (k : Z) (s : CourseSection) : CourseSection :=
  mkCourseSection (s_id s) (s_course_id s) (s_title s) (s_position s + k)
                  (s_visible s) (s_updated_at s).

Definition move_section (course_id section_id : string) (new_position : Z)
    (current_user : CurrentUser) (now : string) : M string :=
  check_course_access course_id current_user true ;;;
  section <- read (fun db =>
    find_one (fun s => is_section section_id s && in_course course_id s)
             (course_sections db)) ;;
  match section with
  | None => section_not_found
  | Some section =>
      let old_position := s_position section in
      if new_position =? old_position then ret "Sin cambios"
      else
        (if old_position <? new_position
         then write (set_course_sections (update_many
                (fun s => in_course course_id s
                          && (old_position <? s_position s)
                          && (s_position s <=? new_position))
                (inc_section_position (-1))))
         else write (set_course_sections (update_many
                (fun s => in_course course_id s
                          && (new_position <=? s_position s)
                          && (s_position s <? old_position))
                (inc_section_position 1)))) ;;;
        write (set_course_sections
                 (update_one (is_section section_id)
                             (set_section_position new_position now))) ;;;
        write (set_courses (update_one (is_course course_id) (touch_course now))) ;;;
        ret ("Sección movida de " ++ str_of_Z old_position ++ " a "
             ++ str_of_Z new_position)
  end.

(** ** [routes/items.py] *)

Record CourseItemCreate : Type := mkCourseItemCreate {
  ic_title : string;
  ic_item_type : ItemType;
  ic_position : Z;                 (* [position: int = 0] *)
  ic_section_id : option string
}.

Definition CourseItemCreate_fields : list string :=
  ["title"; "item_type"; "description"; "position"; "content"; "section_id"].

Record CourseItemUpdate : Type := mkCourseItemUpdate {
  iu_title : option string;
  iu_position : option Z;
  iu_visible : option bool
}.

Definition is_item (item_id : string) (i : CourseItem) : bool :=
  String.eqb (i_id i) item_id.

Definition item_not_found {A} : M A :=
  raise (HTTPException HTTP_404_NOT_FOUND "Item no encontrado").

Definition check_section_access (section_id : string) (current_user : CurrentUser)
    (edit : bool) : M (CourseSection * Course) :=
  section <- read (fun db => find_one (is_section section_id) (course_sections db)) ;;
  match section with
  | None => section_not_found
  | Some section =>
      course <- read (fun db => find_one (is_course (s_course_id section)) (courses db)) ;;
      match course with
      | None => raise (HTTPException HTTP_404_NOT_FOUND "Curso no encontrado")
      | Some course =>
          if edit && CourseStatus_eqb (status course) ARCHIVED
          then raise (HTTPException HTTP_400_BAD_REQUEST archived_detail)
          else ret (section, course)
      end
  end.

Definition item_positions (section_id : string) (db : DB) : list Z :=
  map i_position (List.filter (in_section section_id) (course_items db)).

(** As in [create_section]: [item_data.model_dump()] is unpacked next to
    the keywords [section_id=], [course_id=] and [position=], and it holds
    [section_id] and [position] already. *)
Definition create_item (section_id : string) (item_data : CourseItemCreate)
    (current_user : CurrentUser) (now : string) : M CourseItem :=
  sc <- check_section_access section_id current_user true ;;
  let course := snd sc in
  positions <- read (item_positions section_id) ;;
  let next_position := next_position positions in
  item <- call_with_keywords CourseItemCreate_fields
            ["section_id"; "course_id"; "position"]
    (i <- uuid4 ;;
     ret (mkCourseItem i section_id (c_id course) (ic_title item_data)
            (ic_item_type item_data)
            (position_argument (ic_position item_data) next_position)
            true now)) ;;
  write (set_course_items (insert_one item)) ;;;
  write (set_courses (update_one (is_course (c_id course)) (touch_course now))) ;;;
  log_audit "create" "item" (i_id item) (user_id current_user) ;;;
  ret item.

Definition apply_item_update (upd : CourseItemUpdate) (now : string)
    (i : CourseItem) : CourseItem :=
  mkCourseItem (i_id i) (i_section_id i) (i_course_id i)
    (match iu_title upd with Some t => t | None => i_title i end)
    (item_type i)
    (match iu_position upd with Some p => p | None => i_position i end)
    (match iu_visible upd with Some v => v | None => i_visible i end)
    now.

(** [if course and course["status"] == "archived": raise ...] *)
Definition reject_archived (course : option Course) : M unit :=
  match course with
  | Some c =>
      if CourseStatus_eqb (status c) ARCHIVED
      then raise (HTTPException HTTP_400_BAD_REQUEST archived_detail)
      else ret tt
  | None => ret tt
  end.

(** [if course: await db.courses.update_one(... updated_at ...)] *)
Definition touch_if_found (course : option Course) (now : string) : M unit :=
  match course with
  | Some c => write (set_courses (update_one (is_course (c_id c)) (touch_course now)))
  | None => ret tt
  end.

Definition update_item (item_id : string) (item_update : CourseItemUpdate)
    (current_user : CurrentUser) (now : string) : M (option CourseItem) :=
  item <- read (fun db => find_one (is_item item_id) (course_items db)) ;;
  match item with
  | None => item_not_found
  | Some item =>
      course <- read (fun db => find_one (is_course (i_course_id item)) (courses db)) ;;
      reject_archived course ;;;
      write (set_course_items
               (update_one (is_item item_id) (apply_item_update item_update now))) ;;;
      touch_if_found course now ;;;
      log_audit "update" "item" item_id (user_id current_user) ;;;
      read (fun db => find_one (is_item item_id) (course_items db))
  end.

Definition delete_item (item_id : string) (current_user : CurrentUser)
    (now : string) : M string :=
  item <- read (fun db => find_one (is_item item_id) (course_items db)) ;;
  match item with
  | None => item_not_found
  | Some item =>
      course <- read (fun db => find_one (is_course (i_course_id item)) (courses db)) ;;
      reject_archived course ;;;
      write (set_course_items (delete_one (is_item item_id))) ;;;
      touch_if_found course now ;;;
      log_audit "delete" "item" item_id (user_id current_user) ;;;
      ret "Item eliminado"
  end.

(** [target_section_id or item["section_id"]]: [None] and the empty
    string are falsy. *)
Definition or_default (target : option string) (default : string) : string :=
  match target with
  | Some t => if String.eqb t "" then default else t
  | None => default
  end.

Definition duplicate_item (item_id : string) (target_section_id : option string)
    (current_user : CurrentUser) (now : string) : M CourseItem :=
  item <- read (fun db => find_one (is_item item_id) (course_items db)) ;;
  match item with
  | None => item_not_found
  | Some item =>
      let section_id := or_default target_section_id (i_section_id item) in
      section <- read (fun db => find_one (is_section section_id) (course_sections db)) ;;
      match section with
      | None => raise (HTTPException HTTP_404_NOT_FOUND "Sección destino no encontrada")
      | Some section =>
          positions <- read (item_positions section_id) ;;
          let next_position := next_position positions in
          i <- uuid4 ;;
          let new_item :=
            mkCourseItem i section_id (s_course_id section)
                         (i_title item ++ " (Copia)") (item_type item)
                         next_position (i_visible item) now in
          write (set_course_items (insert_one new_item)) ;;;
          log_audit "duplicate" "item" (i_id new_item) (user_id current_user) ;;;
          ret new_item
      end
  end.

Definition inc_item_position (k : Z) (i : CourseItem) : CourseItem :=
  mkCourseItem (i_id i) (i_section_id i) (i_course_id i) (i_title i)
               (item_type i) (i_position i + k) (i_visible i) (i_updated_at i).

Definition relocate_item (section_id course_id : string) (p : Z) (now : string)
    (i : CourseItem) : CourseItem :=
  mkCourseItem (i_id i) section_id course_id (i_title i) (item_type i) p
               (i_visible i) now.

Definition move_item (item_id target_section_id : string) (new_position : Z)
    (current_user : CurrentUser) (now : string) : M string :=
  item <- read (fun db => find_one (is_item item_id) (course_items db)) ;;
  match item with
  | None => item_not_found
  | Some item =>
      target_section <- read (fun db =>
        find_one (is_section target_section_id) (course_sections db)) ;;
      match target_section with
      | None => raise (HTTPException HTTP_404_NOT_FOUND "Sección destino no encontrada")
      | Some target_section =>
          let old_section_id := i_section_id item in
          let old_position := i_position item in
          let update_item_doc :=
            write (set_course_items
                     (update_one (is_item item_id)
                        (relocate_item target_section_id
                           (s_course_id target_section) new_position now))) ;;;
            ret ("Item movido a sección " ++ target_section_id ++ ", posición "
                 ++ str_of_Z new_position) in
          if String.eqb target_section_id old_section_id
          then
            if new_position =? old_position then ret "Sin cambios"
            else
              (if old_position <? new_position
               then write (set_course_items (update_many
                      (fun i => in_section old_section_id i
                                && (old_position <? i_position i)
                                && (i_position i <=? new_position))
                      (inc_item_position (-1))))
               else write (set_course_items (update_many
                      (fun i => in_section old_section_id i
                                && (new_position <=? i_position i)
                                && (i_position i <? old_position))
                      (inc_item_position 1)))) ;;;
              update_item_doc
          else
            write (set_course_items (update_many
                     (fun i => in_section old_section_id i
                               && (old_position <? i_position i))
                     (inc_item_position (-1)))) ;;;
            write (set_course_items (update_many
                     (fun i => in_section target_section_id i
                               && (new_position <=? i_position i))
                     (inc_item_position 1))) ;;;
            update_item_doc
      end
  end.

Definition set_item_visible (v : bool) (now : string) (i : CourseItem) : CourseItem :=
  mkCourseItem (i_id i) (i_section_id i) (i_course_id i) (i_title i)
               (item_type i) (i_position i) v now.

Definition toggle_item_visibility (item_id : string) (visible : bool)
    (current_user : CurrentUser) (now : string) : M string :=
  item <- read (fun db => find_one (is_item item_id) (course_items db)) ;;
  match item with
  | None => item_not_found
  | Some _ =>
      write (set_course_items
               (update_one (is_item item_id) (set_item_visible visible now))) ;;;
      ret (if visible then "Item visible" else "Item oculto")
  end.


(** ** [routes/courses.py] *)

Record CourseCreate : Type := mkCourseCreate {
  cc_fullname : string;
  cc_shortname : string;
  cc_category_id : string;
  cc_format : CourseFormat;
  cc_num_sections : Z
}.

Record CourseUpdate : Type := mkCourseUpdate {
  cu_fullname : option string;
  cu_shortname : option string;
  cu_category_id : option string;
  cu_format : option CourseFormat;
  cu_num_sections : option Z;
  cu_visible : option bool;
  cu_status : option CourseStatus
}.

Definition CourseCreate_fields : list string :=
  ["fullname"; "shortname"; "category_id"; "summary"; "cover_image";
   "cover_image_alt"; "tags"; "language"; "format"; "num_sections";
   "start_date"; "end_date"].

(** [range(a, b)] *)
Definition py_range (a b : Z) : list Z :=
  map (fun k => a + Z.of_nat k) (seq 0 (Z.to_nat (b - a))).

Fixpoint for_each {A} (l : list A) (body : A -> M unit) : M unit :=
  match l with
  | [] => ret tt
  | x :: l' => body x ;;; for_each l' body
  end.

Definition has_shortname (n : string) (c : Course) : bool := String.eqb (shortname c) n.
Definition is_category (i : string) (c : Category) : bool := String.eqb (cat_id c) i.

Definition inc_course_count (k : Z) (c : Category) : Category :=
  mkCategory (cat_id c) (course_count c + k).

Definition shortname_taken {A} : M A :=
  raise (HTTPException HTTP_400_BAD_REQUEST "Ya existe un curso con ese nombre corto").

Definition course_not_found {A} : M A :=
  raise (HTTPException HTTP_404_NOT_FOUND "Curso no encontrado").

Definition create_course (course_data : CourseCreate) (current_user : CurrentUser)
    (now : string) : M Course :=
  existing <- read (fun db => find_one (has_shortname (cc_shortname course_data)) (courses db)) ;;
  match existing with
  | Some _ => shortname_taken
  | None =>
      category <- read (fun db =>
        find_one (is_category (cc_category_id course_data)) (course_categories db)) ;;
      match category with
      | None => raise (HTTPException HTTP_400_BAD_REQUEST "Categoría no encontrada")
      | Some _ =>
          course <- call_with_keywords CourseCreate_fields ["created_by"]
            (i <- uuid4 ;;
             ret (mkCourse i (cc_fullname course_data) (cc_shortname course_data)
                    (cc_category_id course_data) (cc_format course_data)
                    (cc_num_sections course_data) true DRAFT
                    (Some (user_id current_user)) now None)) ;;
          write (set_courses (insert_one course)) ;;;
          s0 <- uuid4 ;;
          write (set_course_sections
                   (insert_one (mkCourseSection s0 (c_id course) "Introducción" 0 true now))) ;;;
          for_each (py_range 1 (num_sections course + 1)) (fun i =>
            si <- uuid4 ;;
            write (set_course_sections
                     (insert_one (mkCourseSection si (c_id course)
                        ((match format course with TOPICS => "Tema " | _ => "Semana " end)
                         ++ str_of_Z i)
                        i true now)))) ;;;
          write (set_course_categories
                   (update_one (is_category (cc_category_id course_data))
                               (inc_course_count 1))) ;;;
          log_audit "create" "course" (c_id course) (user_id current_user) ;;;
          ret course
      end
  end.

Definition teacher_enrollment (course_id uid : string) (e : Enrollment) : bool :=
  String.eqb (e_course_id e) course_id && String.eqb (e_user_id e) uid
  && EnrollmentRole_eqb (e_role e) TEACHER.

(** [course["created_by"] != current_user["user_id"]] *)
Definition created_by_other (c : Course) (uid : string) : bool :=
  match created_by c with
  | Some v => negb (String.eqb v uid)
  | None => true
  end.

Definition or_else {A} (o : option A) (d : A) : A :=
  match o with Some v => v | None => d end.

Definition apply_course_update (upd : CourseUpdate) (uid now : string) (c : Course) : Course :=
  mkCourse (c_id c)
    (or_else (cu_fullname upd) (fullname c))
    (or_else (cu_shortname upd) (shortname c))
    (or_else (cu_category_id upd) (category_id c))
    (or_else (cu_format upd) (format c))
    (or_else (cu_num_sections upd) (num_sections c))
    (or_else (cu_visible upd) (c_visible c))
    (or_else (cu_status upd) (status c))
    (created_by c) now (Some uid).

Definition update_course (course_id : string) (course_update : CourseUpdate)
    (current_user : CurrentUser) (now : string) : M (option Course) :=
  course <- read (fun db => find_one (is_course course_id) (courses db)) ;;
  match course with
  | None => course_not_found
  | Some course =>
      if CourseStatus_eqb (status course) ARCHIVED
      then raise (HTTPException HTTP_400_BAD_REQUEST archived_detail)
      else
        (if UserRole_eqb (role current_user) teacher
            && created_by_other course (user_id current_user)
         then
           enrollment <- read (fun db =>
             find_one (teacher_enrollment course_id (user_id current_user))
                      (enrollments db)) ;;
           match enrollment with
           | None => raise (HTTPException HTTP_403_FORBIDDEN
                              "No tienes permisos para editar este curso")
           | Some _ => ret tt
           end
         else ret tt) ;;;
        (match cu_shortname course_update with
         | Some n =>
             if negb (String.eqb n (shortname course))
             then
               existing <- read (fun db => find_one (has_shortname n) (courses db)) ;;
               match existing with
               | Some _ => shortname_taken
               | None => ret tt
               end
             else ret tt
         | None => ret tt
         end) ;;;
        write (set_courses
                 (update_one (is_course course_id)
                    (apply_course_update course_update (user_id current_user) now))) ;;;
        log_audit "update" "course" course_id (user_id current_user) ;;;
        read (fun db => find_one (is_course course_id) (courses db))
  end.

Definition id_in (course_ids : list string) (c : Course) : bool :=
  existsb (String.eqb (c_id c)) course_ids.

Definition set_course_visible (v : bool) (now : string) (c : Course) : Course :=
  mkCourse (c_id c) (fullname c) (shortname c) (category_id c) (format c)
           (num_sections c) v (status c) (created_by c) now (last_modified_by c).

Definition set_course_status (st : CourseStatus) (now : string) (c : Course) : Course :=
  mkCourse (c_id c) (fullname c) (shortname c) (category_id c) (format c)
           (num_sections c) (c_visible c) st (created_by c) now (last_modified_by c).

Definition bulk_course_action (course_ids : list string) (action : string)
    (current_user : CurrentUser) (now : string) : M string :=
  if String.eqb action "delete" && negb (UserRole_eqb (role current_user) admin)
  then raise (HTTPException HTTP_403_FORBIDDEN
                "Solo los administradores pueden eliminar cursos")
  else
    let apply (upd : Course -> Course) : M string :=
      write (set_courses (update_many (id_in course_ids) upd)) ;;;
      for_each course_ids (fun cid =>
        log_audit ("bulk_" ++ action) "course" cid (user_id current_user)) ;;;
      ret ("Acción '" ++ action ++ "' aplicada a "
           ++ str_of_Z (Z.of_nat (List.length course_ids)) ++ " cursos") in
    if String.eqb action "hide" then apply (set_course_visible false now)
    else if String.eqb action "show" then apply (set_course_visible true now)
    else if String.eqb action "suspend" then apply (set_course_status SUSPENDED now)
    else if String.eqb action "archive" then apply (set_course_status ARCHIVED now)
    else if String.eqb action "delete" then
      for_each course_ids (fun cid =>
        course <- read (fun db => find_one (is_course cid) (courses db)) ;;
        match course with
        | Some course =>
            write (set_course_sections (delete_many (in_course cid))) ;;;
            write (set_course_items
                     (delete_many (fun i => String.eqb (i_course_id i) cid))) ;;;
            write (set_enrollments
                     (delete_many (fun e => String.eqb (e_course_id e) cid))) ;;;
            write (set_courses (delete_one (is_course cid))) ;;;
            write (set_course_categories
                     (update_one (is_category (category_id course))
                                 (inc_course_count (-1)))) ;;;
            log_audit "bulk_delete" "course" cid (user_id current_user)
        | None => ret tt
        end) ;;;
      ret (str_of_Z (Z.of_nat (List.length course_ids)) ++ " cursos eliminados")
    else raise (HTTPException HTTP_400_BAD_REQUEST "Acción no válida").

(** ** [routes/enrollments.py] *)

Record BulkEnrollResponse : Type := mkBulkEnrollResponse {
  message : string;
  enrolled : Z;
  skipped : Z
}.

Definition is_user (uid : string) (u : User) : bool := String.eqb (u_id u) uid.

Definition enrollment_of (course_id uid : string) (e : Enrollment) : bool :=
  String.eqb (e_course_id e) course_id && String.eqb (e_user_id e) uid.

(** The body of [for user_id in user_ids], with the two counters it
    updates. *)
Fixpoint bulk_enroll_loop (course_id : string) (role : EnrollmentRole)
    (current_user : CurrentUser) (user_ids : list string)
    (enrolled skipped : Z) : M (Z * Z) :=
  match user_ids with
  | [] => ret (enrolled, skipped)
  | uid :: rest =>
      user <- read (fun db => find_one (is_user uid) (users db)) ;;
      match user with
      | None => bulk_enroll_loop course_id role current_user rest enrolled (skipped + 1)
      | Some _ =>
          existing <- read (fun db => find_one (enrollment_of course_id uid) (enrollments db)) ;;
          match existing with
          | Some _ => bulk_enroll_loop course_id role current_user rest enrolled (skipped + 1)
          | None =>
              i <- uuid4 ;;
              let enrollment :=
                mkEnrollment i course_id uid role ACTIVE (Some (user_id current_user)) in
              write (set_enrollments (insert_one enrollment)) ;;;
              log_audit "bulk_enroll" "enrollment" (e_id enrollment)
                        (user_id current_user) ;;;
              bulk_enroll_loop course_id role current_user rest (enrolled + 1) skipped
          end
      end
  end.

Definition bulk_enroll (course_id : string) (user_ids : list string)
    (role : EnrollmentRole) (current_user : CurrentUser) : M BulkEnrollResponse :=
  course <- read (fun db => find_one (is_course course_id) (courses db)) ;;
  match course with
  | None => course_not_found
  | Some _ =>
      counts <- bulk_enroll_loop course_id role current_user user_ids 0 0 ;;
      let '(enrolled, skipped) := counts in
      ret (mkBulkEnrollResponse
             (str_of_Z enrolled ++ " usuarios matriculados, "
              ++ str_of_Z skipped ++ " omitidos")
             enrolled skipped)
  end.

Record EnrollmentCreate : Type := mkEnrollmentCreate {
  ec_course_id : string;
  ec_user_id : string;
  ec_role : EnrollmentRole
}.

Definition enroll_user (course_id : string) (enrollment_data : EnrollmentCreate)
    (current_user : CurrentUser) : M Enrollment :=
  course <- read (fun db => find_one (is_course course_id) (courses db)) ;;
  match course with
  | None => course_not_found
  | Some _ =>
      user <- read (fun db => find_one (is_user (ec_user_id enrollment_data)) (users db)) ;;
      match user with
      | None => raise (HTTPException HTTP_404_NOT_FOUND "Usuario no encontrado")
      | Some _ =>
          existing <- read (fun db =>
            find_one (enrollment_of course_id (ec_user_id enrollment_data))
                     (enrollments db)) ;;
          match existing with
          | Some _ => raise (HTTPException HTTP_400_BAD_REQUEST
                               "El usuario ya está matriculado en este curso")
          | None =>
              i <- uuid4 ;;
              let enrollment :=
                mkEnrollment i course_id (ec_user_id enrollment_data)
                             (ec_role enrollment_data) ACTIVE
                             (Some (user_id current_user)) in
              write (set_enrollments (insert_one enrollment)) ;;;
              log_audit "enroll" "enrollment" (e_id enrollment)
                        (user_id current_user) ;;;
              ret enrollment
          end
      end
  end.

(** ** [routes/evaluation.py]: quiz attempts *)

(** [str(v)] *)
Definition py_str (v : PyValue) : string :=
  match v with
  | PNone => "None"
  | PBool true => "True"
  | PBool false => "False"
  | PInt n => str_of_Z n
  | PStr s => s
  end.

(** [v1 == v2]; a [bool] compares as the integer it is. *)
Definition py_eq (a b : PyValue) : bool :=
  match a, b with
  | PNone, PNone => true
  | PStr s, PStr t => String.eqb s t
  | PBool x, PBool y => Bool.eqb x y
  | PInt x, PInt y => x =? y
  | PBool x, PInt y => (if x then 1 else 0) =? y
  | PInt x, PBool y => x =? (if y then 1 else 0)
  | _, _ => false
  end.

(** Truth value of [v] in a condition. *)
Definition truthy (v : PyValue) : bool :=
  match v with
  | PNone => false
  | PBool b => b
  | PInt n => negb (n =? 0)
  | PStr s => negb (String.eqb s "")
  end.

(** [s.lower()], on the ASCII letters. *)
Definition lower_ascii (c : ascii) : ascii :=
  let n := nat_of_ascii c in
  if (Nat.leb 65 n && Nat.leb n 90)%bool then ascii_of_nat (n + 32) else c.

Fixpoint lower (s : string) : string :=
  match s with
  | EmptyString => EmptyString
  | String c s' => String (lower_ascii c) (lower s')
  end.

(** [answers.get(key)] *)
Fixpoint dict_get (answers : list (string * PyValue)) (key : string) : PyValue :=
  match answers with
  | [] => PNone
  | (k, v) :: rest => if String.eqb k key then v else dict_get rest key
  end.

(** *** [round(x, 2)] on a [float]

    CPython converts the double to the decimal string with two digits
    after the point that is nearest to its exact value (ties to even) and
    reads that string back as a double. *)

Definition round_half_even_div (a b : Z) : Z :=
  let q := a / b in
  match 2 * (a mod b) ?= b with
  | Lt => q
  | Gt => q + 1
  | Eq => if Z.even q then q else q + 1
  end.

(** The magnitude [m * 2^e] in hundredths, as an integer. *)
Definition hundredths (m : positive) (e : Z) : Z :=
  if 0 <=? e then Zpos m * 100 * 2 ^ e
  else round_half_even_div (Zpos m * 100) (2 ^ (- e)).

(** The double nearest to [n / d] for positive [n] and [d], ties to even:
    the quotient is taken with more than [prec + 2] bits and a sticky bit
    before the final rounding. *)
Definition nearest_float (n d : Z) : float :=
  let k := Z.max 0 (64 + Z.log2 d - Z.log2 n) in
  let q := (n * 2 ^ k) / d in
  let sticky := if (n * 2 ^ k) mod d =? 0 then 0 else 1 in
  SF2Prim (binary_normalize prec emax (2 * q + sticky) (- k - 1) false).

Definition py_round2 (x : float) : float :=
  match Prim2SF x with
  | S754_finite s m e =>
      let n := hundredths m e in
      if n =? 0 then (if s then (-0)%float else 0%float)
      else
        let r := nearest_float n 100 in
        if s then (- r)%float else r
  | _ => x
  end.

Record QuizSubmitResponse : Type := mkQuizSubmitResponse {
  score : float;
  earned_points : float;
  total_points : float;
  passed : bool
}.

(** Numbers are binary64 floats; integer points, as the seed data has
    them, are the floats of the same value. [q.get("points", 10)]: *)
Definition points_of (q : Question) : float := or_else (q_points q) 10%float.

(** [sum(q.get("points", 10) for q in questions)] *)
Definition sum_points (qs : list Question) : float :=
  fold_left (fun acc q => (acc + points_of q)%float) qs 0%float.

(** [next((o for o in q.get("options", []) if o.get("correct")), None)] *)
Definition flagged_option (q : Question) : option QuestionOption :=
  List.find (fun o => truthy (o_correct o)) (q_options q).

(** The loop [for q in questions] that accumulates [earned_points]. *)
Fixpoint earn (answers : list (string * PyValue)) (qs : list Question)
    (earned_points : float) : float :=
  match qs with
  | [] => earned_points
  | q :: rest =>
      let user_answer := dict_get answers (q_id q) in
      if String.eqb (q_type q) "multiple_choice" then
        match flagged_option q with
        | Some correct =>
            if py_eq user_answer (o_id correct)
            then earn answers rest (earned_points + points_of q)%float
            else earn answers rest earned_points
        | None => earn answers rest earned_points
        end
      else if String.eqb (q_type q) "true_false" then
        if String.eqb (lower (py_str user_answer))
                      (lower (py_str (or_else (q_correct_answer q) (PStr ""))))
        then earn answers rest (earned_points + points_of q)%float
        else earn answers rest earned_points
      else earn answers rest earned_points
  end.

Definition is_attempt (i : string) (a : QuizAttempt) : bool := String.eqb (at_id a) i.
Definition is_quiz (i : string) (z : Quiz) : bool := String.eqb (z_id z) i.

(** [db.questions.find({"id": {"$in": ids}}).to_list(100)] *)
Definition find_questions (ids : list string) (db : DB) : list Question :=
  firstn 100 (List.filter (fun q => existsb (String.eqb (q_id q)) ids) (questions db)).

Definition complete_attempt (answers : list (string * PyValue))
    (score earned total : float) (now : string) (a : QuizAttempt) : QuizAttempt :=
  mkQuizAttempt (at_id a) (at_quiz_id a) (at_user_id a) "completed" answers
                (Some (py_round2 score)) (Some earned) (Some total) (Some now).

Definition grade_key (uid item_id course_id : string) (g : Grade) : bool :=
  String.eqb (g_user_id g) uid && String.eqb (g_item_id g) item_id
  && String.eqb (g_course_id g) course_id.

(** [update_one(filter, {"$set": ...}, upsert=True)] on [grades]. *)
Definition upsert_grade (uid item_id course_id new_id : string) (score : float)
    (now : string) (c : list Grade) : list Grade :=
  match find_one (grade_key uid item_id course_id) c with
  | Some _ =>
      update_one (grade_key uid item_id course_id)
        (fun g => mkGrade new_id (g_user_id g) (g_item_id g) (g_course_id g)
                          score "system" now) c
  | None => insert_one (mkGrade new_id uid item_id course_id score "system" now) c
  end.

Definition submit_quiz_attempt (attempt_id : string)
    (answers : list (string * PyValue)) (current_user : CurrentUser)
    (now : string) : M QuizSubmitResponse :=
  attempt <- read (fun db => find_one (is_attempt attempt_id) (quiz_attempts db)) ;;
  match attempt with
  | None => raise (HTTPException 404 "Intento no encontrado")
  | Some attempt =>
      if negb (String.eqb (at_user_id attempt) (user_id current_user))
      then raise (HTTPException 403 "No autorizado")
      else if negb (String.eqb (at_status attempt) "in_progress")
      then raise (HTTPException 400 "Este intento ya fue enviado")
      else
        quiz <- read (fun db => find_one (is_quiz (at_quiz_id attempt)) (quizzes db)) ;;
        match quiz with
        | None => raise (AttributeError "'NoneType' object has no attribute 'get'")
        | Some quiz =>
            questions <- read (find_questions (question_ids quiz)) ;;
            let total_points := sum_points questions in
            let earned_points := earn answers questions 0%float in
            let score :=
              if (0 <? total_points)%float
              then (earned_points / total_points * 100)%float
              else 0%float in
            write (set_quiz_attempts
                     (update_one (is_attempt attempt_id)
                        (complete_attempt answers score earned_points total_points now))) ;;;
            match z_item_id quiz with
            | Some item_id =>
                if negb (String.eqb item_id "")
                then
                  i <- uuid4 ;;
                  write (set_grades
                           (upsert_grade (user_id current_user) item_id
                                         (z_course_id quiz) i score now))
                else ret tt
            | None => ret tt
            end ;;;
            ret (mkQuizSubmitResponse (py_round2 score) earned_points total_points
                   (or_else (passing_grade quiz) 60%float <=? score)%float)
        end
  end.

(** ** Further handlers of the same route files *)

(** [routes/enrollments.py] *)

Record EnrollmentUpdate : Type := mkEnrollmentUpdate {
  eu_role : option EnrollmentRole;
  eu_status : option EnrollmentStatus
}.

Definition is_enrollment (i : string) (e : Enrollment) : bool :=
  String.eqb (e_id e) i.

Definition enrollment_not_found {A} : M A :=
  raise (HTTPException HTTP_404_NOT_FOUND "Matriculación no encontrada").

Definition apply_enrollment_update (upd : EnrollmentUpdate) (e : Enrollment) : Enrollment :=
  mkEnrollment (e_id e) (e_course_id e) (e_user_id e)
               (or_else (eu_role upd) (e_role e))
               (or_else (eu_status upd) (e_status e))
               (enrolled_by e).

Definition update_enrollment (enrollment_id : string)
    (enrollment_update : EnrollmentUpdate) (current_user : CurrentUser)
    : M (option Enrollment) :=
  enrollment <- read (fun db => find_one (is_enrollment enrollment_id) (enrollments db)) ;;
  match enrollment with
  | None => enrollment_not_found
  | Some _ =>
      write (set_enrollments
               (update_one (is_enrollment enrollment_id)
                           (apply_enrollment_update enrollment_update))) ;;;
      log_audit "update" "enrollment" enrollment_id (user_id current_user) ;;;
      read (fun db => find_one (is_enrollment enrollment_id) (enrollments db))
  end.

Definition unenroll_user (enrollment_id : string) (current_user : CurrentUser)
    : M string :=
  enrollment <- read (fun db => find_one (is_enrollment enrollment_id) (enrollments db)) ;;
  match enrollment with
  | None => enrollment_not_found
  | Some _ =>
      write (set_enrollments (delete_one (is_enrollment enrollment_id))) ;;;
      log_audit "unenroll" "enrollment" enrollment_id (user_id current_user) ;;;
      ret "Matriculación eliminada"
  end.

(** [routes/courses.py] *)

Definition get_course (course_id : string) (current_user : CurrentUser) : M Course :=
  course <- read (fun db => find_one (is_course course_id) (courses db)) ;;
  match course with
  | None => course_not_found
  | Some course =>
      (if UserRole_eqb (role current_user) student
       then
         if negb (CourseStatus_eqb (status course) PUBLISHED) || negb (c_visible course)
         then
           enrollment <- read (fun db =>
             find_one (active_enrollment course_id (user_id current_user))
                      (enrollments db)) ;;
           match enrollment with
           | None => raise (HTTPException HTTP_403_FORBIDDEN
                              "No tienes acceso a este curso")
           | Some _ => ret tt
           end
         else ret tt
       else ret tt) ;;;
      ret course
  end.

(** [section_id_map]: a [dict], newest binding first. *)
Fixpoint map_get (m : list (string * string)) (key default : string) : string :=
  match m with
  | [] => default
  | (k, v) :: rest => if String.eqb k key then v else map_get rest key default
  end.

(** The loop [for section in sections] of [duplicate_course]; it returns
    [section_id_map]. *)
Fixpoint copy_sections (new_course_id now : string) (sections : list CourseSection)
    (section_id_map : list (string * string)) : M (list (string * string)) :=
  match sections with
  | [] => ret section_id_map
  | section :: rest =>
      i <- uuid4 ;;
      write (set_course_sections
               (insert_one (mkCourseSection i new_course_id (s_title section)
                              (s_position section) (s_visible section) now))) ;;;
      copy_sections new_course_id now rest ((s_id section, i) :: section_id_map)
  end.

Definition of_course (course_id : string) (i : CourseItem) : bool :=
  String.eqb (i_course_id i) course_id.

Definition duplicate_course (course_id new_shortname : string)
    (new_fullname : option string) (current_user : CurrentUser) (now : string)
    : M Course :=
  course <- read (fun db => find_one (is_course course_id) (courses db)) ;;
  match course with
  | None => course_not_found
  | Some course =>
      existing <- read (fun db => find_one (has_shortname new_shortname) (courses db)) ;;
      match existing with
      | Some _ => shortname_taken
      | None =>
          i <- uuid4 ;;
          let new_course_data :=
            mkCourse i (or_default new_fullname (fullname course ++ " (Copia)"))
                     new_shortname (category_id course) (format course)
                     (num_sections course) (c_visible course) DRAFT
                     (Some (user_id current_user)) now (last_modified_by course) in
          write (set_courses (insert_one new_course_data)) ;;;
          sections <- read (fun db =>
            firstn 100 (List.filter (in_course course_id) (course_sections db))) ;;
          section_id_map <- copy_sections (c_id new_course_data) now sections [] ;;
          items <- read (fun db =>
            firstn 1000 (List.filter (of_course course_id) (course_items db))) ;;
          for_each items (fun item =>
            ii <- uuid4 ;;
            write (set_course_items
                     (insert_one
                        (mkCourseItem ii
                           (map_get section_id_map (i_section_id item) (i_section_id item))
                           (c_id new_course_data) (i_title item) (item_type item)
                           (i_position item) (i_visible item) now)))) ;;;
          write (set_course_categories
                   (update_one (is_category (category_id new_course_data))
                               (inc_course_count 1))) ;;;
          log_audit "duplicate" "course" (c_id new_course_data)
                    (user_id current_user) ;;;
          ret new_course_data
      end
  end.

(** [routes/evaluation.py] *)

Definition set_grade (uid item_id course_id : string) (g : float)
    (current_user : CurrentUser) (now : string) : M string :=
  existing <- read (fun db => find_one (grade_key uid item_id course_id) (grades db)) ;;
  match existing with
  | Some existing =>
      write (set_grades
               (update_one (fun d => String.eqb (g_id d) (g_id existing))
                  (fun d => mkGrade (g_id d) (g_user_id d) (g_item_id d)
                                    (g_course_id d) g (user_id current_user) now))) ;;;
      ret (g_id existing)
  | None =>
      grade_id <- uuid4 ;;
      write (set_grades
               (insert_one (mkGrade grade_id uid item_id course_id g
                                    (user_id current_user) now))) ;;;
      ret grade_id
  end.

Definition get_quiz_attempt (attempt_id : string) (current_user : CurrentUser)
    : M QuizAttempt :=
  attempt <- read (fun db => find_one (is_attempt attempt_id) (quiz_attempts db)) ;;
  match attempt with
  | None => raise (HTTPException 404 "Intento no encontrado")
  | Some attempt =>
      if negb (String.eqb (at_user_id attempt) (user_id current_user))
         && negb (UserRole_eqb (role current_user) admin
                  || UserRole_eqb (role current_user) teacher)
      then raise (HTTPException 403 "No autorizado")
      else ret attempt
  end.

(** ** Specification vocabulary *)


(** How one item changes under a move to another section: the moved item
    takes the new section, that section's course and the new position; a
    sibling left behind after [old] steps back by one; an item of the
    target section from [new] on steps forward by one; every other item
    is untouched. *)
Definition cross_scope_shift (old_scope new_scope new_course : string)
    (old new : Z) (moved : bool) (d d' : CourseItem) : Prop :=
  (moved = true ->
   i_section_id d' = new_scope /\ i_course_id d' = new_course
   /\ i_position d' = new) /\
  (moved = false ->
   i_section_id d' = i_section_id d /\ i_course_id d' = i_course_id d /\
   (i_section_id d = old_scope -> old < i_position d ->
    i_position d' = i_position d - 1) /\
   (i_section_id d = new_scope -> new <= i_position d ->
    i_position d' = i_position d + 1) /\
   (~ (i_section_id d = old_scope /\ old < i_position d) ->
    ~ (i_section_id d = new_scope /\ new <= i_position d) ->
    i_position d' = i_position d)).

Definition archived_error : Exception :=
  HTTPException HTTP_400_BAD_REQUEST archived_detail.

(** Request bodies as they are sent: [None] is a body without a
    [position]; the request models fill it in as 0 ([position: int = 0]). *)
Definition CourseSectionCreate_of_request (title : string) (position : option Z)
    (course_id : string) : CourseSectionCreate :=
  mkCourseSectionCreate title (or_else position 0) course_id.

Definition CourseItemCreate_of_request (title : string) (ty : ItemType)
    (position : option Z) (section_id : option string) : CourseItemCreate :=
  mkCourseItemCreate title ty (or_else position 0) section_id.

Definition is_maximum (m : Z) (l : list Z) : Prop :=
  In m l /\ forall p, In p l -> p <= m.

(** A dense sequence: the positions of a scope are 0 .. N-1, each once,
    in any order. *)
Definition dense (positions : list Z) : Prop :=
  Permutation positions (map Z.of_nat (seq 0 (List.length positions))).

(** Where a position [p] of the scope ends up when the entity at [old] is
    moved to [new]. *)
Definition moved_position (old new p : Z) : Z :=
  if p =? old then new
  else if (old <? p) && (p <=? new) then p - 1
  else if (new <=? p) && (p <? old) then p + 1
  else p.

(** Requests that create or reorder sections, and a run of them. *)
Inductive SectionRequest : Type :=
| CreateCourse (course_data : CourseCreate) (u : CurrentUser) (now : string)
| CreateSection (course_id : string) (section_data : CourseSectionCreate)
                (u : CurrentUser) (now : string)
| MoveSection (course_id section_id : string) (new_position : Z)
              (u : CurrentUser) (now : string).

Definition serve (rq : SectionRequest) (db : DB) : DB :=
  match rq with
  | CreateCourse course_data u now => snd (create_course course_data u now db)
  | CreateSection course_id section_data u now =>
      snd (create_section course_id section_data u now db)
  | MoveSection course_id section_id new_position u now =>
      snd (move_section course_id section_id new_position u now db)
  end.

Definition serve_all (rqs : list SectionRequest) (db : DB) : DB :=
  fold_left (fun db rq => serve rq db) rqs db.



(** An identifier handed out by one of the first [n] calls of [uuid4]. *)
Definition issued (n : nat) (i : string) : Prop :=
  exists k, (k < n)%nat /\ i = uuid_of_nat k.

(** The invariant behind density: section ids are pairwise distinct, ids
    and course references of sections were issued by [uuid4], and the
    positions of every course are dense. *)
Definition sections_in_order (db : DB) : Prop :=
  NoDup (map s_id (course_sections db)) /\
  Forall (issued (uuid_counter db)) (map s_id (course_sections db)) /\
  Forall (issued (uuid_counter db)) (map s_course_id (course_sections db)) /\
  forall course_id, dense (section_positions course_id db).

(** A user id that a bulk enrolment takes up: the user exists and has no
    enrolment in the course yet. *)
Definition enrollable (course_id : string) (db : DB) (uid : string) : bool :=
  match find_one (is_user uid) (users db) with
  | None => false
  | Some _ =>
      match find_one (enrollment_of course_id uid) (enrollments db) with
      | Some _ => false
      | None => true
      end
  end.

(** An enrolment as [bulk_enroll] writes it. *)
Definition bulk_enrolled (course_id : string) (role : EnrollmentRole)
    (by_user : string) (e : Enrollment) : Prop :=
  e_course_id e = course_id /\ e_role e = role /\ e_status e = ACTIVE
  /\ enrolled_by e = Some by_user.

Definition forbidden_error : Exception :=
  HTTPException HTTP_403_FORBIDDEN "No tienes permisos para editar este curso".

(** The new shortname of an update, if any, is the course's own or not in
    use. *)
Definition shortname_free (db : DB) (course : Course) (upd : CourseUpdate) : Prop :=
  match cu_shortname upd with
  | Some n => n = shortname course \/ find_one (has_shortname n) (courses db) = None
  | None => True
  end.

(** The same store with the status of every enrolment rewritten. *)
Definition restatus (f : Enrollment -> EnrollmentStatus) (db : DB) : DB :=
  set_enrollments
    (map (fun e => mkEnrollment (e_id e) (e_course_id e) (e_user_id e) (e_role e)
                                (f e) (enrolled_by e)))
    db.

(** An enrolment of [uid] in the course with role teacher. *)
Definition teaches (course_id uid : string) (e : Enrollment) : Prop :=
  e_course_id e = course_id /\ e_user_id e = uid /\ e_role e = TEACHER.



(** No two enrolments for the same course and user. *)
Definition enrollment_pair (e : Enrollment) : string * string :=
  (e_course_id e, e_user_id e).

Definition unique_enrollments (db : DB) : Prop :=
  NoDup (map enrollment_pair (enrollments db)).


(** No two courses with the same shortname. *)
Definition unique_shortnames (db : DB) : Prop :=
  NoDup (map shortname (courses db)).

(** The copies that [duplicate_course] makes of a list of sections, the
    first one under the [k]-th identifier. *)
Definition section_copies (k : nat) (new_course_id now : string)
    (sections : list CourseSection) : list CourseSection :=
  map (fun '(j, s) => mkCourseSection (uuid_of_nat j) new_course_id (s_title s)
                                       (s_position s) (s_visible s) now)
      (combine (seq k (List.length sections)) sections).

(** [section_id_map] after the loop over [sections]. *)
Definition section_copy_map (k : nat) (sections : list CourseSection)
    : list (string * string) :=
  rev (combine (map s_id sections)
               (map uuid_of_nat (seq k (List.length sections)))).

(** The copies made of a list of items. *)
Definition item_copies (k : nat) (new_course_id now : string)
    (section_id_map : list (string * string)) (items : list CourseItem)
    : list CourseItem :=
  map (fun '(j, i) => mkCourseItem (uuid_of_nat j)
                        (map_get section_id_map (i_section_id i) (i_section_id i))
                        new_course_id (i_title i) (item_type i) (i_position i)
                        (i_visible i) now)
      (combine (seq k (List.length items)) items).

(** One grade per student, item and course. *)
Definition grade_triple (g : Grade) : string * string * string :=
  (g_user_id g, g_item_id g, g_course_id g).

Definition unique_grades (db : DB) : Prop :=
  NoDup (map grade_triple (grades db)).

(** ** Sample stores *)

Definition empty_db : DB := mkDB [] [] [] [] [] [] [] [] [] [] [] 0.

Definition sample_admin : CurrentUser := mkCurrentUser "admin-1" admin.
Definition sample_teacher : CurrentUser := mkCurrentUser "teacher-1" teacher.

Definition sample_course (i : string) (st : CourseStatus) : Course :=
  mkCourse i "Curso" i "cat-1" TOPICS 4 true st (Some "admin-1") "t0" None.

Definition sample_section (i course_id : string) (p : Z) : CourseSection :=
  mkCourseSection i course_id i p true "t0".

Definition sample_item (i section_id course_id : string) (p : Z) : CourseItem :=
  mkCourseItem i section_id course_id i PAGE p true "t0".

(** A course with five sections at positions 0..4, and two of its
    sections filled with three and two items. *)
Definition five_sections : DB :=
  set_course_items (fun _ =>
    [sample_item "a0" "s0" "c1" 0; sample_item "a1" "s0" "c1" 1;
     sample_item "a2" "s0" "c1" 2;
     sample_item "b0" "s1" "c1" 0; sample_item "b1" "s1" "c1" 1])
  (set_course_sections (fun _ =>
    [sample_section "s0" "c1" 0; sample_section "s1" "c1" 1;
     sample_section "s2" "c1" 2; sample_section "s3" "c1" 3;
     sample_section "s4" "c1" 4])
  (set_courses (fun _ => [sample_course "c1" PUBLISHED]) empty_db)).

(** The same content under a course that has been archived. *)
Definition archived_sections : DB :=
  set_courses (fun _ => [sample_course "c1" ARCHIVED]) five_sections.

(** A store with one category and nothing else. *)
Definition one_category : DB :=
  set_course_categories (fun _ => [mkCategory "cat-1" 0]) empty_db.


(** A five-section course, a create without a position, and two moves to
    positions in use. *)
Definition moves_in_range : list SectionRequest :=
  [CreateCourse (mkCourseCreate "Curso" "C1" "cat-1" TOPICS 4) sample_admin "t0";
   CreateSection "u" (CourseSectionCreate_of_request "Tema" None "u") sample_admin "t1";
   MoveSection "u" "---u" 0 sample_admin "t2";
   MoveSection "u" "-u" 4 sample_admin "t3"].

(** Course c1 with two users, one of them enrolled already. *)
Definition two_users : DB :=
  mkDB [mkUser "ana" "ana@aula.es" student; mkUser "luis" "luis@aula.es" student]
       [] [sample_course "c1" PUBLISHED] [] []
       [mkEnrollment "e1" "c1" "ana" STUDENT ACTIVE None]
       [] [] [] [] [] 0.

Definition rename (n : string) : CourseUpdate :=
  mkCourseUpdate (Some n) None None None None None None.

Definition change_status (st : CourseStatus) : CourseUpdate :=
  mkCourseUpdate None None None None None None (Some st).

(** Course c1 of another author, and the teacher enrolled in it as a
    teacher with an enrolment that has ended. *)
Definition ended_teacher : DB :=
  set_enrollments
    (fun _ => [mkEnrollment "e9" "c1" "teacher-1" TEACHER ENDED None])
    five_sections.

(** The quiz of P7 with one attempt in progress; a quiz whose only
    question carries negative points; a quiz without questions. *)
Definition quiz_store : DB :=
  mkDB [] [] [] [] [] [] []
       [mkQuestion "q1" "multiple_choice" (Some 10%float)
                   [mkQuestionOption (PStr "a") (PBool true);
                    mkQuestionOption (PStr "b") (PBool false)]
                   None;
        mkQuestion "q2" "true_false" (Some 5%float) [] (Some (PBool true));
        mkQuestion "q3" "true_false" (Some (-5)%float) [] (Some (PStr "true"))]
       [mkQuiz "z1" "c1" ["q1"; "q2"] None None;
        mkQuiz "z2" "c1" ["q3"] None None;
        mkQuiz "z3" "c1" [] None None]
       [mkQuizAttempt "t1" "z1" "ana" "in_progress" [] None None None None;
        mkQuizAttempt "t2" "z2" "ana" "in_progress" [] None None None None;
        mkQuizAttempt "t3" "z3" "ana" "in_progress" [] None None None None]
       [] 0.

Definition ana : CurrentUser := mkCurrentUser "ana" student.

(** Two courses of one category: c1 published with the content of
    [five_sections], c2 archived and empty. *)
Definition two_courses : DB :=
  set_courses (fun _ => [sample_course "c1" PUBLISHED; sample_course "c2" ARCHIVED])
    (set_course_categories (fun _ => [mkCategory "cat-1" 2]) five_sections).

Definition reshortname (n : string) : CourseUpdate :=
  mkCourseUpdate None (Some n) None None None None None.

(** The store after an administrator has created course C1 with its
    sections 0..4 in [one_category]; the course has identifier "u". *)
Definition created_course : DB :=
  snd (create_course (mkCourseCreate "Curso" "C1" "cat-1" TOPICS 4)
                     sample_admin "t0" one_category).

(** A quiz of three questions tied to the gradebook item "i1", with one
    attempt of ana in progress and a grade that a teacher gave her for
    the item before. *)
Definition graded_quiz_store : DB :=
  mkDB [] [] [] [] [] []
       [mkGrade "g1" "ana" "i1" "c1" 40%float "teacher-1" "t0"]
       [mkQuestion "q1" "true_false" (Some 1%float) [] (Some (PBool true));
        mkQuestion "q2" "true_false" (Some 1%float) [] (Some (PBool true));
        mkQuestion "q3" "true_false" (Some 1%float) [] (Some (PBool false))]
       [mkQuiz "z1" "c1" ["q1"; "q2"; "q3"] (Some "i1") None]
       [mkQuizAttempt "t1" "z1" "ana" "in_progress" [] None None None None]
       [] 0.

(** The created course with two pages in its introduction and one in its
    first topic. *)
Definition course_with_items : DB :=
  set_course_items
    (fun _ => [sample_item "a" "-u" "u" 0; sample_item "b" "-u" "u" 1;
               sample_item "c" "--u" "u" 0])
    created_course.

(** The store of [two_users] with course c1 still a draft. *)
Definition draft_course_store : DB :=
  set_courses (fun _ => [sample_course "c1" DRAFT]) two_users.

(** ** Proof automation *)

(** Boolean tests in hypotheses as propositions. *)
Ltac break_bools :=
  repeat match goal with
  | H : (_ && _)%bool = true |- _ => apply andb_prop in H; destruct H
  | H : (_ && _)%bool = false |- _ => apply andb_false_iff in H
  | H : (_ <? _) = true |- _ => apply Z.ltb_lt in H
  | H : (_ <? _) = false |- _ => apply Z.ltb_ge in H
  | H : (_ <=? _) = true |- _ => apply Z.leb_le in H
  | H : (_ <=? _) = false |- _ => apply Z.leb_gt in H
  | H : (_ =? _) = true |- _ => apply Z.eqb_eq in H
  | H : (_ =? _) = false |- _ => apply Z.eqb_neq in H
  | H : String.eqb _ _ = true |- _ => apply String.eqb_eq in H
  | H : String.eqb _ _ = false |- _ => apply String.eqb_neq in H
  end.

(** Case analysis on the disjunctions that remain. *)
Ltac split_cases :=
  repeat (break_bools;
          match goal with
          | H : _ \/ _ |- _ => destruct H
          end);
  break_bools; try congruence; try lia.

(** [NoDup] of a list of distinct string literals. *)
Ltac nodup_strings :=
  repeat (constructor; [cbn; intuition discriminate|]); constructor.

(** * Properties *)

(** ** The collection operations *)

Lemma update_one_unique_key {A} (key : A -> string) (x : string) (upd : A -> A)
    (c : list A) :
  NoDup (map key c) ->
  update_one (fun d => String.eqb (key d) x) upd c
  = update_many (fun d => String.eqb (key d) x) upd c.
Proof.
  induction c as [|d c IH]; intros Hnd; [reflexivity|].
  inversion Hnd as [|k ks Hnotin Hnd']; subst.
  cbn [update_one update_many map].
  destruct (String.eqb_spec (key d) x) as [Heq|Hne].
  - f_equal. symmetry. rewrite <- (map_id c) at 2.
    apply map_ext_in. intros d' Hin.
    destruct (String.eqb_spec (key d') x) as [Heq'|]; [|reflexivity].
    exfalso. apply Hnotin. rewrite Heq, <- Heq'. now apply in_map.
  - f_equal. now apply IH.
Qed.

Lemma update_many_keys {A B} (key : A -> B) (f : A -> bool) (upd : A -> A)
    (c : list A) :
  (forall d, key (upd d) = key d) ->
  map key (update_many f upd c) = map key c.
Proof.
  intros Hk. unfold update_many. rewrite map_map.
  apply map_ext. intros d. destruct (f d); auto.
Qed.


Lemma length_update_one {A} (f : A -> bool) (u : A -> A) (c : list A) :
  List.length (update_one f u c) = List.length c.
Proof.
  induction c as [|d c IH]; [reflexivity|].
  cbn. destruct (f d); cbn; [reflexivity|now rewrite IH].
Qed.

Lemma length_update_many {A} (f : A -> bool) (u : A -> A) (c : list A) :
  List.length (update_many f u c) = List.length c.
Proof. apply length_map. Qed.

Lemma unique_key_eq {A B} (key : A -> B) (c : list A) (d d' : A) :
  NoDup (map key c) -> In d c -> In d' c -> key d = key d' -> d = d'.
Proof.
  induction c as [|a c IH]; intros Hnd Hd Hd' Hk; [contradiction|].
  inversion Hnd as [|? ? Hnotin Hnd']; subst.
  destruct Hd as [->|Hd], Hd' as [->|Hd']; auto.
  - exfalso. apply Hnotin. rewrite Hk. now apply in_map.
  - exfalso. apply Hnotin. rewrite <- Hk. now apply in_map.
Qed.

Lemma nth_error_update_many {A} (f : A -> bool) (u : A -> A) (c : list A) n d :
  nth_error c n = Some d ->
  nth_error (update_many f u c) n = Some (if f d then u d else d).
Proof.
  intros H. unfold update_many. rewrite nth_error_map, H. reflexivity.
Qed.

Lemma nth_error_update_one_key {A} (key : A -> string) (x : string)
    (v : A -> A) (c : list A) n d :
  NoDup (map key c) ->
  nth_error c n = Some d ->
  nth_error (update_one (fun d => String.eqb (key d) x) v c) n
  = Some (if String.eqb (key d) x then v d else d).
Proof.
  intros Hnd H. rewrite update_one_unique_key by assumption.
  now apply (nth_error_update_many (fun d => String.eqb (key d) x)).
Qed.

(** ** Moves inside a scope *)



(** P2: moving the section at position 2 to position 0 in a five-section
    course; and the same kind of move of an item inside its section. *)
Example move_section_2_to_0 :
  let (r, db') := move_section "c1" "s2" 0 sample_admin "t1" five_sections in
  r = Ok "Sección movida de 2 a 0" /\
  map (fun s => (s_id s, s_position s)) (course_sections db')
  = [("s0", 1); ("s1", 2); ("s2", 0); ("s3", 3); ("s4", 4)].
Proof. vm_compute. split; reflexivity. Qed.

Example move_item_0_to_2 :
  let (r, db') := move_item "a0" "s0" 2 sample_admin "t1" five_sections in
  r = Ok "Item movido a sección s0, posición 2" /\
  map (fun i => (i_id i, i_section_id i, i_position i)) (course_items db')
  = [("a0", "s0", 2); ("a1", "s0", 0); ("a2", "s0", 1);
     ("b0", "s1", 0); ("b1", "s1", 1)].
Proof. vm_compute. split; reflexivity. Qed.

(** ** Moves across scopes *)

(** C4. [move_item] to a section other than the item's own: the siblings
    left behind after the old position step back by one, the items of the
    target section from the new position on step forward by one, and the
    moved item receives the target section, that section's course and the
    new position. Both shifts are applied, and no item is added or
    removed. *)
Theorem move_across_scopes db item_id target_section_id new_position u now
    item target :
  NoDup (map i_id (course_items db)) ->
  find_one (is_item item_id) (course_items db) = Some item ->
  find_one (is_section target_section_id) (course_sections db) = Some target ->
  target_section_id <> i_section_id item ->
  exists msg db',
    move_item item_id target_section_id new_position u now db = (Ok msg, db') /\
    List.length (course_items db') = List.length (course_items db) /\
    forall k d, nth_error (course_items db) k = Some d ->
      exists d', nth_error (course_items db') k = Some d' /\
        i_id d' = i_id d /\
        cross_scope_shift (i_section_id item) target_section_id
          (s_course_id target) (i_position item) new_position
          (is_item item_id d) d d'.
Proof.
  intros Hnd Hfind Htarget Hother.
  unfold move_item, bind at 1, read at 1. rewrite Hfind.
  unfold bind at 1, read at 1. rewrite Htarget.
  apply String.eqb_neq in Hother. rewrite Hother.
  apply String.eqb_neq in Hother.
  apply find_some in Hfind. destruct Hfind as [Hin Hid].
  assert (Huniq : forall k d, nth_error (course_items db) k = Some d ->
                   i_id d = item_id -> d = item).
  { intros k d Hk Hd.
    apply (unique_key_eq i_id (course_items db)); auto.
    - eapply nth_error_In; eauto.
    - unfold is_item in Hid. apply String.eqb_eq in Hid. congruence. }
  eexists _, _. split; [reflexivity|].
  cbn [course_items set_course_items].
  split; [now rewrite length_update_one, !length_update_many|].
  intros k d Hk. eexists. split.
  { unfold is_item at 1. apply (nth_error_update_one_key i_id).
    - rewrite !update_many_keys by reflexivity. assumption.
    - apply nth_error_update_many, nth_error_update_many. eassumption. }
  specialize (Huniq k d Hk).
  unfold cross_scope_shift, is_item, in_section.
  destruct (String.eqb_spec (i_id d) item_id) as [Hmoved|Hmoved];
    [specialize (Huniq Hmoved); subst d|clear Huniq];
    repeat match goal with
           | |- context [if ?b then _ else _] => destruct b eqn:?
           end;
    cbn [i_id i_section_id i_course_id i_position inc_item_position relocate_item] in *;
    break_bools; repeat split; intros; break_bools;
    try congruence; try lia; split_cases;
    try (exfalso; intuition (congruence || lia)).
Qed.

Lemma move_across_scopes_witness :
  exists msg db',
    move_item "a1" "s1" 0 sample_admin "t1" five_sections = (Ok msg, db') /\
    List.length (course_items db') = 5%nat /\
    forall k d, nth_error (course_items five_sections) k = Some d ->
      exists d', nth_error (course_items db') k = Some d' /\
        i_id d' = i_id d /\
        cross_scope_shift "s0" "s1" "c1" 1 0 (is_item "a1" d) d d'.
Proof.
  apply (move_across_scopes five_sections "a1" "s1" 0 sample_admin "t1"
           (sample_item "a1" "s0" "c1" 1) (sample_section "s1" "c1" 1)).
  - cbn. nodup_strings.
  - reflexivity.
  - reflexivity.
  - discriminate.
Defined.

(** P3: an item at position 1 of a three-item section moved to position 0
    of a two-item section. *)
Example move_item_to_other_section :
  let (r, db') := move_item "a1" "s1" 0 sample_admin "t1" five_sections in
  r = Ok "Item movido a sección s1, posición 0" /\
  map (fun i => (i_id i, i_section_id i, i_position i)) (course_items db')
  = [("a0", "s0", 0); ("a1", "s1", 0); ("a2", "s0", 1);
     ("b0", "s1", 1); ("b1", "s1", 2)].
Proof. vm_compute. split; reflexivity. Qed.

(** ** The archived lock *)

Lemma check_course_access_archived db course_id course u :
  find_one (is_course course_id) (courses db) = Some course ->
  status course = ARCHIVED ->
  check_course_access course_id u true db = (Raise archived_error, db).
Proof.
  intros Hfind Hst. unfold check_course_access, bind, read.
  rewrite Hfind, Hst. reflexivity.
Qed.

(** Every section handler that edits refuses an archived course, whoever
    the caller is, before it writes anything. *)
Lemma archived_lock_sections db course_id course u now :
  find_one (is_course course_id) (courses db) = Some course ->
  status course = ARCHIVED ->
  (forall data, create_section course_id data u now db = (Raise archived_error, db)) /\
  (forall sid upd, update_section course_id sid upd u now db = (Raise archived_error, db)) /\
  (forall sid force, delete_section course_id sid force u now db = (Raise archived_error, db)) /\
  (forall sid p, move_section course_id sid p u now db = (Raise archived_error, db)).
Proof.
  intros Hfind Hst.
  pose proof (check_course_access_archived db course_id course u Hfind Hst) as Hgate.
  repeat split; intros;
    unfold create_section, update_section, delete_section, move_section;
    unfold bind at 1; rewrite Hgate; reflexivity.
Qed.

(** [create_item], [update_item] and [delete_item] refuse as well. *)
Lemma archived_lock_items db course u now :
  status course = ARCHIVED ->
  (forall section_id section data,
     find_one (is_section section_id) (course_sections db) = Some section ->
     find_one (is_course (s_course_id section)) (courses db) = Some course ->
     create_item section_id data u now db = (Raise archived_error, db)) /\
  (forall item_id item,
     find_one (is_item item_id) (course_items db) = Some item ->
     find_one (is_course (i_course_id item)) (courses db) = Some course ->
     (forall upd, update_item item_id upd u now db = (Raise archived_error, db)) /\
     delete_item item_id u now db = (Raise archived_error, db)).
Proof.
  intros Hst. split.
  - intros section_id section data Hs Hc.
    unfold create_item, check_section_access, bind, read.
    rewrite Hs, Hc, Hst. reflexivity.
  - intros item_id item Hi Hc. split; [intros upd|];
      unfold update_item, delete_item, reject_archived, bind, read;
      rewrite Hi, Hc, Hst; reflexivity.
Qed.

(** C2. The lock is missing from three item handlers. On an item of an
    archived course, [move_item], [duplicate_item] and
    [toggle_item_visibility] answer with success and write to the store,
    where [update_item] and [delete_item] on the same item raise the
    archived-course error and leave the store as it was. *)
Theorem archived_item_handlers_without_lock :
  status (sample_course "c1" ARCHIVED) = ARCHIVED /\
  find_one (is_course "c1") (courses archived_sections)
  = Some (sample_course "c1" ARCHIVED) /\
  (let (r, db') := move_item "a0" "s0" 2 sample_admin "t1" archived_sections in
   r = Ok "Item movido a sección s0, posición 2" /\
   map (fun i => (i_id i, i_position i)) (course_items db')
   = [("a0", 2); ("a1", 0); ("a2", 1); ("b0", 0); ("b1", 1)]) /\
  (let (r, db') := toggle_item_visibility "a0" false sample_admin "t1" archived_sections in
   r = Ok "Item oculto" /\
   option_map i_visible (find_one (is_item "a0") (course_items db')) = Some false) /\
  (let (r, db') := duplicate_item "a0" None sample_admin "t1" archived_sections in
   (exists copy, r = Ok copy) /\
   List.length (course_items db') = 6%nat) /\
  update_item "a0" (mkCourseItemUpdate None (Some 2) None) sample_admin "t1"
              archived_sections
  = (Raise archived_error, archived_sections) /\
  delete_item "a0" sample_admin "t1" archived_sections
  = (Raise archived_error, archived_sections).
Proof.
  repeat split; try reflexivity.
  vm_compute. eexists. reflexivity.
Qed.

(** ** Inserts *)

Lemma max_position_none l : max_position l = None -> l = [].
Proof.
  destruct l as [|p l]; [reflexivity|]. cbn.
  destruct (max_position l); discriminate.
Qed.

Lemma max_position_is_maximum l m : max_position l = Some m -> is_maximum m l.
Proof.
  revert m. induction l as [|p l IH]; intros m H; [discriminate|].
  cbn in H. destruct (max_position l) as [m'|] eqn:Hm.
  - injection H as <-. destruct (IH m' eq_refl) as [Hin Hle]. split.
    + destruct (Z.max_spec p m') as [[_ ->]|[_ ->]]; [now right|now left].
    + intros q [<-|Hq]; [lia|]. specialize (Hle q Hq). lia.
  - injection H as <-. apply max_position_none in Hm. subst l. split.
    + now left.
    + intros q [<-|[]]. lia.
Qed.



Lemma check_course_access_reads course_id u edit db r db' :
  check_course_access course_id u edit db = (r, db') -> db' = db.
Proof.
  unfold check_course_access, bind, read, ret, raise.
  destruct (find_one _ (courses db)); [|intros H; now inversion H].
  destruct (edit && _); [intros H; now inversion H|].
  destruct (UserRole_eqb _ _); [|intros H; now inversion H].
  destruct (find_one _ (enrollments db)); [intros H; now inversion H|].
  destruct (_ || _); intros H; now inversion H.
Qed.







Example create_section_raises :
  create_section "c1" (CourseSectionCreate_of_request "Tema" None "c1")
                 sample_admin "t1" five_sections
  = (Raise (TypeError "got multiple values for keyword argument 'course_id'"),
     five_sections)
  /\ create_item "s0" (CourseItemCreate_of_request "Pagina" PAGE None None)
                 sample_admin "t1" five_sections
  = (Raise (TypeError "got multiple values for keyword argument 'section_id'"),
     five_sections).
Proof. split; reflexivity. Qed.

(** ** Density of the positions of a scope *)

Lemma in_iota (n : nat) (x : Z) :
  In x (map Z.of_nat (seq 0 n)) <-> 0 <= x < Z.of_nat n.
Proof.
  rewrite in_map_iff. split.
  - intros (k & <- & Hk). apply in_seq in Hk. lia.
  - intros Hx. exists (Z.to_nat x). split; [lia|]. apply in_seq. lia.
Qed.

Lemma NoDup_iota (n : nat) : NoDup (map Z.of_nat (seq 0 n)).
Proof.
  apply NoDup_map_NoDup_ForallPairs; [|apply seq_NoDup].
  intros a b _ _ H. lia.
Qed.

Lemma dense_NoDup l : dense l -> NoDup l.
Proof.
  intros H. apply Permutation_sym in H.
  eapply Permutation_NoDup; [exact H|apply NoDup_iota].
Qed.

Lemma dense_bounds l p : dense l -> In p l -> 0 <= p < Z.of_nat (List.length l).
Proof.
  intros H Hp. apply in_iota. eapply Permutation_in; eauto.
Qed.

Lemma moved_position_range old new n p :
  0 <= old < n -> 0 <= new < n -> 0 <= p < n ->
  0 <= moved_position old new p < n.
Proof.
  intros Ho Hn Hp. unfold moved_position.
  repeat match goal with
         | |- context [if ?b then _ else _] => destruct b eqn:?
         end; break_bools; lia.
Qed.

Lemma moved_position_inj old new p q :
  moved_position old new p = moved_position old new q -> p = q.
Proof.
  unfold moved_position.
  repeat match goal with
         | |- context [if ?b then _ else _] => destruct b eqn:?
         end; intros; split_cases.
Qed.

(** A move to a position in use permutes the positions of the scope. *)
Lemma dense_moved old new l :
  dense l ->
  0 <= old < Z.of_nat (List.length l) ->
  0 <= new < Z.of_nat (List.length l) ->
  dense (map (moved_position old new) l).
Proof.
  intros Hd Ho Hn. unfold dense in *. rewrite length_map.
  set (n := List.length l) in *.
  transitivity (map (moved_position old new) (map Z.of_nat (seq 0 n))).
  - now apply Permutation_map.
  - apply NoDup_Permutation_bis.
    + apply NoDup_map_NoDup_ForallPairs; [|apply NoDup_iota].
      intros a b _ _. apply moved_position_inj.
    + rewrite !length_map. apply le_n.
    + intros x Hx. apply in_map_iff in Hx. destruct Hx as (p & <- & Hp).
      apply in_iota. apply in_iota in Hp.
      apply moved_position_range; [exact Ho|exact Hn|exact Hp].
Qed.

Lemma filter_map_pointwise {A} (f : A -> bool) (g : A -> A) (l : list A) :
  (forall d, In d l -> f (g d) = f d) ->
  List.filter f (map g l) = map g (List.filter f l).
Proof.
  induction l as [|a l IH]; intros H; [reflexivity|].
  cbn. rewrite (H a (or_introl eq_refl)), IH by (intros; apply H; now right).
  destruct (f a); reflexivity.
Qed.



Lemma uuid_of_nat_inj a b : uuid_of_nat a = uuid_of_nat b -> a = b.
Proof.
  revert b. induction a as [|a IH]; intros [|b] H; cbn in H;
    try reflexivity; try discriminate.
  injection H as H. f_equal. now apply IH.
Qed.

(** The loop of [create_course] that adds the numbered sections. *)
Lemma create_sections_loop (mk : string -> Z -> CourseSection) (l : list Z) :
  forall db, exists db' tail,
    for_each l (fun i =>
      si <- uuid4 ;;
      write (set_course_sections (insert_one (mk si i)))) db = (Ok tt, db') /\
    course_sections db' = (course_sections db ++ tail)%list /\
    tail = map (fun '(k, p) => mk (uuid_of_nat k) p)
               (combine (seq (uuid_counter db) (List.length l)) l) /\
    uuid_counter db' = (uuid_counter db + List.length l)%nat.
Proof.
  induction l as [|p l IH]; intros db.
  - exists db, []. cbn. rewrite app_nil_r, Nat.add_0_r. auto.
  - cbn [for_each].
    destruct (IH (set_course_sections (insert_one (mk (uuid_of_nat (uuid_counter db)) p))
                    (set_uuid_counter S db)))
      as (db' & tail & Hrun & Hsecs & Htail & Hctr).
    exists db', (mk (uuid_of_nat (uuid_counter db)) p :: tail).
    split; [exact Hrun|].
    cbn [course_sections set_course_sections set_uuid_counter uuid_counter] in *.
    split; [rewrite Hsecs; unfold insert_one; now rewrite <- app_assoc|].
    split; [cbn; now rewrite Htail|].
    rewrite Hctr. cbn. lia.
Qed.

Lemma py_range_from_1 (n : Z) :
  py_range 1 (n + 1) = map (fun k => 1 + Z.of_nat k) (seq 0 (Z.to_nat n)).
Proof. unfold py_range. now replace (n + 1 - 1) with n by lia. Qed.

Lemma map_fst_combine_eq {A B} (a : list A) (b : list B) :
  List.length a = List.length b -> map fst (combine a b) = a.
Proof.
  revert b. induction a as [|x a IH]; intros [|y b] H; try discriminate; [reflexivity|].
  cbn. f_equal. apply IH. now injection H.
Qed.

Lemma map_snd_combine_eq {A B} (a : list A) (b : list B) :
  List.length a = List.length b -> map snd (combine a b) = b.
Proof.
  revert b. induction a as [|x a IH]; intros [|y b] H; try discriminate; [reflexivity|].
  cbn. f_equal. apply IH. now injection H.
Qed.

Lemma create_course_run data u now db r db' :
  create_course data u now db = (r, db') ->
  db' = db \/
  exists tail,
    course_sections db' = (course_sections db ++ tail)%list /\
    map s_position tail = map Z.of_nat (seq 0 (S (Z.to_nat (cc_num_sections data)))) /\
    Forall (fun s => s_course_id s = uuid_of_nat (uuid_counter db)) tail /\
    map s_id tail
    = map uuid_of_nat (seq (S (uuid_counter db)) (S (Z.to_nat (cc_num_sections data)))) /\
    uuid_counter db'
    = (uuid_counter db + Z.to_nat (cc_num_sections data) + 3)%nat.
Proof.
  unfold create_course. unfold bind at 1, read at 1.
  destruct (find_one _ (courses db)); [intros H; inversion H; now left|].
  unfold bind at 1, read at 1.
  destruct (find_one _ (course_categories db)); [|intros H; inversion H; now left].
  intros Hrun. right.
  change (call_with_keywords CourseCreate_fields ["created_by"]) with (fun m : M Course => m) in Hrun.
  cbv beta in Hrun.
  set (cid := uuid_of_nat (uuid_counter db)) in *.
  set (mk := fun (si : string) (i : Z) =>
               mkCourseSection si cid
                 ((match cc_format data with TOPICS => "Tema " | _ => "Semana " end)
                  ++ str_of_Z i) i true now).
  set (l := py_range 1 (cc_num_sections data + 1)).
  cbv [bind uuid4 ret write read log_audit] in Hrun.
  cbn [c_id format num_sections] in Hrun.
  match type of Hrun with
  | context [for_each ?l0 ?b ?d] =>
      destruct (create_sections_loop mk l0 d) as (db5 & tail & Hloop & Hsecs & Htail & Hctr);
      change (for_each l0 b d = (Ok tt, db5)) in Hloop; rewrite Hloop in Hrun
  end.
  inversion Hrun; subst r db'; clear Hrun Hloop.
  cbn [course_sections set_course_sections set_courses set_uuid_counter
       set_course_categories set_audit_logs uuid_counter] in *.
  rewrite py_range_from_1 in *. rewrite length_map, length_seq in *.
  set (k := Z.to_nat (cc_num_sections data)) in *.
  eexists (_ :: tail).
  split; [rewrite Hsecs; unfold insert_one; rewrite <- app_assoc; reflexivity|].
  subst tail.
  split; [|split; [|split]].
  - cbn [map seq]. f_equal. rewrite map_map.
    rewrite (map_ext _ (fun kp => snd kp)) by (now intros []).
    rewrite map_snd_combine_eq by (now rewrite length_seq, length_map, length_seq).
    rewrite <- seq_shift, map_map. apply map_ext. intros j. lia.
  - constructor; [reflexivity|]. apply Forall_forall.
    intros s Hs. apply in_map_iff in Hs. destruct Hs as ([j p] & <- & _). reflexivity.
  - cbn [map seq]. f_equal. rewrite map_map.
    rewrite (map_ext _ (fun kp => uuid_of_nat (fst kp))) by (now intros []).
    rewrite <- (map_map fst uuid_of_nat).
    now rewrite map_fst_combine_eq by (now rewrite length_seq, length_map, length_seq).
  - lia.
Qed.

Lemma issued_mono n m i : (n <= m)%nat -> issued n i -> issued m i.
Proof. intros Hle (k & Hk & ->). exists k. split; [lia|reflexivity]. Qed.

Lemma section_positions_app course_id db db' tail :
  course_sections db' = (course_sections db ++ tail)%list ->
  section_positions course_id db'
  = (section_positions course_id db
     ++ map s_position (List.filter (in_course course_id) tail))%list.
Proof.
  intros H. unfold section_positions. now rewrite H, filter_app, map_app.
Qed.

Lemma filter_none {A} (f : A -> bool) (l : list A) :
  (forall x, In x l -> f x = false) -> List.filter f l = [].
Proof.
  induction l as [|a l IH]; intros H; [reflexivity|].
  cbn. rewrite (H a (or_introl eq_refl)). apply IH. intros x Hx. apply H. now right.
Qed.

Lemma filter_all {A} (f : A -> bool) (l : list A) :
  (forall x, In x l -> f x = true) -> List.filter f l = l.
Proof.
  induction l as [|a l IH]; intros H; [reflexivity|].
  cbn. rewrite (H a (or_introl eq_refl)). f_equal. apply IH. intros x Hx. apply H. now right.
Qed.

Lemma dense_iota n : dense (map Z.of_nat (seq 0 n)).
Proof. unfold dense. now rewrite length_map, length_seq. Qed.

Lemma create_course_keeps_order data u now db :
  sections_in_order db -> sections_in_order (snd (create_course data u now db)).
Proof.
  intros (Hnd & Hids & Hcids & Hdense).
  destruct (create_course data u now db) as [r db'] eqn:Hrun. cbn [snd].
  destruct (create_course_run _ _ _ _ _ _ Hrun)
    as [->|(tail & Hsecs & Hpos & Hcid & Hid & Hctr)]; [now repeat split|].
  set (n := uuid_counter db) in *. set (k := Z.to_nat (cc_num_sections data)) in *.
  assert (Hfresh : forall j, (n <= j)%nat -> ~ issued n (uuid_of_nat j)).
  { intros j Hj (j' & Hj' & Heq). apply uuid_of_nat_inj in Heq. lia. }
  unfold sections_in_order. rewrite Hsecs, !map_app, Hctr, Hid. repeat split.
  - apply NoDup_app; [assumption| |].
    + apply NoDup_map_NoDup_ForallPairs; [|apply seq_NoDup].
      intros a b _ _. apply uuid_of_nat_inj.
    + intros i Hi Hi'. apply in_map_iff in Hi'. destruct Hi' as (j & <- & Hj).
      apply in_seq in Hj. apply (Hfresh j); [lia|].
      rewrite Forall_forall in Hids. now apply Hids.
  - apply Forall_app. split.
    + eapply Forall_impl; [|exact Hids]. intros i. apply issued_mono. lia.
    + apply Forall_forall. intros i Hi. apply in_map_iff in Hi.
      destruct Hi as (j & <- & Hj). apply in_seq in Hj. exists j. split; [lia|reflexivity].
  - apply Forall_app. split.
    + eapply Forall_impl; [|exact Hcids]. intros i. apply issued_mono. lia.
    + apply Forall_forall. intros i Hi. apply in_map_iff in Hi.
      destruct Hi as (s & <- & Hs). rewrite Forall_forall in Hcid.
      rewrite (Hcid s Hs). exists n. split; [lia|reflexivity].
  - intros course_id. rewrite (section_positions_app course_id db db' tail Hsecs).
    destruct (String.eqb_spec course_id (uuid_of_nat n)) as [->|Hne].
    + unfold section_positions. rewrite filter_none, filter_all.
      * cbn [map app]. rewrite Hpos. apply dense_iota.
      * intros s Hs. rewrite Forall_forall in Hcid. unfold in_course.
        rewrite (Hcid s Hs). apply String.eqb_refl.
      * intros s Hs. unfold in_course. apply String.eqb_neq. intros Heq.
        apply (Hfresh n (le_n n)). rewrite <- Heq.
        rewrite Forall_forall in Hcids. apply Hcids. now apply in_map.
    + rewrite filter_none; [cbn [map]; rewrite app_nil_r; apply Hdense|].
      intros s Hs. rewrite Forall_forall in Hcid. unfold in_course.
      rewrite (Hcid s Hs). apply String.eqb_neq. congruence.
Qed.





Example moves_in_range_positions :
  map (fun s => (s_id s, s_position s))
      (course_sections (serve_all moves_in_range one_category))
  = [("-u", 4); ("--u", 1); ("---u", 0); ("----u", 2); ("-----u", 3)].
Proof. vm_compute. reflexivity. Qed.


(** ** Bulk enrolment *)

Lemma find_one_app_none {A} (f : A -> bool) (l : list A) (x : A) :
  find_one f l = None -> find_one f (l ++ [x]) = if f x then Some x else None.
Proof.
  unfold find_one. induction l as [|a l IH]; cbn; [reflexivity|].
  destruct (f a); [discriminate|exact IH].
Qed.

Lemma find_one_app_some {A} (f : A -> bool) (l : list A) (x y : A) :
  find_one f l = Some y -> find_one f (l ++ [x]) = Some y.
Proof.
  unfold find_one. induction l as [|a l IH]; cbn; [discriminate|].
  destruct (f a); [trivial|exact IH].
Qed.

(** Enrolling [uid] makes [uid] itself no longer enrollable and changes
    nothing for the other ids. *)
Lemma enrollable_after_insert course_id db e uid' :
  e_course_id e = course_id ->
  enrollable course_id db (e_user_id e) = true ->
  forall db1,
    users db1 = users db ->
    enrollments db1 = insert_one e (enrollments db) ->
    enrollable course_id db1 uid'
    = enrollable course_id db uid' && negb (String.eqb uid' (e_user_id e)).
Proof.
  intros Hc Hel db1 Hu He. unfold enrollable in *. rewrite Hu, He.
  destruct (find_one (is_user uid') (users db)); [|reflexivity].
  unfold insert_one.
  destruct (find_one (enrollment_of course_id uid') (enrollments db)) eqn:Hf.
  - now rewrite (find_one_app_some _ _ _ _ Hf).
  - rewrite (find_one_app_none _ _ _ Hf). unfold enrollment_of.
    rewrite Hc, String.eqb_refl. cbn. rewrite String.eqb_sym.
    destruct (String.eqb uid' (e_user_id e)); reflexivity.
Qed.

Lemma bulk_enroll_loop_counts course_id role u ids :
  forall db enrolled skipped,
  exists db' added,
    bulk_enroll_loop course_id role u ids enrolled skipped db
    = (Ok (enrolled + Z.of_nat (List.length added),
           skipped + Z.of_nat (List.length ids) - Z.of_nat (List.length added)),
       db') /\
    users db' = users db /\ courses db' = courses db /\
    enrollments db' = (enrollments db ++ added)%list /\
    NoDup (map e_user_id added) /\
    (forall uid, In uid (map e_user_id added)
                 <-> In uid ids /\ enrollable course_id db uid = true) /\
    Forall (bulk_enrolled course_id role (user_id u)) added.
Proof.
  induction ids as [|uid ids IH]; intros db enrolled skipped.
  - exists db, []. cbn. unfold ret. rewrite app_nil_r.
    split; [apply f_equal2; [apply f_equal, f_equal2; lia|reflexivity]|].
    do 3 (split; [reflexivity|]).
    split; [constructor|]. split; [|constructor].
    intros uid. cbn. tauto.
  - cbn [bulk_enroll_loop]. unfold bind at 1, read at 1.
    destruct (enrollable course_id db uid) eqn:Hel.
    + unfold enrollable in Hel.
      destruct (find_one (is_user uid) (users db)) eqn:Hu; [|discriminate].
      unfold bind at 1, read at 1.
      destruct (find_one (enrollment_of course_id uid) (enrollments db)) eqn:He;
        [discriminate|].
      cbv [bind uuid4 write log_audit].
      set (e := mkEnrollment (uuid_of_nat (uuid_counter db)) course_id uid role
                             ACTIVE (Some (user_id u))).
      match goal with
      | |- context [bulk_enroll_loop _ _ _ _ _ _ ?d] => set (db1 := d)
      end.
      destruct (IH db1 (enrolled + 1) skipped)
        as (db' & added & Hrun & Husers & Hcourses & Henr & Hnd & Hin & Hall).
      exists db', (e :: added). rewrite Hrun.
      assert (Hel1 : forall uid',
                enrollable course_id db1 uid'
                = enrollable course_id db uid' && negb (String.eqb uid' uid)).
      { intros uid'.
        apply (enrollable_after_insert course_id db e uid'); try reflexivity.
        cbn. unfold enrollable. now rewrite Hu, He. }
      split; [apply f_equal2; [apply f_equal, f_equal2; cbn [List.length]; lia
                              |reflexivity]|].
      split; [exact Husers|]. split; [exact Hcourses|].
      split; [rewrite Henr; subst db1; cbn; unfold insert_one;
              now rewrite <- app_assoc|].
      split; [|split].
      * cbn. constructor; [|exact Hnd].
        intros Hbad. apply Hin in Hbad. destruct Hbad as [_ Hbad].
        rewrite Hel1, String.eqb_refl, andb_false_r in Hbad. discriminate.
      * intros uid'. cbn [map In e_user_id e]. rewrite Hin, Hel1. split.
        -- intros [<-|[Hi Hb]].
           ++ split; [now left|]. unfold enrollable. now rewrite Hu, He.
           ++ apply andb_prop in Hb. destruct Hb as [Hb _]. split; [now right|exact Hb].
        -- intros [[<-|Hi] Hb]; [now left|].
           destruct (String.eqb_spec uid' uid) as [->|Hne]; [now left|].
           right. split; [exact Hi|]. now rewrite Hb.
      * constructor; [repeat split|exact Hall].
    + assert (Hskip : bulk_enroll_loop course_id role u (uid :: ids) enrolled skipped db
                      = bulk_enroll_loop course_id role u ids enrolled (skipped + 1) db).
      { cbn [bulk_enroll_loop]. unfold bind at 1, read at 1. unfold enrollable in Hel.
        destruct (find_one (is_user uid) (users db)); [|reflexivity].
        unfold bind at 1, read at 1.
        destruct (find_one (enrollment_of course_id uid) (enrollments db));
          [reflexivity|discriminate]. }
      change (match find_one (is_user uid) (users db) with
              | Some _ => _ | None => _ end db)
        with (bulk_enroll_loop course_id role u (uid :: ids) enrolled skipped db).
      destruct (IH db enrolled (skipped + 1))
        as (db' & added & Hrun & Husers & Hcourses & Henr & Hnd & Hin & Hall).
      exists db', added. rewrite Hskip, Hrun.
      split; [apply f_equal2; [apply f_equal, f_equal2; cbn [List.length]; lia
                              |reflexivity]|].
      repeat (split; [assumption|]). split; [|exact Hall].
      intros uid'. rewrite Hin. cbn [In]. split.
      * intros [Hi Hb]. split; [now right|exact Hb].
      * intros [[<-|Hi] Hb]; [congruence|now split].
Qed.

(** C7. [bulk_enroll] on an existing course always answers, with two
    counts that add up to the length of the list. The ids taken up are
    the ids of the list whose user exists and who had no enrolment in the
    course, each once; every other entry of the list, a repeated id
    included, is counted as skipped. Nothing but the new enrolments is
    added to [enrollments]. *)
Theorem bulk_enroll_partial_success db course_id course user_ids role u :
  find_one (is_course course_id) (courses db) = Some course ->
  exists resp db' added,
    bulk_enroll course_id user_ids role u db = (Ok resp, db') /\
    enrolled resp + skipped resp = Z.of_nat (List.length user_ids) /\
    enrolled resp = Z.of_nat (List.length added) /\
    enrollments db' = (enrollments db ++ added)%list /\
    users db' = users db /\ courses db' = courses db /\
    NoDup (map e_user_id added) /\
    (forall uid, In uid (map e_user_id added)
                 <-> In uid user_ids /\ enrollable course_id db uid = true) /\
    Forall (bulk_enrolled course_id role (user_id u)) added /\
    (NoDup user_ids ->
     enrolled resp
     = Z.of_nat (List.length (List.filter (enrollable course_id db) user_ids)) /\
     skipped resp
     = Z.of_nat (List.length
                   (List.filter (fun uid => negb (enrollable course_id db uid)) user_ids))).
Proof.
  intros Hcourse.
  destruct (bulk_enroll_loop_counts course_id role u user_ids db 0 0)
    as (db' & added & Hrun & Husers & Hcourses & Henr & Hnd & Hin & Hall).
  eexists _, db', added. split.
  { unfold bulk_enroll, bind at 1, read at 1. rewrite Hcourse.
    unfold bind at 1. rewrite Hrun. reflexivity. }
  cbn [enrolled skipped].
  split; [lia|]. split; [lia|].
  do 6 (split; [assumption|]).
  intros Hids.
  assert (Hlen : List.length added
                 = List.length (List.filter (enrollable course_id db) user_ids)).
  { rewrite <- (length_map e_user_id added).
    apply Permutation_length, NoDup_Permutation;
      [assumption|now apply NoDup_filter|].
    intros uid. rewrite Hin, filter_In. reflexivity. }
  split; [lia|].
  pose proof (filter_length (enrollable course_id db) user_ids) as Hsplit.
  lia.
Qed.

Lemma bulk_enroll_partial_success_witness :
  exists resp db' added,
    bulk_enroll "c1" ["ghost"; "ana"; "luis"] STUDENT sample_teacher two_users
    = (Ok resp, db') /\
    enrolled resp + skipped resp = 3 /\
    enrolled resp = Z.of_nat (List.length added) /\
    enrollments db' = (enrollments two_users ++ added)%list /\
    users db' = users two_users /\ courses db' = courses two_users /\
    NoDup (map e_user_id added) /\
    (forall uid, In uid (map e_user_id added)
                 <-> In uid ["ghost"; "ana"; "luis"]
                     /\ enrollable "c1" two_users uid = true) /\
    Forall (bulk_enrolled "c1" STUDENT "teacher-1") added /\
    (NoDup ["ghost"; "ana"; "luis"] ->
     enrolled resp
     = Z.of_nat (List.length (List.filter (enrollable "c1" two_users)
                                          ["ghost"; "ana"; "luis"])) /\
     skipped resp
     = Z.of_nat (List.length
                   (List.filter (fun uid => negb (enrollable "c1" two_users uid))
                                ["ghost"; "ana"; "luis"]))).
Proof.
  exact (bulk_enroll_partial_success two_users "c1" (sample_course "c1" PUBLISHED)
           ["ghost"; "ana"; "luis"] STUDENT sample_teacher eq_refl).
Defined.

(** P8: three ids, one without a user and one enrolled already; and a
    list that names the same new user twice. *)
Example bulk_enroll_three_ids :
  let (r, db') :=
    bulk_enroll "c1" ["ghost"; "ana"; "luis"] STUDENT sample_teacher two_users in
  r = Ok (mkBulkEnrollResponse "1 usuarios matriculados, 2 omitidos" 1 2) /\
  map (fun e => (e_user_id e, e_course_id e)) (enrollments db')
  = [("ana", "c1"); ("luis", "c1")].
Proof. vm_compute. split; reflexivity. Qed.

Example bulk_enroll_repeated_id :
  fst (bulk_enroll "c1" ["luis"; "luis"] STUDENT sample_teacher two_users)
  = Ok (mkBulkEnrollResponse "1 usuarios matriculados, 1 omitidos" 1 1).
Proof. vm_compute. reflexivity. Qed.

(** ** Editing a course *)

Lemma update_course_archived db course_id course upd u now :
  find_one (is_course course_id) (courses db) = Some course ->
  status course = ARCHIVED ->
  update_course course_id upd u now db = (Raise archived_error, db).
Proof.
  intros Hfind Hst. unfold update_course, bind, read. rewrite Hfind, Hst. reflexivity.
Qed.

Lemma not_archived st : st <> ARCHIVED -> CourseStatus_eqb st ARCHIVED = false.
Proof. destruct st; intros H; try reflexivity. contradiction. Qed.

Lemma teacher_enrollment_teaches course_id uid e :
  teacher_enrollment course_id uid e = true <-> teaches course_id uid e.
Proof.
  unfold teacher_enrollment, teaches. rewrite !andb_true_iff, !String.eqb_eq.
  destruct (e_role e); cbn; intuition discriminate.
Qed.

(** An edit that has passed the gate goes through when the new shortname,
    if there is one, is free. *)
Lemma update_course_applied db course_id course upd u now :
  find_one (is_course course_id) (courses db) = Some course ->
  status course <> ARCHIVED ->
  (UserRole_eqb (role u) teacher && created_by_other course (user_id u) = false
   \/ exists e, find_one (teacher_enrollment course_id (user_id u)) (enrollments db)
                = Some e) ->
  shortname_free db course upd ->
  exists db',
    update_course course_id upd u now db
    = (Ok (find_one (is_course course_id) (courses db')), db') /\
    courses db'
    = update_one (is_course course_id)
                 (apply_course_update upd (user_id u) now) (courses db).
Proof.
  intros Hfind Hst Hgate Hname.
  unfold update_course. unfold bind at 1, read at 1. rewrite Hfind.
  rewrite (not_archived _ Hst).
  assert (Hpass :
    (if UserRole_eqb (role u) teacher && created_by_other course (user_id u)
     then
       enrollment <- read (fun db => find_one (teacher_enrollment course_id (user_id u))
                                              (enrollments db)) ;;
       match enrollment with
       | None => raise forbidden_error
       | Some _ => ret tt
       end
     else ret tt) db = (Ok tt, db)).
  { destruct Hgate as [->|[e He]]; [reflexivity|].
    destruct (_ && _); [|reflexivity]. unfold bind, read. now rewrite He. }
  unfold forbidden_error in Hpass. unfold bind at 1. rewrite Hpass.
  assert (Hfree :
    match cu_shortname upd with
    | Some n =>
        if negb (String.eqb n (shortname course))
        then
          existing <- read (fun db => find_one (has_shortname n) (courses db)) ;;
          match existing with
          | Some _ => shortname_taken
          | None => ret tt
          end
        else ret tt
    | None => ret tt
    end db = (Ok tt, db)).
  { unfold shortname_free in Hname. destruct (cu_shortname upd) as [n|]; [|reflexivity].
    destruct (String.eqb_spec n (shortname course)) as [|Hne]; [reflexivity|].
    destruct Hname as [|Hnone]; [contradiction|].
    cbn [negb]. unfold bind, read. now rewrite Hnone. }
  unfold bind at 1. rewrite Hfree.
  eexists. split; reflexivity.
Qed.

(** Without ownership and without a teacher enrolment the edit of an open
    course is refused and nothing is written. *)
Lemma update_course_denied db course_id course upd u now :
  find_one (is_course course_id) (courses db) = Some course ->
  status course <> ARCHIVED ->
  role u = teacher ->
  created_by course <> Some (user_id u) ->
  (forall e, In e (enrollments db) -> ~ teaches course_id (user_id u) e) ->
  update_course course_id upd u now db = (Raise forbidden_error, db).
Proof.
  intros Hfind Hst Hrole Hother Hnone.
  unfold update_course. unfold bind at 1, read at 1. rewrite Hfind.
  rewrite (not_archived _ Hst), Hrole. cbn [UserRole_eqb andb].
  assert (Hcb : created_by_other course (user_id u) = true).
  { unfold created_by_other. destruct (created_by course) as [v|]; [|reflexivity].
    destruct (String.eqb_spec v (user_id u)); [congruence|reflexivity]. }
  rewrite Hcb. unfold bind at 1, bind at 1, read at 1.
  destruct (find_one _ (enrollments db)) as [e|] eqn:He; [|reflexivity].
  apply find_some in He. destruct He as [Hin He].
  apply teacher_enrollment_teaches in He. now apply Hnone in He.
Qed.

(** An edit that has passed the gate is not answered with 403, whatever
    else the handler finds. *)
Lemma update_course_not_forbidden db course_id course upd u now :
  find_one (is_course course_id) (courses db) = Some course ->
  (UserRole_eqb (role u) teacher && created_by_other course (user_id u) = false
   \/ exists e, find_one (teacher_enrollment course_id (user_id u)) (enrollments db)
                = Some e) ->
  forall detail,
    fst (update_course course_id upd u now db)
    <> Raise (HTTPException HTTP_403_FORBIDDEN detail).
Proof.
  intros Hfind Hgate detail. unfold update_course.
  cbv [bind read ret raise write log_audit uuid4 course_not_found shortname_taken].
  rewrite Hfind.
  destruct (CourseStatus_eqb (status course) ARCHIVED); [discriminate|].
  cbv beta.
  destruct (UserRole_eqb (role u) teacher && created_by_other course (user_id u));
    cbv beta iota zeta;
    [destruct Hgate as [Hgate|[e He]]; [discriminate|rewrite He; cbv beta iota zeta]|];
    (destruct (cu_shortname upd) as [n|]; [|discriminate];
     destruct (negb (String.eqb n (shortname course))); [|discriminate];
     cbv beta;
     destruct (find_one (has_shortname n) (courses db)); discriminate).
Qed.

Lemma teaches_found db course_id uid e :
  In e (enrollments db) -> teaches course_id uid e ->
  exists e', find_one (teacher_enrollment course_id uid) (enrollments db) = Some e'.
Proof.
  intros Hin He. apply teacher_enrollment_teaches in He.
  destruct (find_one (teacher_enrollment course_id uid) (enrollments db))
    as [e'|] eqn:Hf; [now exists e'|].
  eapply find_none in Hf; [|exact Hin]. congruence.
Qed.

Lemma creator_passes course u :
  created_by course = Some (user_id u) ->
  UserRole_eqb (role u) teacher && created_by_other course (user_id u) = false.
Proof.
  intros Hmine. unfold created_by_other. rewrite Hmine, String.eqb_refl.
  now rewrite andb_false_r.
Qed.

(** C9, as the code has it. For a teacher and a course that is not
    archived: without being its creator and without an enrolment in it
    with role teacher, an edit is refused with 403 and the store is left
    as it was; as its creator, or with such an enrolment, the edit is
    never answered with 403, and it is applied when the new shortname, if
    any, is free. *)
Theorem teacher_edit_gate db course_id course upd u now :
  role u = teacher ->
  find_one (is_course course_id) (courses db) = Some course ->
  status course <> ARCHIVED ->
  (created_by course <> Some (user_id u) ->
   (forall e, In e (enrollments db) -> ~ teaches course_id (user_id u) e) ->
   update_course course_id upd u now db = (Raise forbidden_error, db))
  /\
  (created_by course = Some (user_id u)
   \/ (exists e, In e (enrollments db) /\ teaches course_id (user_id u) e) ->
   (forall detail,
      fst (update_course course_id upd u now db)
      <> Raise (HTTPException HTTP_403_FORBIDDEN detail)) /\
   (shortname_free db course upd ->
    exists db',
      update_course course_id upd u now db
      = (Ok (find_one (is_course course_id) (courses db')), db') /\
      courses db'
      = update_one (is_course course_id)
                   (apply_course_update upd (user_id u) now) (courses db))).
Proof.
  intros Hrole Hfind Hst. split.
  - intros Hother Hnone. now apply update_course_denied with course.
  - intros Hown.
    assert (Hgate :
      UserRole_eqb (role u) teacher && created_by_other course (user_id u) = false
      \/ exists e, find_one (teacher_enrollment course_id (user_id u)) (enrollments db)
                   = Some e).
    { destruct Hown as [Hmine|(e & Hin & He)].
      - left. now apply creator_passes.
      - right. now apply teaches_found with e. }
    split.
    + now apply update_course_not_forbidden with course.
    + intros Hname. now apply update_course_applied with course.
Qed.

Lemma teacher_edit_gate_witness :
  update_course "c1" (rename "Redes") sample_teacher "t1" five_sections
  = (Raise forbidden_error, five_sections)
  /\
  exists db',
    update_course "c1" (rename "Redes") sample_teacher "t1" ended_teacher
    = (Ok (find_one (is_course "c1") (courses db')), db') /\
    courses db'
    = update_one (is_course "c1")
                 (apply_course_update (rename "Redes") "teacher-1" "t1")
                 (courses ended_teacher).
Proof.
  split.
  - apply (proj1 (teacher_edit_gate five_sections "c1" (sample_course "c1" PUBLISHED)
                    (rename "Redes") sample_teacher "t1" eq_refl eq_refl
                    ltac:(discriminate))).
    + discriminate.
    + intros e [].
  - apply (proj2 (teacher_edit_gate ended_teacher "c1" (sample_course "c1" PUBLISHED)
                    (rename "Redes") sample_teacher "t1" eq_refl eq_refl
                    ltac:(discriminate))).
    + right. eexists. split; [left; reflexivity|]. repeat split.
    + exact I.
Defined.

(** On an archived course the same teacher is not told 403: the archived
    check comes first and answers 400. *)
Lemma archived_course_answers_before_gate :
  role sample_teacher = teacher /\
  find_one (is_course "c1") (courses archived_sections)
  = Some (sample_course "c1" ARCHIVED) /\
  created_by (sample_course "c1" ARCHIVED) <> Some (user_id sample_teacher) /\
  (forall e, In e (enrollments archived_sections) -> ~ teaches "c1" "teacher-1" e) /\
  update_course "c1" (rename "Redes") sample_teacher "t1" archived_sections
  = (Raise archived_error, archived_sections) /\
  ~ (exists detail,
       fst (update_course "c1" (rename "Redes") sample_teacher "t1" archived_sections)
       = Raise (HTTPException HTTP_403_FORBIDDEN detail)).
Proof.
  repeat split; try reflexivity; try discriminate.
  - intros e [].
  - intros [detail H]. vm_compute in H. discriminate.
Qed.

(** P5: refused, then enrolled as a teacher through [enroll_user], then
    accepted. *)
Example teacher_edits_after_enrolment :
  let users_db := set_courses (fun _ => [sample_course "c1" PUBLISHED]) two_users in
  let db0 := mkDB (mkUser "teacher-1" "profe@aula.es" teacher :: users users_db)
                  [] (courses users_db) [] [] [] [] [] [] [] [] 0 in
  fst (update_course "c1" (rename "Redes") sample_teacher "t1" db0)
  = Raise forbidden_error /\
  let db1 := snd (enroll_user "c1" (mkEnrollmentCreate "c1" "teacher-1" TEACHER)
                              sample_admin db0) in
  option_map (option_map fullname)
    (match fst (update_course "c1" (rename "Redes") sample_teacher "t1" db1) with
     | Ok c => Some c
     | Raise _ => None
     end)
  = Some (Some "Redes").
Proof. vm_compute. split; reflexivity. Qed.

Lemma find_one_map {A} (f : A -> bool) (g : A -> A) (l : list A) :
  (forall x, f (g x) = f x) ->
  find_one f (map g l) = option_map g (find_one f l).
Proof.
  intros H. unfold find_one. induction l as [|a l IH]; [reflexivity|].
  cbn. rewrite H. destruct (f a); [reflexivity|exact IH].
Qed.

(** The outcome of [update_course] does not depend on the status of any
    enrolment. *)
Lemma update_course_restatus f db course_id upd u now :
  fst (update_course course_id upd u now (restatus f db))
  = fst (update_course course_id upd u now db).
Proof.
  unfold update_course.
  cbv [bind read ret raise write log_audit uuid4 course_not_found shortname_taken].
  change (courses (restatus f db)) with (courses db).
  destruct (find_one (is_course course_id) (courses db)) as [course|]; [|reflexivity].
  destruct (CourseStatus_eqb (status course) ARCHIVED); [reflexivity|].
  cbv beta.
  destruct (UserRole_eqb (role u) teacher && created_by_other course (user_id u));
    cbv beta iota zeta.
  - change (enrollments (restatus f db))
      with (map (fun e => mkEnrollment (e_id e) (e_course_id e) (e_user_id e)
                                       (e_role e) (f e) (enrolled_by e))
                (enrollments db)).
    rewrite find_one_map by reflexivity.
    destruct (find_one _ (enrollments db)); [|reflexivity].
    cbn [option_map]. cbv beta iota zeta.
    destruct (cu_shortname upd) as [n|]; [|reflexivity].
    destruct (negb (String.eqb n (shortname course))); [|reflexivity].
    cbv beta. change (courses (restatus f db)) with (courses db).
    destruct (find_one (has_shortname n) (courses db)); reflexivity.
  - destruct (cu_shortname upd) as [n|]; [|reflexivity].
    destruct (negb (String.eqb n (shortname course))); [|reflexivity].
    cbv beta. change (courses (restatus f db)) with (courses db).
    destruct (find_one (has_shortname n) (courses db)); reflexivity.
Qed.

(** C10. The gate of [update_course] looks for an enrolment of the
    teacher in the course with role teacher and never reads its status:
    with such an enrolment that is suspended or ended the edit is not
    refused with 403, it is applied when the course is open and the new
    shortname, if any, is free, and the outcome is the one the handler
    gives under any other assignment of enrolment statuses. *)
Theorem gate_ignores_enrollment_status db course_id course upd u now e :
  role u = teacher ->
  find_one (is_course course_id) (courses db) = Some course ->
  In e (enrollments db) ->
  teaches course_id (user_id u) e ->
  e_status e = ENROLLMENT_SUSPENDED \/ e_status e = ENDED ->
  (forall detail,
     fst (update_course course_id upd u now db)
     <> Raise (HTTPException HTTP_403_FORBIDDEN detail)) /\
  (status course <> ARCHIVED ->
   shortname_free db course upd ->
   exists db',
     update_course course_id upd u now db
     = (Ok (find_one (is_course course_id) (courses db')), db') /\
     courses db'
     = update_one (is_course course_id)
                  (apply_course_update upd (user_id u) now) (courses db)) /\
  (forall f,
     fst (update_course course_id upd u now (restatus f db))
     = fst (update_course course_id upd u now db)).
Proof.
  intros Hrole Hfind Hin He Hstatus.
  assert (Hgate :
    UserRole_eqb (role u) teacher && created_by_other course (user_id u) = false
    \/ exists e', find_one (teacher_enrollment course_id (user_id u)) (enrollments db)
                  = Some e').
  { right. now apply teaches_found with e. }
  split; [|split].
  - now apply update_course_not_forbidden with course.
  - intros Hst Hname. now apply update_course_applied with course.
  - intros f. apply update_course_restatus.
Qed.

Lemma gate_ignores_enrollment_status_witness :
  (forall detail,
     fst (update_course "c1" (rename "Redes") sample_teacher "t1" ended_teacher)
     <> Raise (HTTPException HTTP_403_FORBIDDEN detail)) /\
  (status (sample_course "c1" PUBLISHED) <> ARCHIVED ->
   shortname_free ended_teacher (sample_course "c1" PUBLISHED) (rename "Redes") ->
   exists db',
     update_course "c1" (rename "Redes") sample_teacher "t1" ended_teacher
     = (Ok (find_one (is_course "c1") (courses db')), db') /\
     courses db'
     = update_one (is_course "c1")
                  (apply_course_update (rename "Redes") "teacher-1" "t1")
                  (courses ended_teacher)) /\
  (forall f,
     fst (update_course "c1" (rename "Redes") sample_teacher "t1"
                        (restatus f ended_teacher))
     = fst (update_course "c1" (rename "Redes") sample_teacher "t1" ended_teacher)).
Proof.
  apply (gate_ignores_enrollment_status ended_teacher "c1"
           (sample_course "c1" PUBLISHED) (rename "Redes") sample_teacher "t1"
           (mkEnrollment "e9" "c1" "teacher-1" TEACHER ENDED None)).
  - reflexivity.
  - reflexivity.
  - left. reflexivity.
  - repeat split.
  - right. reflexivity.
Defined.

Example ended_teacher_still_edits :
  option_map (option_map fullname)
    (match fst (update_course "c1" (rename "Redes") sample_teacher "t1" ended_teacher) with
     | Ok c => Some c
     | Raise _ => None
     end)
  = Some (Some "Redes").
Proof. vm_compute. reflexivity. Qed.

(** ** Archived courses *)

(** C8, as the code has it. While a course is archived [update_course]
    refuses every request for it, a change of status included, with the
    archived-course error and writes nothing; the section handlers that
    edit and [create_item], [update_item] and [delete_item] refuse
    likewise. *)
Theorem archived_course_is_locked db course_id course u now :
  find_one (is_course course_id) (courses db) = Some course ->
  status course = ARCHIVED ->
  (forall upd, update_course course_id upd u now db = (Raise archived_error, db)) /\
  (forall data, create_section course_id data u now db = (Raise archived_error, db)) /\
  (forall sid upd, update_section course_id sid upd u now db = (Raise archived_error, db)) /\
  (forall sid force, delete_section course_id sid force u now db = (Raise archived_error, db)) /\
  (forall sid p, move_section course_id sid p u now db = (Raise archived_error, db)) /\
  (forall section_id section data,
     find_one (is_section section_id) (course_sections db) = Some section ->
     s_course_id section = course_id ->
     create_item section_id data u now db = (Raise archived_error, db)) /\
  (forall item_id item,
     find_one (is_item item_id) (course_items db) = Some item ->
     i_course_id item = course_id ->
     (forall upd, update_item item_id upd u now db = (Raise archived_error, db)) /\
     delete_item item_id u now db = (Raise archived_error, db)).
Proof.
  intros Hfind Hst.
  destruct (archived_lock_sections db course_id course u now Hfind Hst)
    as (Hcreate & Hupdate & Hdelete & Hmove).
  destruct (archived_lock_items db course u now Hst) as [Hicreate Hitem].
  split; [intros upd; now apply update_course_archived with course|].
  do 4 (split; [assumption|]). split.
  - intros section_id section data Hs Hc. apply (Hicreate section_id section); auto.
    now rewrite Hc.
  - intros item_id item Hi Hc. apply (Hitem item_id item); auto. now rewrite Hc.
Qed.

Lemma archived_course_is_locked_witness :
  (forall upd, update_course "c1" upd sample_admin "t1" archived_sections
               = (Raise archived_error, archived_sections)) /\
  (forall sid p, move_section "c1" sid p sample_admin "t1" archived_sections
                 = (Raise archived_error, archived_sections)).
Proof.
  destruct (archived_course_is_locked archived_sections "c1"
              (sample_course "c1" ARCHIVED) sample_admin "t1" eq_refl eq_refl)
    as (Hcourse & _ & _ & _ & Hmove & _).
  split; assumption.
Defined.

(** An archived course cannot be given another status through
    [update_course]: the request is refused like any other edit. *)
Lemma archived_status_change_refused :
  find_one (is_course "c1") (courses archived_sections)
  = Some (sample_course "c1" ARCHIVED) /\
  update_course "c1" (change_status PUBLISHED) sample_admin "t1" archived_sections
  = (Raise archived_error, archived_sections) /\
  ~ (exists c db',
       update_course "c1" (change_status PUBLISHED) sample_admin "t1" archived_sections
       = (Ok c, db')).
Proof.
  split; [reflexivity|]. split; [reflexivity|].
  intros (c & db' & H). vm_compute in H. discriminate.
Qed.

(** [bulk_course_action] has no archived check: it hides an archived
    course and moves it to another status. *)
Example bulk_action_on_archived_course :
  map (fun c => (c_visible c, status c))
      (courses (snd (bulk_course_action ["c1"] "hide" sample_admin "t1" archived_sections)))
  = [(false, ARCHIVED)] /\
  map (fun c => (c_visible c, status c))
      (courses (snd (bulk_course_action ["c1"] "suspend" sample_admin "t1" archived_sections)))
  = [(true, SUSPENDED)].
Proof. vm_compute. split; reflexivity. Qed.

(** ** Quiz grading *)





(** P7: both answers right, both wrong, only the first right. The float
    written 66.67 is the quotient 6667 / 100. *)
Example quiz_scores_of_the_two_question_quiz :
  let submit answers :=
    match fst (submit_quiz_attempt "t1" answers ana "now" quiz_store) with
    | Ok resp => Some (score resp, earned_points resp, total_points resp)
    | Raise _ => None
    end in
  submit [("q1", PStr "a"); ("q2", PStr "true")] = Some (100, 15, 15)%float /\
  submit [("q1", PStr "b"); ("q2", PStr "false")] = Some (0, 0, 15)%float /\
  submit [("q1", PStr "a"); ("q2", PStr "false")] = Some (6667 / 100, 10, 15)%float /\
  submit [("q1", PStr "a")] = Some (6667 / 100, 10, 15)%float.
Proof. vm_compute. repeat split; reflexivity. Qed.


(** * Further properties *)

(** ** Enrolments *)

Lemma map_key_update_one {A B} (key : A -> B) (f : A -> bool) (u : A -> A)
    (c : list A) :
  (forall d, key (u d) = key d) ->
  map key (update_one f u c) = map key c.
Proof.
  intros Hk. induction c as [|d c IH]; [reflexivity|].
  cbn. destruct (f d); cbn; [now rewrite Hk|now rewrite IH].
Qed.

Lemma delete_one_incl {A} (f : A -> bool) (c : list A) :
  incl (delete_one f c) c.
Proof.
  induction c as [|d c IH]; [easy|].
  cbn. destruct (f d).
  - now apply incl_tl.
  - intros x [<-|Hx]; [now left|right; now apply IH].
Qed.

Lemma NoDup_map_delete_one {A B} (key : A -> B) (f : A -> bool) (c : list A) :
  NoDup (map key c) -> NoDup (map key (delete_one f c)).
Proof.
  induction c as [|d c IH]; intros H; [constructor|].
  inversion H as [|? ? Hnotin Hnd]; subst. cbn.
  destruct (f d); [exact Hnd|].
  cbn. constructor; [|now apply IH].
  intros Hin. apply Hnotin. apply in_map_iff in Hin.
  destruct Hin as (x & Hx & Hin). apply in_map_iff. exists x.
  split; [exact Hx|]. now apply (delete_one_incl f c).
Qed.

Lemma enrollment_of_pair course_id uid e :
  enrollment_of course_id uid e = true <-> enrollment_pair e = (course_id, uid).
Proof.
  unfold enrollment_of, enrollment_pair.
  rewrite andb_true_iff, !String.eqb_eq. split.
  - intros [-> ->]. reflexivity.
  - intros H. now inversion H.
Qed.

Lemma no_enrollment_pair db course_id uid :
  find_one (enrollment_of course_id uid) (enrollments db) = None ->
  ~ In (course_id, uid) (map enrollment_pair (enrollments db)).
Proof.
  intros Hnone Hin. apply in_map_iff in Hin. destruct Hin as (e & He & Hin).
  eapply find_none in Hnone; [|exact Hin].
  apply enrollment_of_pair in He. congruence.
Qed.

Lemma NoDup_snoc {A} (l : list A) (x : A) :
  NoDup l -> ~ In x l -> NoDup (l ++ [x]).
Proof.
  intros Hl Hx. apply NoDup_app; [assumption|repeat constructor; easy|].
  intros a Ha [<-|[]]. contradiction.
Qed.

(** What [enroll_user] leaves behind: the store it found, or one more
    enrolment for a pair that had none. *)
Lemma enroll_user_run course_id data u db r db' :
  enroll_user course_id data u db = (r, db') ->
  (db' = db /\ forall e, r <> Ok e) \/
  (exists e,
     r = Ok e /\
     enrollments db' = (enrollments db ++ [e])%list /\
     users db' = users db /\ courses db' = courses db /\
     e_course_id e = course_id /\ e_user_id e = ec_user_id data /\
     e_role e = ec_role data /\ e_status e = ACTIVE /\
     find_one (is_course course_id) (courses db) <> None /\
     find_one (is_user (ec_user_id data)) (users db) <> None /\
     find_one (enrollment_of course_id (ec_user_id data)) (enrollments db) = None).
Proof.
  unfold enroll_user. cbv [bind read ret raise write log_audit uuid4 course_not_found].
  destruct (find_one (is_course course_id) (courses db)) eqn:Hc;
    [|intros H; inversion H; left; split; [reflexivity|discriminate]].
  destruct (find_one (is_user (ec_user_id data)) (users db)) eqn:Hu;
    [|intros H; inversion H; left; split; [reflexivity|discriminate]].
  destruct (find_one (enrollment_of course_id (ec_user_id data)) (enrollments db)) eqn:He;
    [intros H; inversion H; left; split; [reflexivity|discriminate]|].
  intros H. inversion H; subst r db'. right. eexists.
  repeat split; try reflexivity; discriminate.
Qed.

(** X1. No handler that writes enrolments creates a second enrolment for
    a pair (course, user): [enroll_user], [bulk_enroll],
    [update_enrollment] and [unenroll_user] keep the pairs of the
    collection distinct. *)
Theorem enrollment_pairs_stay_unique db :
  unique_enrollments db ->
  (forall course_id data u,
     unique_enrollments (snd (enroll_user course_id data u db))) /\
  (forall course_id user_ids role u,
     unique_enrollments (snd (bulk_enroll course_id user_ids role u db))) /\
  (forall enrollment_id upd u,
     unique_enrollments (snd (update_enrollment enrollment_id upd u db))) /\
  (forall enrollment_id u,
     unique_enrollments (snd (unenroll_user enrollment_id u db))).
Proof.
  intros Huniq. unfold unique_enrollments in *. repeat split.
  - intros course_id data u.
    destruct (enroll_user course_id data u db) as [r db'] eqn:Hrun. cbn [snd].
    destruct (enroll_user_run _ _ _ _ _ _ Hrun)
      as [[-> _]|(e & _ & Henr & _ & _ & Hc & Hu & _ & _ & _ & _ & Hnone)];
      [assumption|].
    rewrite Henr, map_app. cbn [map]. apply NoDup_snoc; [assumption|].
    unfold enrollment_pair at 1. rewrite Hc, Hu. now apply no_enrollment_pair.
  - intros course_id user_ids role u.
    unfold bulk_enroll. unfold bind at 1, read at 1.
    destruct (find_one (is_course course_id) (courses db)); [|assumption].
    destruct (bulk_enroll_loop_counts course_id role u user_ids db 0 0)
      as (db' & added & Hrun & _ & _ & Henr & Hnd & Hin & Hall).
    unfold bind at 1. rewrite Hrun. cbv [ret]. cbv beta iota zeta. cbn [snd].
    rewrite Henr, map_app.
    rewrite Forall_forall in Hall.
    apply NoDup_app; [assumption| |].
    + apply NoDup_map_NoDup_ForallPairs.
      * intros a b Ha Hb Heq. unfold enrollment_pair in Heq.
        apply (unique_key_eq e_user_id added); auto. congruence.
      * now apply NoDup_map_inv in Hnd.
    + intros pair Hold Hnew. apply in_map_iff in Hnew.
      destruct Hnew as (e & <- & He).
      destruct (Hall e He) as (Hc & _).
      assert (Hel : enrollable course_id db (e_user_id e) = true).
      { apply Hin. now apply in_map. }
      unfold enrollable in Hel.
      destruct (find_one (is_user (e_user_id e)) (users db)); [|discriminate].
      destruct (find_one (enrollment_of course_id (e_user_id e)) (enrollments db))
        eqn:Hnone; [discriminate|].
      apply (no_enrollment_pair db course_id (e_user_id e) Hnone).
      unfold enrollment_pair in Hold. now rewrite Hc in Hold.
  - intros enrollment_id upd u. unfold update_enrollment.
    cbv [bind read ret raise write log_audit uuid4 enrollment_not_found].
    destruct (find_one (is_enrollment enrollment_id) (enrollments db)); [|assumption].
    cbn. now rewrite map_key_update_one by reflexivity.
  - intros enrollment_id u. unfold unenroll_user.
    cbv [bind read ret raise write log_audit uuid4 enrollment_not_found].
    destruct (find_one (is_enrollment enrollment_id) (enrollments db)); [|assumption].
    cbn. now apply NoDup_map_delete_one.
Qed.

Lemma enrollment_pairs_stay_unique_witness :
  unique_enrollments two_users /\
  unique_enrollments
    (snd (bulk_enroll "c1" ["luis"; "luis"] STUDENT sample_teacher two_users)).
Proof.
  assert (H : unique_enrollments two_users).
  { unfold unique_enrollments. cbn. constructor; [intros []|constructor]. }
  split; [exact H|].
  apply (proj1 (proj2 (enrollment_pairs_stay_unique two_users H))).
Defined.



Lemma deleted_key_is_gone {A B} (key : A -> B) (f : A -> bool) (c : list A) (e : A) :
  NoDup (map key c) ->
  find_one f c = Some e ->
  ~ In (key e) (map key (delete_one f c)).
Proof.
  unfold find_one. induction c as [|d c IH]; intros Hnd Hf; [discriminate|].
  inversion Hnd as [|? ? Hnotin Hnd']; subst. cbn in *.
  destruct (f d).
  - injection Hf as <-. exact Hnotin.
  - cbn. intros [Heq|Hin]; [|now apply (IH Hnd' Hf)].
    apply Hnotin. rewrite Heq. apply find_some in Hf. now apply in_map.
Qed.

(** X3. With distinct pairs in the collection, removing an enrolment with
    [unenroll_user] frees its pair: [enroll_user] for the same course and
    user is accepted afterwards, provided the course and the user exist,
    and stores an active enrolment with the role asked for. *)
Theorem unenroll_then_enroll db enrollment_id e u :
  unique_enrollments db ->
  find_one (is_enrollment enrollment_id) (enrollments db) = Some e ->
  find_one (is_course (e_course_id e)) (courses db) <> None ->
  find_one (is_user (e_user_id e)) (users db) <> None ->
  forall body_course_id role' u',
  exists e' db2,
    enroll_user (e_course_id e)
                (mkEnrollmentCreate body_course_id (e_user_id e) role') u'
                (snd (unenroll_user enrollment_id u db))
    = (Ok e', db2) /\
    enrollment_pair e' = enrollment_pair e /\
    e_role e' = role' /\ e_status e' = ACTIVE /\
    In e' (enrollments db2).
Proof.
  intros Huniq Hfind Hcourse Huser body_course_id role' u'.
  unfold unenroll_user.
  cbv [bind read ret raise write log_audit uuid4 enrollment_not_found].
  rewrite Hfind. cbn [snd].
  unfold enroll_user. cbv [bind read ret raise write log_audit uuid4 course_not_found].
  cbn [ec_user_id ec_role courses users enrollments set_enrollments set_audit_logs
       set_uuid_counter uuid_counter].
  destruct (find_one (is_course (e_course_id e)) (courses db)); [|contradiction].
  cbn [courses users enrollments set_enrollments set_audit_logs
       set_uuid_counter uuid_counter].
  destruct (find_one (is_user (e_user_id e)) (users db)); [|contradiction].
  cbn [courses users enrollments set_enrollments set_audit_logs
       set_uuid_counter uuid_counter].
  destruct (find_one (enrollment_of (e_course_id e) (e_user_id e))
                     (delete_one (is_enrollment enrollment_id) (enrollments db)))
    as [other|] eqn:Hother.
  - exfalso. apply find_some in Hother. destruct Hother as [Hin Hpair].
    apply enrollment_of_pair in Hpair.
    apply (deleted_key_is_gone enrollment_pair _ _ _ Huniq Hfind).
    change (e_course_id e, e_user_id e) with (enrollment_pair e) in Hpair.
    rewrite <- Hpair. now apply in_map.
  - eexists _, _. split; [reflexivity|]. cbn.
    repeat split. unfold insert_one. apply in_or_app. right. now left.
Qed.

Lemma unenroll_then_enroll_witness :
  exists e' db2,
    enroll_user "c1" (mkEnrollmentCreate "c1" "ana" EDITOR) sample_admin
                (snd (unenroll_user "e1" sample_admin two_users))
    = (Ok e', db2) /\
    enrollment_pair e' = ("c1", "ana") /\
    e_role e' = EDITOR /\ e_status e' = ACTIVE /\
    In e' (enrollments db2).
Proof.
  apply (unenroll_then_enroll two_users "e1"
           (mkEnrollment "e1" "c1" "ana" STUDENT ACTIVE None) sample_admin).
  - unfold unique_enrollments. cbn. constructor; [intros []|constructor].
  - reflexivity.
  - discriminate.
  - discriminate.
Defined.

(** ** Loops *)

Lemma for_each_invariant {A} (Inv : DB -> Prop) (body : A -> M unit) (l : list A) :
  (forall x db, Inv db -> Inv (snd (body x db))) ->
  forall db, Inv db -> Inv (snd (for_each l body db)).
Proof.
  intros Hbody. induction l as [|x l IH]; intros db Hdb; [exact Hdb|].
  cbn [for_each]. unfold bind.
  specialize (Hbody x db Hdb).
  destruct (body x db) as [[[]|e] db1]; cbn [snd] in *; [now apply IH|exact Hbody].
Qed.

Lemma copy_sections_run new_course_id now sections :
  forall section_id_map db,
    copy_sections new_course_id now sections section_id_map db
    = (Ok (section_copy_map (uuid_counter db) sections ++ section_id_map)%list,
       set_uuid_counter (fun n => (n + List.length sections)%nat)
         (set_course_sections
            (fun c => (c ++ section_copies (uuid_counter db) new_course_id now sections)%list)
            db)).
Proof.
  induction sections as [|s sections IH]; intros m db.
  - cbn. unfold ret, set_uuid_counter, set_course_sections, section_copies.
    cbn. rewrite app_nil_r, Nat.add_0_r. now destruct db.
  - cbn [copy_sections]. cbv [bind uuid4 write]. rewrite IH.
    unfold section_copy_map, section_copies, set_uuid_counter, set_course_sections,
      insert_one.
    cbn [uuid_counter course_sections users course_categories courses course_items
         enrollments grades questions quizzes quiz_attempts audit_logs
         List.length seq map combine rev].
    f_equal.
    + f_equal. now rewrite <- app_assoc.
    + f_equal; [now rewrite <- app_assoc|lia].
Qed.

Lemma copy_items_run new_course_id now section_id_map items :
  forall db,
    for_each items (fun item =>
      ii <- uuid4 ;;
      write (set_course_items
               (insert_one
                  (mkCourseItem ii
                     (map_get section_id_map (i_section_id item) (i_section_id item))
                     new_course_id (i_title item) (item_type item)
                     (i_position item) (i_visible item) now)))) db
    = (Ok tt,
       set_uuid_counter (fun n => (n + List.length items)%nat)
         (set_course_items
            (fun c => (c ++ item_copies (uuid_counter db) new_course_id now
                                        section_id_map items)%list)
            db)).
Proof.
  induction items as [|i items IH]; intros db.
  - cbn. unfold ret, set_uuid_counter, set_course_items, item_copies.
    cbn. rewrite app_nil_r, Nat.add_0_r. now destruct db.
  - cbn [for_each]. cbv [bind uuid4 write]. 
    change (for_each items ?b ?d) with (for_each items b d).
    cbv [bind uuid4 write] in IH. rewrite IH.
    unfold item_copies, set_uuid_counter, set_course_items, insert_one.
    cbn [uuid_counter course_sections users course_categories courses course_items
         enrollments grades questions quizzes quiz_attempts audit_logs
         List.length seq map combine].
    f_equal. f_equal; [now rewrite <- app_assoc|lia].
Qed.

(** ** Copies of a course *)

(** What a successful [duplicate_course] writes. *)
Lemma duplicate_course_run course_id new_shortname new_fullname u now db course :
  find_one (is_course course_id) (courses db) = Some course ->
  find_one (has_shortname new_shortname) (courses db) = None ->
  let n := uuid_counter db in
  let copy :=
    mkCourse (uuid_of_nat n) (or_default new_fullname (fullname course ++ " (Copia)"))
             new_shortname (category_id course) (format course)
             (num_sections course) (c_visible course) DRAFT
             (Some (user_id u)) now (last_modified_by course) in
  let sections := firstn 100 (List.filter (in_course course_id) (course_sections db)) in
  let items := firstn 1000 (List.filter (of_course course_id) (course_items db)) in
  exists db',
    duplicate_course course_id new_shortname new_fullname u now db = (Ok copy, db') /\
    courses db' = (courses db ++ [copy])%list /\
    course_sections db'
    = (course_sections db ++ section_copies (S n) (c_id copy) now sections)%list /\
    course_items db'
    = (course_items db
       ++ item_copies (S n + List.length sections) (c_id copy) now
                      (section_copy_map (S n) sections) items)%list /\
    course_categories db'
    = update_one (is_category (category_id course)) (inc_course_count 1)
                 (course_categories db) /\
    enrollments db' = enrollments db /\ users db' = users db /\
    uuid_counter db' = (S (S n + List.length sections + List.length items))%nat.
Proof.
  intros Hfind Hfree n copy sections items.
  unfold duplicate_course.
  unfold bind at 1, read at 1. rewrite Hfind.
  unfold bind at 1, read at 1. rewrite Hfree.
  cbv [bind read uuid4 write ret log_audit].
  cbn [courses course_sections course_items set_courses set_uuid_counter uuid_counter
       c_id category_id].
  rewrite copy_sections_run.
  cbn [courses course_sections course_items set_courses set_course_sections
       set_uuid_counter uuid_counter].
  pose proof (copy_items_run (uuid_of_nat n) now
                (section_copy_map (S n) sections ++ [])%list items) as Hitems.
  cbv [bind uuid4 write] in Hitems. fold n. fold sections. fold items.
  rewrite Hitems. rewrite app_nil_r.
  eexists. split; [reflexivity|].
  cbn. repeat split.
Qed.

(** ** Shortnames *)

(** What [create_course] does to the collection of courses. *)
Lemma create_course_outcome data u now db r db' :
  create_course data u now db = (r, db') ->
  (db' = db /\ forall c, r <> Ok c) \/
  (exists c,
     r = Ok c /\
     find_one (has_shortname (cc_shortname data)) (courses db) = None /\
     find_one (is_category (cc_category_id data)) (course_categories db) <> None /\
     c = mkCourse (uuid_of_nat (uuid_counter db)) (cc_fullname data)
                  (cc_shortname data) (cc_category_id data) (cc_format data)
                  (cc_num_sections data) true DRAFT (Some (user_id u)) now None /\
     courses db' = (courses db ++ [c])%list /\
     course_categories db'
     = update_one (is_category (cc_category_id data)) (inc_course_count 1)
                  (course_categories db) /\
     course_items db' = course_items db /\ enrollments db' = enrollments db).
Proof.
  unfold create_course. unfold bind at 1, read at 1.
  destruct (find_one _ (courses db)) eqn:Hname;
    [intros H; inversion H; left; split; [reflexivity|discriminate]|].
  unfold bind at 1, read at 1.
  destruct (find_one _ (course_categories db)) eqn:Hcat;
    [|intros H; inversion H; left; split; [reflexivity|discriminate]].
  intros Hrun. right.
  change (call_with_keywords CourseCreate_fields ["created_by"])
    with (fun m : M Course => m) in Hrun.
  cbv beta in Hrun.
  cbv [bind uuid4 ret write read log_audit] in Hrun.
  cbn [c_id format num_sections] in Hrun.
  match type of Hrun with
  | context [for_each ?l0 ?b ?d] =>
      pose proof (for_each_invariant
                    (fun x => courses x = courses d
                              /\ course_categories x = course_categories d
                              /\ course_items x = course_items d
                              /\ enrollments x = enrollments d) b l0) as Hinv;
      destruct (create_sections_loop
                  (fun si i => mkCourseSection si (uuid_of_nat (uuid_counter db))
                     ((match cc_format data with TOPICS => "Tema " | _ => "Semana " end)
                      ++ str_of_Z i) i true now) l0 d)
        as (db5 & tail & Hloop & _);
      change (for_each l0 b d = (Ok tt, db5)) in Hloop;
      specialize (Hinv ltac:(intros x dx Hx; exact Hx) d
                       ltac:(repeat split));
      rewrite Hloop in Hinv, Hrun
  end.
  cbn [snd] in Hinv. destruct Hinv as (Hc & Hcats & Hitems & Henr).
  inversion Hrun; subst r db'; clear Hrun.
  eexists. split; [reflexivity|]. split; [reflexivity|]. split; [discriminate|].
  split; [reflexivity|].
  cbn [courses course_categories course_items enrollments set_audit_logs
       set_uuid_counter set_course_categories].
  rewrite Hc, Hcats, Hitems, Henr. repeat split.
Qed.

Lemma update_course_outcome course_id upd u now db r db' :
  update_course course_id upd u now db = (r, db') ->
  (db' = db /\ forall c, r <> Ok c) \/
  (exists course,
     find_one (is_course course_id) (courses db) = Some course /\
     status course <> ARCHIVED /\
     shortname_free db course upd /\
     courses db'
     = update_one (is_course course_id)
                  (apply_course_update upd (user_id u) now) (courses db) /\
     r = Ok (find_one (is_course course_id) (courses db')) /\
     course_sections db' = course_sections db /\
     course_items db' = course_items db /\
     enrollments db' = enrollments db /\
     course_categories db' = course_categories db).
Proof.
  unfold update_course.
  cbv [bind read ret raise write log_audit uuid4 course_not_found shortname_taken].
  destruct (find_one (is_course course_id) (courses db)) as [course|] eqn:Hfind;
    [|intros H; inversion H; left; split; [reflexivity|discriminate]].
  destruct (CourseStatus_eqb (status course) ARCHIVED) eqn:Hst;
    [intros H; inversion H; left; split; [reflexivity|discriminate]|].
  assert (Hopen : status course <> ARCHIVED) by (intros E; rewrite E in Hst; discriminate).
  cbv beta.
  destruct (UserRole_eqb (role u) teacher && created_by_other course (user_id u));
    cbv beta iota zeta;
    [destruct (find_one _ (enrollments db));
       [cbv beta iota zeta
       |intros H; inversion H; left; split; [reflexivity|discriminate]]|];
    (unfold shortname_free;
     destruct (cu_shortname upd) as [n|];
       [destruct (String.eqb_spec n (shortname course)) as [Heq|Hne]; cbn [negb];
          [|cbv beta; destruct (find_one (has_shortname n) (courses db)) eqn:Hn]|];
     intros H; inversion H;
     first [ left; split; [reflexivity|discriminate]
           | right; exists course; repeat split; auto ]).
Qed.

Lemma in_map_update_one {A B} (key : A -> B) (f : A -> bool) (u : A -> A)
    (c : list A) (x : B) :
  In x (map key (update_one f u c)) ->
  In x (map key c) \/ exists d, find_one f c = Some d /\ x = key (u d).
Proof.
  unfold find_one. induction c as [|a c IH]; [intros []|].
  cbn. destruct (f a); cbn.
  - intros [<-|Hin]; [right; now exists a|left; now right].
  - intros [<-|Hin]; [left; now left|].
    destruct (IH Hin) as [H|H]; [left; now right|now right].
Qed.

Lemma NoDup_map_update_one {A B} (key : A -> B) (f : A -> bool) (u : A -> A)
    (c : list A) (d : A) :
  NoDup (map key c) ->
  find_one f c = Some d ->
  key (u d) = key d \/ ~ In (key (u d)) (map key c) ->
  NoDup (map key (update_one f u c)).
Proof.
  unfold find_one. induction c as [|a c IH]; intros Hnd Hf Hkey; [constructor|].
  inversion Hnd as [|? ? Hnotin Hnd']; subst. cbn in *.
  destruct (f a) eqn:Hfa.
  - injection Hf as <-. cbn. constructor; [|exact Hnd'].
    destruct Hkey as [->|Hkey]; [exact Hnotin|]. intros Hin. apply Hkey. now right.
  - cbn. constructor.
    + intros Hin. apply in_map_update_one in Hin.
      destruct Hin as [Hin|(d' & Hd' & Heq)]; [contradiction|].
      unfold find_one in Hd'. rewrite Hf in Hd'. injection Hd' as <-.
      destruct Hkey as [Hsame|Hnew].
      * apply Hnotin. rewrite Heq, Hsame. apply find_some in Hf. now apply in_map.
      * apply Hnew. left. now symmetry.
    + apply IH; auto. destruct Hkey as [|Hnew]; [now left|right].
      intros Hin. apply Hnew. now right.
Qed.

(** X4. No handler that writes courses gives two courses the same
    shortname: [create_course], [update_course], [duplicate_course] and
    [bulk_course_action] keep the shortnames of the collection distinct. *)
Theorem shortnames_stay_unique db :
  unique_shortnames db ->
  (forall data u now, unique_shortnames (snd (create_course data u now db))) /\
  (forall course_id upd u now,
     unique_shortnames (snd (update_course course_id upd u now db))) /\
  (forall course_id new_shortname new_fullname u now,
     unique_shortnames
       (snd (duplicate_course course_id new_shortname new_fullname u now db))) /\
  (forall course_ids action u now,
     unique_shortnames (snd (bulk_course_action course_ids action u now db))).
Proof.
  intros Huniq. unfold unique_shortnames in *.
  assert (Hfree : forall n, find_one (has_shortname n) (courses db) = None ->
                            ~ In n (map shortname (courses db))).
  { intros n Hnone Hin. apply in_map_iff in Hin. destruct Hin as (c & Hc & Hin).
    eapply find_none in Hnone; [|exact Hin]. unfold has_shortname in Hnone.
    rewrite Hc, String.eqb_refl in Hnone. discriminate. }
  repeat split.
  - intros data u now.
    destruct (create_course data u now db) as [r db'] eqn:Hrun. cbn [snd].
    destruct (create_course_outcome _ _ _ _ _ _ Hrun)
      as [[-> _]|(c & _ & Hnone & _ & -> & -> & _)]; [assumption|].
    rewrite map_app. apply NoDup_snoc; [assumption|now apply Hfree].
  - intros course_id upd u now.
    destruct (update_course course_id upd u now db) as [r db'] eqn:Hrun. cbn [snd].
    destruct (update_course_outcome _ _ _ _ _ _ _ Hrun)
      as [[-> _]|(course & Hfind & _ & Hname & -> & _)]; [assumption|].
    apply (NoDup_map_update_one shortname _ _ _ course); auto.
    unfold shortname_free in Hname. unfold apply_course_update. cbn [shortname].
    destruct (cu_shortname upd) as [n|]; cbn [or_else]; [|now left].
    destruct Hname as [->|Hnone]; [now left|right; now apply Hfree].
  - intros course_id new_shortname new_fullname u now.
    destruct (find_one (is_course course_id) (courses db)) as [course|] eqn:Hfind.
    + destruct (find_one (has_shortname new_shortname) (courses db)) eqn:Hname.
      * unfold duplicate_course, bind, read. rewrite Hfind, Hname. exact Huniq.
      * destruct (duplicate_course_run course_id new_shortname new_fullname u now
                    db course Hfind Hname) as (db' & Hrun & Hcs & _).
        rewrite Hrun. cbn [snd]. rewrite Hcs, map_app. apply NoDup_snoc; [assumption|now apply Hfree].
    + unfold duplicate_course, bind, read. rewrite Hfind. exact Huniq.
  - intros course_ids action u now. unfold bulk_course_action.
    destruct (String.eqb action "delete" && negb (UserRole_eqb (role u) admin));
      [exact Huniq|].
    assert (Hset : forall upd : Course -> Course,
              (forall c, shortname (upd c) = shortname c) ->
              NoDup (map shortname
                (courses (snd
                   ((write (set_courses (update_many (id_in course_ids) upd)) ;;;
                     for_each course_ids (fun cid =>
                       log_audit ("bulk_" ++ action) "course" cid (user_id u)) ;;;
                     ret ("Acción '" ++ action ++ "' aplicada a "
                          ++ str_of_Z (Z.of_nat (List.length course_ids))
                          ++ " cursos")) db))))).
    { intros upd Hupd. unfold bind at 1, write at 1. unfold bind at 1.
      match goal with
      | |- context [for_each ?l ?b ?d] =>
          pose proof (for_each_invariant
                        (fun x => NoDup (map shortname (courses x))) b l) as Hinv;
          specialize (Hinv ltac:(intros x dx Hx; exact Hx) d);
          destruct (for_each l b d) as [[[]|e] d1]
      end; cbn [snd] in *; apply Hinv; cbn [courses set_courses];
        now rewrite update_many_keys. }
    destruct (String.eqb action "hide"); [now apply Hset|].
    destruct (String.eqb action "show"); [now apply Hset|].
    destruct (String.eqb action "suspend"); [now apply Hset|].
    destruct (String.eqb action "archive"); [now apply Hset|].
    destruct (String.eqb action "delete"); [|exact Huniq].
    unfold bind at 1.
    match goal with
    | |- context [for_each ?l ?b ?d] =>
        pose proof (for_each_invariant
                      (fun x => NoDup (map shortname (courses x))) b l) as Hinv;
        assert (Hbody : forall x dx, NoDup (map shortname (courses dx)) ->
                                     NoDup (map shortname (courses (snd (b x dx)))));
        [|specialize (Hinv Hbody d Huniq); destruct (for_each l b d) as [[[]|e] d1];
          cbn [snd] in *; exact Hinv]
    end.
    intros cid dx Hdx. cbv [bind read write log_audit uuid4 ret].
    destruct (find_one (is_course cid) (courses dx)); [|exact Hdx].
    cbn. now apply NoDup_map_delete_one.
Qed.

Lemma shortnames_stay_unique_witness :
  unique_shortnames two_courses /\
  unique_shortnames
    (snd (update_course "c1" (reshortname "c3") sample_admin "t1" two_courses)).
Proof.
  assert (H : unique_shortnames two_courses).
  { unfold unique_shortnames. cbn. nodup_strings. }
  split; [exact H|].
  apply (proj1 (proj2 (shortnames_stay_unique two_courses H))).
Defined.

Lemma section_copies_ids k c now l :
  map s_id (section_copies k c now l) = map uuid_of_nat (seq k (List.length l)).
Proof.
  unfold section_copies. revert k.
  induction l as [|s l IH]; intros k; [reflexivity|].
  cbn. f_equal. apply IH.
Qed.

Lemma section_copies_course k c now l :
  Forall (fun s => s_course_id s = c) (section_copies k c now l).
Proof.
  unfold section_copies. revert k.
  induction l as [|s l IH]; intros k; cbn; constructor; [reflexivity|apply IH].
Qed.

Lemma section_copies_positions k c now l :
  map s_position (section_copies k c now l) = map s_position l.
Proof.
  unfold section_copies. revert k.
  induction l as [|s l IH]; intros k; [reflexivity|].
  cbn. f_equal. apply IH.
Qed.

(** X5. [duplicate_course] keeps the sections in order: when the source
    course has at most the hundred sections that the handler reads, the
    copy gets the positions of the source, so that dense positions, distinct
    section ids and issued identifiers all carry over to the new store. *)
Theorem duplicate_course_keeps_order course_id new_shortname new_fullname u now db :
  sections_in_order db ->
  (List.length (section_positions course_id db) <= 100)%nat ->
  sections_in_order
    (snd (duplicate_course course_id new_shortname new_fullname u now db)).
Proof.
  intros (Hnd & Hids & Hcids & Hdense) Hlen.
  destruct (find_one (is_course course_id) (courses db)) as [course|] eqn:Hfind;
    [|unfold duplicate_course, bind, read; rewrite Hfind; now repeat split].
  destruct (find_one (has_shortname new_shortname) (courses db)) eqn:Hname;
    [unfold duplicate_course, bind, read; rewrite Hfind, Hname; now repeat split|].
  destruct (duplicate_course_run course_id new_shortname new_fullname u now
              db course Hfind Hname)
    as (db' & Hrun & _ & Hsecs & _ & _ & _ & _ & Hctr).
  rewrite Hrun. cbn [snd c_id] in *.
  set (n := uuid_counter db) in *.
  assert (Hall : firstn 100 (List.filter (in_course course_id) (course_sections db))
                 = List.filter (in_course course_id) (course_sections db)).
  { apply firstn_all2. unfold section_positions in Hlen.
    now rewrite length_map in Hlen. }
  rewrite Hall in *.
  set (sections := List.filter (in_course course_id) (course_sections db)) in *.
  assert (Hfresh : forall j, (n <= j)%nat -> ~ issued n (uuid_of_nat j)).
  { intros j Hj (j' & Hj' & Heq). apply uuid_of_nat_inj in Heq. lia. }
  unfold sections_in_order.
  rewrite Hsecs, !map_app, Hctr, section_copies_ids. repeat split.
  - apply NoDup_app; [assumption| |].
    + apply NoDup_map_NoDup_ForallPairs; [|apply seq_NoDup].
      intros a b _ _. apply uuid_of_nat_inj.
    + intros i Hi Hi'. apply in_map_iff in Hi'. destruct Hi' as (j & <- & Hj).
      apply in_seq in Hj. apply (Hfresh j); [lia|].
      rewrite Forall_forall in Hids. now apply Hids.
  - apply Forall_app. split.
    + eapply Forall_impl; [|exact Hids]. intros i. apply issued_mono. lia.
    + apply Forall_forall. intros i Hi. apply in_map_iff in Hi.
      destruct Hi as (j & <- & Hj). apply in_seq in Hj. exists j. split; [lia|reflexivity].
  - apply Forall_app. split.
    + eapply Forall_impl; [|exact Hcids]. intros i. apply issued_mono. lia.
    + apply Forall_forall. intros i Hi. apply in_map_iff in Hi.
      destruct Hi as (s & <- & Hs).
      pose proof (section_copies_course (S n) (uuid_of_nat n) now sections) as Hc.
      rewrite Forall_forall in Hc. rewrite (Hc s Hs).
      exists n. split; [lia|reflexivity].
  - intros cid. rewrite (section_positions_app cid db db' _ Hsecs).
    pose proof (section_copies_course (S n) (uuid_of_nat n) now sections) as Hc.
    rewrite Forall_forall in Hc.
    destruct (String.eqb_spec cid (uuid_of_nat n)) as [->|Hne].
    + unfold section_positions. rewrite filter_none, filter_all.
      * cbn [map app]. rewrite section_copies_positions. apply (Hdense course_id).
      * intros s Hs. unfold in_course. rewrite (Hc s Hs). apply String.eqb_refl.
      * intros s Hs. unfold in_course. apply String.eqb_neq. intros Heq.
        apply (Hfresh n (le_n n)). rewrite <- Heq.
        rewrite Forall_forall in Hcids. apply Hcids. now apply in_map.
    + rewrite filter_none; [cbn [map]; rewrite app_nil_r; apply Hdense|].
      intros s Hs. unfold in_course. rewrite (Hc s Hs).
      apply String.eqb_neq. congruence.
Qed.

Lemma created_course_in_order : sections_in_order created_course.
Proof.
  apply create_course_keeps_order. repeat split; cbn; constructor.
Qed.

Lemma duplicate_course_keeps_order_witness :
  sections_in_order created_course /\
  (List.length (section_positions "u" created_course) <= 100)%nat /\
  sections_in_order
    (snd (duplicate_course "u" "C2" None sample_teacher "t1" created_course)).
Proof.
  split; [exact created_course_in_order|].
  split; [vm_compute; lia|].
  apply (duplicate_course_keeps_order "u" "C2" None sample_teacher "t1"
           created_course created_course_in_order).
  vm_compute. lia.
Defined.

Example duplicate_of_created_course :
  let db' := snd (duplicate_course "u" "C2" None sample_teacher "t1" created_course) in
  map shortname (courses db') = ["C1"; "C2"] /\
  map status (courses db') = [DRAFT; DRAFT] /\
  section_positions "-------u" db' = [0; 1; 2; 3; 4] /\
  section_positions "u" db' = [0; 1; 2; 3; 4].
Proof. vm_compute. repeat split. Qed.

(** ** Deleting a section *)

Lemma delete_section_outcome course_id section_id force u now db r db' :
  delete_section course_id section_id force u now db = (r, db') ->
  (db' = db /\ forall m, r <> Ok m) \/
  (exists section,
     find_one (fun s => is_section section_id s && in_course course_id s)
              (course_sections db) = Some section /\
     (force = true \/ count_documents (in_section section_id) (course_items db) = 0) /\
     r = Ok "Sección eliminada" /\
     course_sections db' = delete_one (is_section section_id) (course_sections db) /\
     course_items db' = delete_many (in_section section_id) (course_items db) /\
     uuid_counter db' = S (uuid_counter db) /\
     enrollments db' = enrollments db).
Proof.
  unfold delete_section. unfold bind at 1.
  destruct (check_course_access course_id u true db) as [[c|e] db1] eqn:Hgate;
    apply check_course_access_reads in Hgate; subst db1;
    [|intros H; inversion H; left; split; [reflexivity|discriminate]].
  unfold bind at 1, read at 1, section_not_found, raise.
  destruct (find_one _ (course_sections db)) as [section|] eqn:Hsec;
    [|intros H; inversion H; left; split; [reflexivity|discriminate]].
  unfold bind at 1, read at 1.
  assert (Hcount : 0 <= count_documents (in_section section_id) (course_items db))
    by (unfold count_documents; lia).
  destruct (0 <? count_documents (in_section section_id) (course_items db)) eqn:Hpos.
  - destruct force; cbn [negb andb];
      [|intros H; inversion H; left; split; [reflexivity|discriminate]].
    cbv [when bind write ret log_audit uuid4]. intros H. inversion H. right.
    exists section. cbn. repeat split; auto.
  - cbn [andb]. cbv [when bind write ret log_audit uuid4]. intros H. inversion H.
    right. exists section. apply Z.ltb_ge in Hpos. cbn.
    assert (Hzero : count_documents (in_section section_id) (course_items db) = 0) by lia.
    repeat split; auto.
    unfold count_documents in Hzero. unfold delete_many.
    symmetry. apply filter_all. intros i Hi.
    destruct (in_section section_id i) eqn:Hin; [|reflexivity].
    assert (In i (List.filter (in_section section_id) (course_items db)))
      by (apply filter_In; auto).
    destruct (List.filter (in_section section_id) (course_items db));
      [contradiction|cbn in Hzero; lia].
Qed.

Lemma delete_one_split {A} (f : A -> bool) (l : list A) (d : A) :
  find_one f l = Some d ->
  exists l1 l2, l = (l1 ++ d :: l2)%list /\ delete_one f l = (l1 ++ l2)%list.
Proof.
  unfold find_one. induction l as [|a l IH]; [discriminate|].
  cbn. destruct (f a).
  - intros H. injection H as <-. now exists [], l.
  - intros H. destruct (IH H) as (l1 & l2 & -> & ->). now exists (a :: l1), l2.
Qed.

Lemma find_one_unique_key {A} (key : A -> string) (f : A -> bool) i (l : list A) d :
  NoDup (map key l) ->
  find_one f l = Some d -> key d = i ->
  find_one (fun x => String.eqb (key x) i) l = Some d.
Proof.
  unfold find_one. intros Hnd Hf Hk.
  pose proof (find_some _ _ Hf) as [Hin _].
  induction l as [|a l IH]; [contradiction|].
  inversion Hnd as [|? ? Hnotin Hnd']; subst. cbn.
  destruct (String.eqb_spec (key a) (key d)) as [Heq|Hne].
  - destruct Hin as [->|Hin]; [reflexivity|].
    exfalso. apply Hnotin. rewrite Heq. now apply in_map.
  - destruct Hin as [->|Hin]; [congruence|].
    cbn in Hf. destruct (f a).
    + injection Hf as ->. congruence.
    + now apply IH.
Qed.

Lemma dense_without (p : Z) (l l' : list Z) :
  Permutation l (p :: l') -> dense l ->
  (dense l' <-> p = Z.of_nat (List.length l'))%Z.
Proof.
  intros Hperm Hdense.
  pose proof (Permutation_length Hperm) as Hlen. cbn in Hlen.
  assert (Hnd : NoDup (p :: l'))
    by (eapply Permutation_NoDup; [exact Hperm|now apply dense_NoDup]).
  inversion Hnd as [|? ? Hp Hnd']; subst.
  assert (Hbound : forall x, In x (p :: l') -> 0 <= x < Z.of_nat (S (List.length l'))).
  { intros x Hx. rewrite <- Hlen. apply dense_bounds; [assumption|].
    eapply Permutation_in; [symmetry; exact Hperm|exact Hx]. }
  split.
  - intros Hd'.
    assert (Hlast : In (Z.of_nat (List.length l')) (p :: l')).
    { eapply Permutation_in; [exact Hperm|].
      eapply Permutation_in; [symmetry; exact Hdense|].
      apply in_iota. lia. }
    destruct Hlast as [<-|Hin]; [reflexivity|].
    apply (dense_bounds _ _ Hd') in Hin. lia.
  - intros ->. unfold dense.
    apply NoDup_Permutation_bis; [assumption|now rewrite length_map, length_seq|].
    intros x Hx. apply in_iota.
    specialize (Hbound x (or_intror Hx)).
    assert (x <> Z.of_nat (List.length l')) by (intros ->; contradiction).
    lia.
Qed.

(** X6. [delete_section] removes the section and, when asked to with
    [force], its items, and renumbers nothing: in a course whose positions
    were dense, they are dense afterwards exactly when the section deleted
    was the last one. *)
Theorem delete_section_leaves_gap course_id section_id force u now db msg db' section :
  sections_in_order db ->
  delete_section course_id section_id force u now db = (Ok msg, db') ->
  find_one (is_section section_id) (course_sections db) = Some section ->
  Permutation (section_positions course_id db)
              (s_position section :: section_positions course_id db') /\
  (dense (section_positions course_id db') <->
   s_position section = Z.of_nat (List.length (section_positions course_id db'))) /\
  (forall other, other <> course_id ->
     section_positions other db' = section_positions other db) /\
  course_items db' = delete_many (in_section section_id) (course_items db).
Proof.
  intros (Hnd & _ & _ & Hdense) Hrun Hsec.
  destruct (delete_section_outcome _ _ _ _ _ _ _ _ Hrun)
    as [[_ Hno]|(s & Hfind & _ & _ & Hsecs & Hitems & _)];
    [now destruct (Hno msg)|].
  pose proof (find_some _ _ Hfind) as [_ Hs]. apply andb_prop in Hs.
  destruct Hs as [Hid Hcourse]. unfold is_section in Hid. apply String.eqb_eq in Hid.
  pose proof (find_one_unique_key s_id _ section_id _ s Hnd Hfind Hid) as Hsame.
  change (fun x => String.eqb (s_id x) section_id) with (is_section section_id) in Hsame.
  rewrite Hsec in Hsame. injection Hsame as ->.
  destruct (delete_one_split _ _ _ Hsec) as (l1 & l2 & Hl & Hdel).
  rewrite Hdel in Hsecs.
  assert (Hperm : Permutation (section_positions course_id db)
                    (s_position s :: section_positions course_id db')).
  { unfold section_positions. rewrite Hl, Hsecs, !filter_app, !map_app.
    cbn [List.filter]. rewrite Hcourse. cbn [map].
    symmetry. apply Permutation_middle. }
  repeat split; auto.
  - now apply (dense_without _ _ _ Hperm (Hdense course_id)).
  - now apply (dense_without _ _ _ Hperm (Hdense course_id)).
  - intros other Hne. unfold section_positions.
    rewrite Hl, Hsecs, !filter_app, !map_app. cbn [List.filter].
    replace (in_course other s) with false; [reflexivity|].
    symmetry. unfold in_course in *. apply String.eqb_eq in Hcourse.
    apply String.eqb_neq. congruence.
Qed.

Lemma delete_section_leaves_gap_witness :
  exists msg db' section,
    sections_in_order created_course /\
    delete_section "u" "--u" false sample_admin "t1" created_course = (Ok msg, db') /\
    find_one (is_section "--u") (course_sections created_course) = Some section /\
    (dense (section_positions "u" db') <->
     s_position section = Z.of_nat (List.length (section_positions "u" db'))).
Proof.
  eexists _, _, _.
  split; [exact created_course_in_order|].
  split; [vm_compute; reflexivity|].
  split; [vm_compute; reflexivity|].
  eapply (delete_section_leaves_gap "u" "--u" false sample_admin "t1" created_course).
  - exact created_course_in_order.
  - vm_compute. reflexivity.
  - vm_compute. reflexivity.
Defined.

Example delete_second_section :
  section_positions "u"
    (snd (delete_section "u" "--u" false sample_admin "t1" created_course))
  = [0; 2; 3; 4].
Proof. vm_compute. reflexivity. Qed.

(** X7. [delete_section] deletes items only on request: without [force]
    the items of the store are left as they were, whatever the outcome,
    and a section that still has items is refused; a deletion that
    succeeds leaves exactly the items of the other sections, in their
    order. *)
Theorem delete_section_items course_id section_id force u now db r db' :
  delete_section course_id section_id force u now db = (r, db') ->
  (force = false -> course_items db' = course_items db) /\
  (force = false ->
   0 < count_documents (in_section section_id) (course_items db) ->
   db' = db /\ forall m, r <> Ok m) /\
  (forall m, r = Ok m ->
     course_items db'
     = List.filter (fun i => negb (String.eqb (i_section_id i) section_id))
                   (course_items db)).
Proof.
  intros Hrun.
  destruct (delete_section_outcome _ _ _ _ _ _ _ _ Hrun)
    as [[-> Hno]|(s & _ & Hforce & -> & _ & Hitems & _)].
  - repeat split; auto. intros m ->. now destruct (Hno m).
  - repeat split.
    + intros ->. destruct Hforce as [|Hzero]; [discriminate|].
      rewrite Hitems. unfold delete_many. apply filter_all. intros i Hi.
      destruct (in_section section_id i) eqn:Hin; [|reflexivity].
      unfold count_documents in Hzero.
      assert (In i (List.filter (in_section section_id) (course_items db)))
        by (apply filter_In; auto).
      destruct (List.filter (in_section section_id) (course_items db));
        [contradiction|cbn in Hzero; lia].
    + destruct Hforce as [->|Hzero]; [discriminate|lia].
    + destruct Hforce as [->|Hzero]; [discriminate|lia].
    + intros _ _. exact Hitems.
Qed.

Lemma delete_section_items_witness :
  exists r db',
    delete_section "c1" "s0" true sample_teacher "t1" five_sections = (r, db') /\
    r = Ok "Sección eliminada" /\
    course_items db'
    = List.filter (fun i => negb (String.eqb (i_section_id i) "s0"))
                  (course_items five_sections).
Proof.
  eexists _, _. split; [vm_compute; reflexivity|].
  split; [reflexivity|].
  eapply (delete_section_items "c1" "s0" true sample_teacher "t1" five_sections);
   [vm_compute; reflexivity|reflexivity].
Defined.

Example delete_section_with_items_refused :
  delete_section "c1" "s0" false sample_admin "t1" five_sections
  = (Raise (HTTPException HTTP_400_BAD_REQUEST
              "La sección tiene 3 elementos. Usa force=true para confirmar."),
     five_sections).
Proof. vm_compute. reflexivity. Qed.

(** ** Editing a section *)





(** ** A move and the move back *)




(** ** Items *)

Lemma next_position_dense l : dense l -> next_position l = Z.of_nat (List.length l).
Proof.
  intros Hd. unfold next_position.
  destruct (max_position l) as [m|] eqn:Hmax.
  - apply max_position_is_maximum in Hmax. destruct Hmax as [Hin Hle].
    pose proof (dense_bounds _ _ Hd Hin) as Hm.
    assert (Hlast : In (Z.of_nat (List.length l) - 1) l).
    { eapply Permutation_in; [symmetry; exact Hd|]. apply in_iota. lia. }
    specialize (Hle _ Hlast). lia.
  - apply max_position_none in Hmax. now subst l.
Qed.

Lemma dense_snoc l : dense l -> dense (l ++ [Z.of_nat (List.length l)]).
Proof.
  intros Hd. unfold dense. rewrite length_app, Nat.add_1_r, seq_S, map_app.
  cbn [map List.length Nat.add]. now apply Permutation_app_tail.
Qed.

Lemma duplicate_item_outcome item_id target u now db r db' :
  duplicate_item item_id target u now db = (r, db') ->
  (db' = db /\ forall i, r <> Ok i) \/
  (exists item section,
     find_one (is_item item_id) (course_items db) = Some item /\
     find_one (is_section (or_default target (i_section_id item)))
              (course_sections db) = Some section /\
     r = Ok (mkCourseItem (uuid_of_nat (uuid_counter db))
               (or_default target (i_section_id item)) (s_course_id section)
               (i_title item ++ " (Copia)") (item_type item)
               (next_position (item_positions (or_default target (i_section_id item)) db))
               (i_visible item) now) /\
     (forall i, r = Ok i -> course_items db' = (course_items db ++ [i])%list) /\
     course_sections db' = course_sections db /\
     courses db' = courses db).
Proof.
  unfold duplicate_item. unfold bind at 1, read at 1, item_not_found, raise.
  destruct (find_one _ (course_items db)) as [item|] eqn:Hitem;
    [|intros H; inversion H; left; split; [reflexivity|discriminate]].
  unfold bind at 1, read at 1.
  destruct (find_one _ (course_sections db)) as [section|] eqn:Hsec;
    [|intros H; inversion H; left; split; [reflexivity|discriminate]].
  cbv [bind read write ret log_audit uuid4]. intros H. inversion H. right.
  exists item, section. cbn. repeat split; auto.
  intros i Hi. now inversion Hi.
Qed.

(** X10. [duplicate_item] appends: the copy goes to the end of the items
    collection, every item that was there is left as it was, and the copy
    takes the position after the last one of its section, so that every
    section whose positions were dense has dense positions afterwards. *)
Theorem duplicate_item_appends item_id target u now db new_item db' :
  duplicate_item item_id target u now db = (Ok new_item, db') ->
  course_items db' = (course_items db ++ [new_item])%list /\
  i_id new_item = uuid_of_nat (uuid_counter db) /\
  (forall section_id,
     dense (item_positions section_id db) -> dense (item_positions section_id db')).
Proof.
  intros Hrun.
  destruct (duplicate_item_outcome _ _ _ _ _ _ _ Hrun)
    as [[_ Hno]|(item & section & _ & _ & Hr & Hitems & _)];
    [now destruct (Hno new_item)|].
  specialize (Hitems new_item eq_refl). injection Hr as Hr.
  split; [exact Hitems|]. split; [now rewrite Hr|].
  intros section_id Hd. unfold item_positions. rewrite Hitems, filter_app, map_app.
  cbn [List.filter]. destruct (in_section section_id new_item) eqn:Hin.
  - unfold in_section in Hin. apply String.eqb_eq in Hin.
    rewrite Hr in Hin |- *. cbn [i_section_id] in Hin. rewrite Hin.
    cbn [map i_position]. rewrite (next_position_dense _ Hd).
    unfold item_positions. rewrite length_map.
    rewrite <- (length_map i_position). now apply dense_snoc.
  - cbn [map]. now rewrite app_nil_r.
Qed.

Lemma duplicate_item_appends_witness :
  exists new_item db',
    duplicate_item "a0" (Some "s1") sample_teacher "t1" five_sections
    = (Ok new_item, db') /\
    i_position new_item = 2 /\
    item_positions "s1" db' = [0; 1; 2] /\
    course_items db' = (course_items five_sections ++ [new_item])%list.
Proof.
  eexists _, _.
  split; [vm_compute; reflexivity|].
  split; [reflexivity|]. split; [vm_compute; reflexivity|].
  eapply (duplicate_item_appends "a0" (Some "s1") sample_teacher "t1" five_sections).
  vm_compute. reflexivity.
Defined.

Lemma dense_replaced (P1 P2 : list Z) (old p : Z) :
  dense (P1 ++ old :: P2) -> p <> old -> ~ dense (P1 ++ p :: P2).
Proof.
  intros Hd Hne Hd'.
  assert (Hin : In p (P1 ++ old :: P2)).
  { eapply Permutation_in; [symmetry; exact Hd|]. apply in_iota.
    replace (List.length (P1 ++ old :: P2)) with (List.length (P1 ++ p :: P2))
      by (rewrite !length_app; reflexivity).
    apply dense_bounds; [assumption|]. apply in_elt. }
  apply dense_NoDup in Hd'. apply NoDup_remove_2 in Hd'.
  apply Hd'. apply in_app_or in Hin. apply in_or_app.
  destruct Hin as [Hin|[Heq|Hin]]; [now left|congruence|now right].
Qed.

Lemma reject_archived_reads course db r db' :
  reject_archived course db = (r, db') -> db' = db.
Proof.
  unfold reject_archived, raise, ret. destruct course as [c|];
    [destruct (CourseStatus_eqb _ _)|]; intros H; now inversion H.
Qed.

Lemma touch_if_found_items course now db :
  exists db', touch_if_found course now db = (Ok tt, db') /\
              course_items db' = course_items db /\
              course_sections db' = course_sections db /\
              uuid_counter db' = uuid_counter db /\
              audit_logs db' = audit_logs db.
Proof.
  unfold touch_if_found, write, ret. destruct course; eexists; repeat split.
Qed.

Lemma delete_item_outcome item_id u now db r db' :
  delete_item item_id u now db = (r, db') ->
  (db' = db /\ forall m, r <> Ok m) \/
  (exists item,
     find_one (is_item item_id) (course_items db) = Some item /\
     (forall c, find_one (is_course (i_course_id item)) (courses db) = Some c ->
                status c <> ARCHIVED) /\
     r = Ok "Item eliminado" /\
     course_items db' = delete_one (is_item item_id) (course_items db) /\
     course_sections db' = course_sections db).
Proof.
  unfold delete_item. unfold bind at 1, read at 1, item_not_found, raise.
  destruct (find_one _ (course_items db)) as [item|] eqn:Hitem;
    [|intros H; inversion H; left; split; [reflexivity|discriminate]].
  unfold bind at 1, read at 1. unfold bind at 1.
  destruct (reject_archived _ db) as [[[]|e] db1] eqn:Hrej;
    pose proof (reject_archived_reads _ _ _ _ Hrej) as ->;
    [|intros H; inversion H; left; split; [reflexivity|discriminate]].
  unfold bind at 1, write at 1. unfold bind at 1.
  match goal with
  | |- context [touch_if_found ?c ?n ?d] =>
      destruct (touch_if_found_items c n d) as (db2 & -> & Hi & Hs & _)
  end.
  cbv [bind log_audit uuid4 write ret]. intros H. inversion H. right.
  exists item. cbn. rewrite Hi, Hs. repeat split; auto.
  intros c Hc Harch. rewrite Hc in Hrej. cbn in Hrej. rewrite Harch in Hrej.
  discriminate.
Qed.

(** X11. [delete_item] renumbers nothing: a successful delete takes the
    item's position out of its section and leaves every other position of
    the store as it was, so a section with dense positions stays dense
    exactly when the item deleted was its last one. *)
Theorem delete_item_leaves_gap item_id u now db m db' item :
  delete_item item_id u now db = (Ok m, db') ->
  find_one (is_item item_id) (course_items db) = Some item ->
  dense (item_positions (i_section_id item) db) ->
  Permutation (item_positions (i_section_id item) db)
              (i_position item :: item_positions (i_section_id item) db') /\
  (dense (item_positions (i_section_id item) db') <->
   i_position item
   = Z.of_nat (List.length (item_positions (i_section_id item) db'))) /\
  (forall other, other <> i_section_id item ->
     item_positions other db' = item_positions other db).
Proof.
  intros Hrun Hitem Hdense.
  destruct (delete_item_outcome _ _ _ _ _ _ Hrun)
    as [[_ Hno]|(item' & Hfind & _ & _ & Hitems & _)]; [now destruct (Hno m)|].
  rewrite Hitem in Hfind. injection Hfind as <-.
  destruct (delete_one_split _ _ _ Hitem) as (l1 & l2 & Hl & Hdel).
  rewrite Hdel in Hitems.
  assert (Hperm : Permutation (item_positions (i_section_id item) db)
                    (i_position item :: item_positions (i_section_id item) db')).
  { unfold item_positions. rewrite Hl, Hitems, !filter_app, !map_app.
    cbn [List.filter]. unfold in_section at 2. rewrite String.eqb_refl. cbn [map].
    symmetry. apply Permutation_middle. }
  split; [exact Hperm|]. split; [now apply (dense_without _ _ _ Hperm)|].
  intros other Hne. unfold item_positions.
  rewrite Hl, Hitems, !filter_app, !map_app. cbn [List.filter].
  replace (in_section other item) with false; [reflexivity|].
  symmetry. unfold in_section. apply String.eqb_neq. congruence.
Qed.

Lemma delete_item_leaves_gap_witness :
  exists m db' item,
    delete_item "a0" sample_teacher "t1" five_sections = (Ok m, db') /\
    find_one (is_item "a0") (course_items five_sections) = Some item /\
    item_positions "s0" db' = [1; 2] /\
    (dense (item_positions (i_section_id item) db') <->
     i_position item
     = Z.of_nat (List.length (item_positions (i_section_id item) db'))).
Proof.
  eexists _, _, _.
  split; [vm_compute; reflexivity|].
  split; [vm_compute; reflexivity|].
  split; [vm_compute; reflexivity|].
  eapply (delete_item_leaves_gap "a0" sample_teacher "t1" five_sections).
  - vm_compute. reflexivity.
  - vm_compute. reflexivity.
  - apply (dense_iota 3).
Defined.

Lemma update_item_outcome item_id upd u now db r db' :
  update_item item_id upd u now db = (r, db') ->
  (db' = db /\ forall i, r <> Ok i) \/
  (exists item,
     find_one (is_item item_id) (course_items db) = Some item /\
     (forall c, find_one (is_course (i_course_id item)) (courses db) = Some c ->
                status c <> ARCHIVED) /\
     course_items db'
     = update_one (is_item item_id) (apply_item_update upd now) (course_items db) /\
     r = Ok (find_one (is_item item_id) (course_items db')) /\
     course_sections db' = course_sections db /\
     audit_logs db'
     = (audit_logs db
        ++ [mkAuditEntry (uuid_of_nat (uuid_counter db)) "update" "item" item_id
                         (user_id u)])%list).
Proof.
  unfold update_item. unfold bind at 1, read at 1, item_not_found, raise.
  destruct (find_one _ (course_items db)) as [item|] eqn:Hitem;
    [|intros H; inversion H; left; split; [reflexivity|discriminate]].
  unfold bind at 1, read at 1. unfold bind at 1.
  destruct (reject_archived _ db) as [[[]|e] db1] eqn:Hrej;
    pose proof (reject_archived_reads _ _ _ _ Hrej) as ->;
    [|intros H; inversion H; left; split; [reflexivity|discriminate]].
  unfold bind at 1, write at 1. unfold bind at 1.
  match goal with
  | |- context [touch_if_found ?c ?n ?d] =>
      destruct (touch_if_found_items c n d) as (db2 & -> & Hi & Hs & Hn & Ha)
  end.
  cbv [bind log_audit uuid4 write ret read]. intros H. inversion H. right.
  exists item. cbn. rewrite Hi, Hs, Hn, Ha. repeat split; auto.
  intros c Hc Harch. rewrite Hc in Hrej. cbn in Hrej. rewrite Harch in Hrej.
  discriminate.
Qed.

Lemma first_match_split {A} (f : A -> bool) (l : list A) (d : A) :
  find_one f l = Some d ->
  exists l1 l2, l = (l1 ++ d :: l2)%list /\ find_one f l1 = None /\ f d = true.
Proof.
  unfold find_one. induction l as [|a l IH]; [discriminate|].
  cbn. destruct (f a) eqn:Ha.
  - intros H. injection H as <-. now exists [], l.
  - intros H. destruct (IH H) as (l1 & l2 & -> & Hnone & Hd).
    exists (a :: l1), l2. cbn. now rewrite Ha.
Qed.

Lemma update_one_at {A} (f : A -> bool) (g : A -> A) (l1 l2 : list A) (d : A) :
  find_one f l1 = None -> f d = true ->
  update_one f g (l1 ++ d :: l2) = (l1 ++ g d :: l2)%list.
Proof.
  unfold find_one. induction l1 as [|a l1 IH]; cbn; intros Hnone Hd.
  - now rewrite Hd.
  - destruct (f a); [discriminate|]. f_equal. now apply IH.
Qed.

Lemma find_one_at {A} (f : A -> bool) (l1 l2 : list A) (d : A) :
  find_one f l1 = None -> f d = true -> find_one f (l1 ++ d :: l2) = Some d.
Proof.
  unfold find_one. induction l1 as [|a l1 IH]; cbn; intros Hnone Hd.
  - now rewrite Hd.
  - destruct (f a); [discriminate|]. now apply IH.
Qed.

(** X12. [update_item] stores a given position as it is and shifts no
    sibling: in a section with dense positions, a successful update that
    names a position other than the item's own leaves the section's
    positions not dense; the other sections keep their positions. *)
Theorem update_item_position_unshifted item_id upd u now db r db' item p :
  update_item item_id upd u now db = (Ok r, db') ->
  find_one (is_item item_id) (course_items db) = Some item ->
  dense (item_positions (i_section_id item) db) ->
  iu_position upd = Some p ->
  p <> i_position item ->
  r = Some (apply_item_update upd now item) /\
  ~ dense (item_positions (i_section_id item) db') /\
  (forall other, other <> i_section_id item ->
     item_positions other db' = item_positions other db).
Proof.
  intros Hrun Hitem Hdense Hp Hne.
  destruct (update_item_outcome _ _ _ _ _ _ _ Hrun)
    as [[_ Hno]|(item' & Hfind & _ & Hitems & Hr & _ & _)]; [now destruct (Hno r)|].
  rewrite Hitem in Hfind. injection Hfind as <-.
  destruct (first_match_split _ _ _ Hitem) as (l1 & l2 & Hl & Hnone & Hid).
  rewrite Hl, (update_one_at _ _ _ _ _ Hnone Hid) in Hitems.
  assert (Hpos : i_position (apply_item_update upd now item) = p)
    by (unfold apply_item_update; cbn; now rewrite Hp).
  split; [|split].
  - injection Hr as ->. rewrite Hitems. now apply find_one_at.
  - unfold item_positions in *. rewrite Hitems, filter_app, map_app.
    rewrite Hl, filter_app, map_app in Hdense. cbn [List.filter] in *.
    change (in_section (i_section_id item) (apply_item_update upd now item))
      with (in_section (i_section_id item) item).
    unfold in_section at 2. unfold in_section at 2 in Hdense.
    rewrite String.eqb_refl in *. cbn [map] in *. rewrite Hpos.
    now apply (dense_replaced _ _ (i_position item)).
  - intros other Hother. unfold item_positions.
    rewrite Hl, Hitems, !filter_app, !map_app. cbn [List.filter].
    change (in_section other (apply_item_update upd now item))
      with (in_section other item).
    replace (in_section other item) with false; [reflexivity|].
    symmetry. unfold in_section. apply String.eqb_neq. congruence.
Qed.

Lemma update_item_position_unshifted_witness :
  exists r db' item,
    update_item "a0" (mkCourseItemUpdate None (Some 2) None) sample_teacher "t1"
                five_sections = (Ok r, db') /\
    find_one (is_item "a0") (course_items five_sections) = Some item /\
    item_positions "s0" db' = [2; 1; 2] /\
    ~ dense (item_positions (i_section_id item) db').
Proof.
  eexists _, _, _.
  split; [vm_compute; reflexivity|].
  split; [vm_compute; reflexivity|].
  split; [vm_compute; reflexivity|].
  eapply (update_item_position_unshifted "a0" (mkCourseItemUpdate None (Some 2) None)
            sample_teacher "t1" five_sections).
  - vm_compute. reflexivity.
  - vm_compute. reflexivity.
  - apply (dense_iota 3).
  - reflexivity.
  - cbn. lia.
Defined.

(** X13. [toggle_item_visibility] writes what [update_item] writes to the
    items when only [visible] is sent, and nothing else: where the update
    succeeds and leaves an audit entry, the toggle leaves the audit log
    and the courses as they were. *)
Theorem toggle_is_unaudited_update item_id v u now db r db2 :
  update_item item_id (mkCourseItemUpdate None None (Some v)) u now db = (Ok r, db2) ->
  let db1 := snd (toggle_item_visibility item_id v u now db) in
  fst (toggle_item_visibility item_id v u now db)
  = Ok (if v then "Item visible" else "Item oculto") /\
  course_items db1 = course_items db2 /\
  audit_logs db1 = audit_logs db /\
  courses db1 = courses db /\
  List.length (audit_logs db2) = S (List.length (audit_logs db)).
Proof.
  intros Hrun.
  destruct (update_item_outcome _ _ _ _ _ _ _ Hrun)
    as [[_ Hno]|(item & Hfind & _ & Hitems & _ & _ & Haudit)];
    [now destruct (Hno r)|].
  unfold toggle_item_visibility, bind, read, write, ret. rewrite Hfind. cbn.
  rewrite Hitems, Haudit, length_app, Nat.add_1_r. repeat split.
Qed.

Lemma toggle_is_unaudited_update_witness :
  exists r db2,
    update_item "a0" (mkCourseItemUpdate None None (Some false)) sample_teacher "t1"
                five_sections = (Ok r, db2) /\
    map i_visible
        (course_items (snd (toggle_item_visibility "a0" false sample_teacher "t1"
                              five_sections)))
    = [false; true; true; true; true] /\
    audit_logs (snd (toggle_item_visibility "a0" false sample_teacher "t1"
                       five_sections))
    = audit_logs five_sections.
Proof.
  eexists _, _.
  split; [vm_compute; reflexivity|].
  split; [vm_compute; reflexivity|].
  eapply (toggle_is_unaudited_update "a0" false sample_teacher "t1" five_sections).
  vm_compute. reflexivity.
Defined.

(** ** Moving an item to another section *)

Lemma dense_intro (l : list Z) :
  NoDup l -> (forall x, In x l -> 0 <= x < Z.of_nat (List.length l)) -> dense l.
Proof.
  intros Hnd Hrange. unfold dense.
  apply NoDup_Permutation_bis; [assumption|now rewrite length_map, length_seq|].
  intros x Hx. apply in_iota. now apply Hrange.
Qed.

(** The positions a section is left with when the entity at [o] goes. *)
Lemma dense_closed_up (P1 P2 : list Z) (o : Z) :
  dense (P1 ++ o :: P2) ->
  dense (map (fun q => if o <? q then q - 1 else q) (P1 ++ P2)).
Proof.
  intros Hd.
  pose proof (dense_NoDup _ Hd) as Hnd.
  pose proof (NoDup_remove_1 _ _ _ Hnd) as Hnd'.
  pose proof (NoDup_remove_2 _ _ _ Hnd) as Hnotin.
  assert (Hrange : forall x, In x (P1 ++ P2) ->
                     0 <= x < Z.of_nat (S (List.length (P1 ++ P2))) /\ x <> o).
  { intros x Hx. split.
    - replace (S (List.length (P1 ++ P2))) with (List.length (P1 ++ o :: P2))
        by (rewrite !length_app; cbn; lia).
      apply dense_bounds; [assumption|].
      apply in_app_or in Hx. apply in_or_app. cbn. tauto.
    - intros ->. contradiction. }
  assert (Ho : 0 <= o < Z.of_nat (S (List.length (P1 ++ P2)))).
  { replace (S (List.length (P1 ++ P2))) with (List.length (P1 ++ o :: P2))
      by (rewrite !length_app; cbn; lia).
    apply dense_bounds; [assumption|]. apply in_elt. }
  apply dense_intro.
  - apply NoDup_map_NoDup_ForallPairs; [|assumption].
    intros x y Hx Hy. apply Hrange in Hx, Hy.
    destruct (o <? x) eqn:Hox, (o <? y) eqn:Hoy; break_bools; lia.
  - intros x Hx. rewrite length_map. apply in_map_iff in Hx.
    destruct Hx as (q & <- & Hq). apply Hrange in Hq.
    destruct (o <? q) eqn:Hoq; break_bools; lia.
Qed.

(** The positions a section is left with when an entity comes in at [n]. *)
Lemma dense_opened_up (Q1 Q2 : list Z) (n : Z) :
  dense (Q1 ++ Q2) ->
  0 <= n <= Z.of_nat (List.length (Q1 ++ Q2)) ->
  dense (map (fun q => if n <=? q then q + 1 else q) Q1
         ++ n :: map (fun q => if n <=? q then q + 1 else q) Q2).
Proof.
  intros Hd Hn.
  pose proof (dense_NoDup _ Hd) as Hnd.
  assert (Hrange : forall x, In x (Q1 ++ Q2) ->
                     0 <= x < Z.of_nat (List.length (Q1 ++ Q2)))
    by (intros x Hx; now apply dense_bounds).
  set (h := fun q => if n <=? q then q + 1 else q).
  assert (Hperm : Permutation (map h Q1 ++ n :: map h Q2) (n :: map h (Q1 ++ Q2))).
  { rewrite map_app. symmetry. apply Permutation_middle. }
  apply dense_intro.
  - eapply Permutation_NoDup; [symmetry; exact Hperm|]. constructor.
    + intros Hin. apply in_map_iff in Hin. destruct Hin as (q & Hq & _).
      unfold h in Hq. destruct (n <=? q) eqn:Hnq; break_bools; lia.
    + apply NoDup_map_NoDup_ForallPairs; [|assumption].
      intros x y _ _. unfold h.
      destruct (n <=? x) eqn:Hnx, (n <=? y) eqn:Hny; break_bools; lia.
  - intros x Hx.
    replace (List.length (map h Q1 ++ n :: map h Q2))
      with (S (List.length (Q1 ++ Q2)))
      by (rewrite !length_app; cbn; rewrite !length_map; lia).
    apply (Permutation_in _ Hperm) in Hx. destruct Hx as [<-|Hx]; [lia|].
    apply in_map_iff in Hx. destruct Hx as (q & <- & Hq). apply Hrange in Hq.
    unfold h. destruct (n <=? q) eqn:Hnq; break_bools; lia.
Qed.

(** The items after a move to another section. *)
Lemma move_item_across_run db item_id target_section_id new_position u now item target :
  NoDup (map i_id (course_items db)) ->
  find_one (is_item item_id) (course_items db) = Some item ->
  find_one (is_section target_section_id) (course_sections db) = Some target ->
  target_section_id <> i_section_id item ->
  exists msg db',
    move_item item_id target_section_id new_position u now db = (Ok msg, db') /\
    course_sections db' = course_sections db /\
    course_items db'
    = map (fun d =>
             if is_item item_id d
             then relocate_item target_section_id (s_course_id target)
                                new_position now d
             else if in_section (i_section_id item) d
                     && (i_position item <? i_position d)
             then inc_item_position (-1) d
             else if in_section target_section_id d
                     && (new_position <=? i_position d)
             then inc_item_position 1 d
             else d)
          (course_items db).
Proof.
  intros Hnd Hfind Htarget Hother.
  unfold move_item, bind at 1, read at 1. rewrite Hfind.
  unfold bind at 1, read at 1. rewrite Htarget.
  apply String.eqb_neq in Hother. rewrite Hother.
  apply String.eqb_neq in Hother.
  pose proof (find_some _ _ Hfind) as [Hin Hid].
  assert (Huniq : forall d, In d (course_items db) -> i_id d = item_id -> d = item).
  { intros d Hd Hdid.
    apply (unique_key_eq i_id (course_items db)); auto.
    unfold is_item in Hid. apply String.eqb_eq in Hid. congruence. }
  eexists _, _. split; [reflexivity|].
  cbn [course_items course_sections set_course_items]. split; [reflexivity|].
  unfold is_item at 1.
  rewrite (update_one_unique_key i_id)
    by (rewrite !update_many_keys by reflexivity; assumption).
  unfold update_many. rewrite !map_map. apply map_ext_in. intros d Hd.
  specialize (Huniq d Hd). unfold is_item, in_section.
  destruct (String.eqb_spec (i_id d) item_id) as [Hmoved|Hmoved].
  - specialize (Huniq Hmoved). subst d.
    rewrite String.eqb_refl, Z.ltb_irrefl. cbn [andb].
    apply String.eqb_neq in Hother. rewrite String.eqb_sym in Hother.
    rewrite Hother. cbn [andb]. apply String.eqb_eq in Hmoved. now rewrite Hmoved.
  - clear Huniq.
    assert (Hother' : String.eqb (i_section_id item) target_section_id = false)
      by (apply String.eqb_neq; congruence).
    assert (Hmoved' : String.eqb (i_id d) item_id = false)
      by now apply String.eqb_neq.
    destruct (String.eqb_spec (i_section_id d) (i_section_id item)) as [Hs|Hs];
      cbn [andb].
    + destruct (i_position item <? i_position d);
        cbn; rewrite ?Hs, ?Hother', ?Hmoved'; cbn; rewrite ?Hmoved'; reflexivity.
    + destruct (String.eqb (i_section_id d) target_section_id
                && (new_position <=? i_position d));
        cbn; rewrite ?Hmoved'; reflexivity.
Qed.

(** X14. A [move_item] into another section at a position of that section
    or right after its last one keeps the two sections in order: the
    section left closes up, the section entered opens up, both stay dense,
    and no other section changes. *)
Theorem move_item_across_keeps_density
    db item_id target_section_id new_position u now item target :
  NoDup (map i_id (course_items db)) ->
  find_one (is_item item_id) (course_items db) = Some item ->
  find_one (is_section target_section_id) (course_sections db) = Some target ->
  target_section_id <> i_section_id item ->
  dense (item_positions (i_section_id item) db) ->
  dense (item_positions target_section_id db) ->
  0 <= new_position <= Z.of_nat (List.length (item_positions target_section_id db)) ->
  let db' := snd (move_item item_id target_section_id new_position u now db) in
  dense (item_positions (i_section_id item) db') /\
  dense (item_positions target_section_id db') /\
  (forall other, other <> i_section_id item -> other <> target_section_id ->
     item_positions other db' = item_positions other db).
Proof.
  intros Hnd Hfind Htarget Hother Hold Hnew Hrange.
  destruct (move_item_across_run db item_id target_section_id new_position u now
              item target Hnd Hfind Htarget Hother) as (msg & db' & -> & _ & Hitems).
  cbn [snd]. cbv zeta.
  destruct (first_match_split _ _ _ Hfind) as (l1 & l2 & Hl & _ & Hid).
  assert (Hrest : forall d, In d (l1 ++ l2) -> is_item item_id d = false).
  { intros d Hd. rewrite Hl, map_app in Hnd. cbn [map] in Hnd.
    apply NoDup_remove_2 in Hnd. unfold is_item in *. apply String.eqb_eq in Hid.
    apply String.eqb_neq. intros Heq. apply Hnd. rewrite <- map_app.
    rewrite Hid, <- Heq. now apply in_map. }
  set (g := fun d : CourseItem => _) in Hitems.
  set (old := i_section_id item) in *.
  assert (Hsec : forall s d, is_item item_id d = false ->
                   in_section s (g d) = in_section s d).
  { intros s d Hd. unfold g. rewrite Hd.
    destruct (_ && _); [reflexivity|]. now destruct (_ && _). }
  assert (Hpos : forall s (h : Z -> Z) l,
            (forall d, In d l -> is_item item_id d = false) ->
            (forall d, is_item item_id d = false -> in_section s d = true ->
                       i_position (g d) = h (i_position d)) ->
            map i_position (List.filter (in_section s) (map g l))
            = map h (map i_position (List.filter (in_section s) l))).
  { intros s h l Hl' Hh. rewrite filter_map_pointwise by (intros d Hd; auto).
    rewrite !map_map. apply map_ext_in. intros d Hd.
    apply filter_In in Hd. destruct Hd as [Hd Hs]. auto. }
  assert (Hmoved : g item = relocate_item target_section_id (s_course_id target)
                                          new_position now item)
    by (unfold g; now rewrite Hid).
  assert (Hparts : forall s (h : Z -> Z),
            (forall d, is_item item_id d = false -> in_section s d = true ->
                       i_position (g d) = h (i_position d)) ->
            item_positions s db'
            = (map h (map i_position (List.filter (in_section s) l1))
               ++ (if String.eqb target_section_id s then [new_position] else [])
               ++ map h (map i_position (List.filter (in_section s) l2)))%list).
  { intros s h Hh. unfold item_positions.
    rewrite Hitems, Hl, map_app, filter_app, map_app. cbn [map List.filter].
    rewrite Hmoved. unfold in_section at 2. cbn [relocate_item i_section_id].
    destruct (String.eqb target_section_id s); cbn [map app relocate_item i_position];
      rewrite !(Hpos s h) by (auto; intros d Hd; apply Hrest, in_or_app; tauto);
      reflexivity. }
  assert (Hbefore : forall s,
            item_positions s db
            = (map i_position (List.filter (in_section s) l1)
               ++ (if String.eqb old s then [i_position item] else [])
               ++ map i_position (List.filter (in_section s) l2))%list).
  { intros s. unfold item_positions. rewrite Hl, filter_app, map_app.
    cbn [List.filter]. unfold in_section at 2. fold old.
    now destruct (String.eqb old s). }
  assert (Hneq : String.eqb target_section_id old = false)
    by now apply String.eqb_neq.
  assert (Hneq' : String.eqb old target_section_id = false)
    by (apply String.eqb_neq; congruence).
  split; [|split].
  - rewrite (Hparts old (fun q => if i_position item <? q then q - 1 else q)).
    + rewrite Hneq. cbn [app]. rewrite <- map_app.
      apply dense_closed_up. rewrite (Hbefore old), String.eqb_refl in Hold.
      exact Hold.
    + intros d Hd Hs. unfold g. rewrite Hd, Hs. cbn [andb].
      destruct (i_position item <? i_position d); [cbn; lia|].
      unfold in_section in *. apply String.eqb_eq in Hs. rewrite Hs, Hneq'.
      reflexivity.
  - rewrite (Hparts target_section_id (fun q => if new_position <=? q then q + 1 else q)).
    + rewrite String.eqb_refl. cbn [app].
      rewrite (Hbefore target_section_id), Hneq' in Hnew, Hrange.
      cbn [app] in Hnew, Hrange.
      now apply dense_opened_up.
    + intros d Hd Hs. unfold g. rewrite Hd, Hs.
      replace (in_section old d) with false.
      * cbn [andb]. destruct (new_position <=? i_position d); [cbn; lia|reflexivity].
      * symmetry. unfold in_section in *. apply String.eqb_eq in Hs. now rewrite Hs.
  - intros other Ho Ht. rewrite (Hparts other (fun q => q)).
    + rewrite (Hbefore other), !map_id.
      replace (String.eqb target_section_id other) with false
        by (symmetry; apply String.eqb_neq; congruence).
      replace (String.eqb old other) with false
        by (symmetry; apply String.eqb_neq; congruence).
      reflexivity.
    + intros d Hd Hs. unfold g. rewrite Hd.
      unfold in_section in *. apply String.eqb_eq in Hs. rewrite Hs.
      replace (String.eqb other old) with false
        by (symmetry; apply String.eqb_neq; congruence).
      replace (String.eqb other target_section_id) with false
        by (symmetry; apply String.eqb_neq; congruence).
      reflexivity.
Qed.

Lemma move_item_across_keeps_density_witness :
  item_positions "s0" (snd (move_item "a1" "s1" 2 sample_teacher "t1" five_sections))
  = [0; 1] /\
  item_positions "s1" (snd (move_item "a1" "s1" 2 sample_teacher "t1" five_sections))
  = [2; 0; 1] /\
  dense (item_positions "s0"
           (snd (move_item "a1" "s1" 2 sample_teacher "t1" five_sections))) /\
  dense (item_positions "s1"
           (snd (move_item "a1" "s1" 2 sample_teacher "t1" five_sections))).
Proof.
  split; [vm_compute; reflexivity|]. split; [vm_compute; reflexivity|].
  destruct (move_item_across_keeps_density five_sections "a1" "s1" 2
              sample_teacher "t1" (sample_item "a1" "s0" "c1" 1)
              (sample_section "s1" "c1" 1)) as (Hleft & Hentered & _).
  - cbn. nodup_strings.
  - reflexivity.
  - reflexivity.
  - discriminate.
  - apply (dense_iota 3).
  - apply (dense_iota 2).
  - vm_compute. split; discriminate.
  - split; assumption.
Defined.

(** ** Quiz attempts and grades *)

Lemma find_one_update_one {A} (f : A -> bool) (g : A -> A) (l : list A) (d : A) :
  find_one f l = Some d -> f (g d) = true ->
  find_one f (update_one f g l) = Some (g d).
Proof.
  intros Hfind Hg.
  destruct (first_match_split _ _ _ Hfind) as (l1 & l2 & -> & Hnone & Hd).
  rewrite (update_one_at _ _ _ _ _ Hnone Hd). now apply find_one_at.
Qed.

Lemma submit_quiz_attempt_outcome attempt_id answers u now db r db' :
  submit_quiz_attempt attempt_id answers u now db = (r, db') ->
  (db' = db /\ forall resp, r <> Ok resp) \/
  (exists attempt quiz sc,
     find_one (is_attempt attempt_id) (quiz_attempts db) = Some attempt /\
     at_user_id attempt = user_id u /\
     at_status attempt = "in_progress" /\
     find_one (is_quiz (at_quiz_id attempt)) (quizzes db) = Some quiz /\
     let qs := find_questions (question_ids quiz) db in
     sc = (if (0 <? sum_points qs)%float
           then (earn answers qs 0 / sum_points qs * 100)%float
           else 0%float) /\
     r = Ok (mkQuizSubmitResponse (py_round2 sc) (earn answers qs 0)
               (sum_points qs)
               (or_else (passing_grade quiz) 60%float <=? sc)%float) /\
     quiz_attempts db'
     = update_one (is_attempt attempt_id)
         (complete_attempt answers sc (earn answers qs 0) (sum_points qs) now)
         (quiz_attempts db) /\
     grades db'
     = match z_item_id quiz with
       | Some item_id =>
           if negb (String.eqb item_id "")
           then upsert_grade (user_id u) item_id (z_course_id quiz)
                             (uuid_of_nat (uuid_counter db)) sc now (grades db)
           else grades db
       | None => grades db
       end).
Proof.
  unfold submit_quiz_attempt. cbv [bind read raise ret write uuid4].
  destruct (find_one _ (quiz_attempts db)) as [attempt|] eqn:Hattempt;
    [|intros H; inversion H; left; split; [reflexivity|discriminate]].
  destruct (String.eqb_spec (at_user_id attempt) (user_id u)) as [Huser|_];
    cbn [negb];
    [|intros H; inversion H; left; split; [reflexivity|discriminate]].
  destruct (String.eqb_spec (at_status attempt) "in_progress") as [Hstatus|_];
    cbn [negb];
    [|intros H; inversion H; left; split; [reflexivity|discriminate]].
  destruct (find_one _ (quizzes db)) as [quiz|] eqn:Hquiz;
    [|intros H; inversion H; left; split; [reflexivity|discriminate]].
  intros H. right. exists attempt, quiz. eexists.
  do 4 (split; [first [eassumption|reflexivity]|]). cbv zeta. split; [reflexivity|].
  destruct (z_item_id quiz) as [item_id|];
    [destruct (negb (String.eqb item_id ""))|];
    inversion H; cbn; repeat split.
Qed.

(** X15. A quiz attempt is submitted once: after [submit_quiz_attempt] has
    answered, every further submission of the attempt by its owner is
    refused with 400 and writes nothing, and [get_quiz_attempt] shows the
    owner the completed attempt with the score of the answer, the answers
    sent and the time of the submission. *)
Theorem attempt_is_submitted_once attempt_id answers u now db resp db1 :
  submit_quiz_attempt attempt_id answers u now db = (Ok resp, db1) ->
  (forall answers' now',
     submit_quiz_attempt attempt_id answers' u now' db1
     = (Raise (HTTPException 400 "Este intento ya fue enviado"), db1)) /\
  exists a,
    get_quiz_attempt attempt_id u db1 = (Ok a, db1) /\
    at_status a = "completed" /\ at_score a = Some (score resp) /\
    at_answers a = answers /\ at_finished_at a = Some now.
Proof.
  intros Hrun.
  destruct (submit_quiz_attempt_outcome _ _ _ _ _ _ _ Hrun)
    as [[_ Hno]|(attempt & quiz & sc & Hfind & Huser & _ & _ & Hrest)];
    [now destruct (Hno resp)|].
  cbv zeta in Hrest. destruct Hrest as (_ & Hr & Hattempts & _).
  injection Hr as ->.
  set (done := complete_attempt _ _ _ _ _) in Hattempts.
  assert (Hfound : find_one (is_attempt attempt_id) (quiz_attempts db1)
                   = Some (done attempt)).
  { rewrite Hattempts. apply find_one_update_one; [assumption|].
    apply find_some in Hfind. apply Hfind. }
  split.
  - intros answers' now'. unfold submit_quiz_attempt. cbv [bind read raise].
    rewrite Hfound. cbn [done complete_attempt at_user_id at_status].
    rewrite Huser, String.eqb_refl. reflexivity.
  - exists (done attempt). unfold get_quiz_attempt. cbv [bind read raise ret].
    rewrite Hfound. cbn [done complete_attempt at_user_id at_status].
    rewrite Huser, String.eqb_refl. cbn. repeat split.
Qed.

Lemma attempt_is_submitted_once_witness :
  exists resp db1 a,
    submit_quiz_attempt "t1" [("q1", PStr "a"); ("q2", PStr "no")] ana "t9" quiz_store
    = (Ok resp, db1) /\
    submit_quiz_attempt "t1" [("q1", PStr "a"); ("q2", PStr "true")] ana "t10" db1
    = (Raise (HTTPException 400 "Este intento ya fue enviado"), db1) /\
    get_quiz_attempt "t1" ana db1 = (Ok a, db1) /\
    at_score a = Some (score resp).
Proof.
  eexists _, _.
  assert (Hrun : submit_quiz_attempt "t1" [("q1", PStr "a"); ("q2", PStr "no")]
                   ana "t9" quiz_store = (Ok _, _)) by (vm_compute; reflexivity).
  destruct (attempt_is_submitted_once _ _ _ _ _ _ _ Hrun)
    as (Hagain & a & Hget & _ & Hscore & _).
  exists a. split; [exact Hrun|]. split; [apply Hagain|]. split; assumption.
Defined.

Lemma upsert_grade_found uid item_id course_id new_id sc now c :
  find_one (grade_key uid item_id course_id)
           (upsert_grade uid item_id course_id new_id sc now c)
  = Some (mkGrade new_id uid item_id course_id sc "system" now).
Proof.
  unfold upsert_grade.
  destruct (find_one (grade_key uid item_id course_id) c) as [g|] eqn:Hfind.
  - pose proof (find_some _ _ Hfind) as [_ Hkey].
    rewrite (find_one_update_one _ _ _ g Hfind) by exact Hkey.
    unfold grade_key in Hkey.
    apply andb_prop in Hkey. destruct Hkey as [Hkey Hc].
    apply andb_prop in Hkey. destruct Hkey as [Hu Hi].
    apply String.eqb_eq in Hu, Hi, Hc. now rewrite Hu, Hi, Hc.
  - unfold insert_one. rewrite (find_one_app_none _ _ _ Hfind).
    unfold grade_key. cbn. now rewrite !String.eqb_refl.
Qed.

(** X16. The grade that a submission leaves for the quiz's item: the
    gradebook gets the score before rounding, entered by "system" under a
    fresh identifier whether or not the student had a grade for the item;
    the response carries that grade rounded to two places, and the pass
    mark is compared with the grade as stored. *)
Theorem quiz_grade_is_unrounded attempt_id answers u now db resp db1 attempt quiz item_id :
  submit_quiz_attempt attempt_id answers u now db = (Ok resp, db1) ->
  find_one (is_attempt attempt_id) (quiz_attempts db) = Some attempt ->
  find_one (is_quiz (at_quiz_id attempt)) (quizzes db) = Some quiz ->
  z_item_id quiz = Some item_id ->
  item_id <> "" ->
  exists g,
    find_one (grade_key (user_id u) item_id (z_course_id quiz)) (grades db1) = Some g /\
    g_id g = uuid_of_nat (uuid_counter db) /\
    graded_by g = "system" /\
    score resp = py_round2 (grade g) /\
    passed resp = (or_else (passing_grade quiz) 60%float <=? grade g)%float.
Proof.
  intros Hrun Hattempt Hquiz Hitem Hne.
  destruct (submit_quiz_attempt_outcome _ _ _ _ _ _ _ Hrun)
    as [[_ Hno]|(attempt' & quiz' & sc & Hfind & _ & _ & Hquiz' & Hrest)];
    [now destruct (Hno resp)|].
  rewrite Hattempt in Hfind. injection Hfind as <-.
  rewrite Hquiz in Hquiz'. injection Hquiz' as <-.
  cbv zeta in Hrest. destruct Hrest as (_ & Hr & _ & Hgrades).
  injection Hr as ->. rewrite Hitem in Hgrades.
  apply String.eqb_neq in Hne. rewrite Hne in Hgrades. cbn [negb] in Hgrades.
  eexists. split; [rewrite Hgrades; apply upsert_grade_found|].
  cbn. repeat split.
Qed.

Lemma quiz_grade_is_unrounded_witness :
  exists resp db1 g,
    submit_quiz_attempt "t1" [("q1", PStr "true"); ("q2", PStr "true"); ("q3", PStr "true")]
                        ana "t9" graded_quiz_store = (Ok resp, db1) /\
    find_one (grade_key "ana" "i1" "c1") (grades db1) = Some g /\
    g_id g = "u" /\
    score resp = (6667 / 100)%float /\
    score resp = py_round2 (grade g) /\
    grade g <> score resp.
Proof.
  eexists _, _.
  assert (Hrun : submit_quiz_attempt "t1"
                   [("q1", PStr "true"); ("q2", PStr "true"); ("q3", PStr "true")]
                   ana "t9" graded_quiz_store = (Ok _, _)) by (vm_compute; reflexivity).
  destruct (quiz_grade_is_unrounded _ _ _ _ _ _ _
              (mkQuizAttempt "t1" "z1" "ana" "in_progress" [] None None None None)
              (mkQuiz "z1" "c1" ["q1"; "q2"; "q3"] (Some "i1") None) "i1" Hrun)
    as (g & Hg & Hid & _ & Hscore & _);
    [reflexivity|reflexivity|reflexivity|discriminate|].
  exists g. split; [exact Hrun|]. split; [exact Hg|]. split; [exact Hid|].
  split; [vm_compute; reflexivity|]. split; [exact Hscore|].
  cbn [grades] in Hg. vm_compute in Hg. injection Hg as <-.
  vm_compute. intros H. discriminate.
Defined.

Lemma grade_key_triple uid item_id course_id g :
  grade_key uid item_id course_id g = true <->
  grade_triple g = (uid, item_id, course_id).
Proof.
  unfold grade_key, grade_triple. split.
  - intros H. apply andb_prop in H. destruct H as [H Hc].
    apply andb_prop in H. destruct H as [Hu Hi].
    apply String.eqb_eq in Hu, Hi, Hc. now rewrite Hu, Hi, Hc.
  - intros H. injection H as -> -> ->. now rewrite !String.eqb_refl.
Qed.

Lemma no_grade_triple uid item_id course_id c :
  find_one (grade_key uid item_id course_id) c = None ->
  ~ In (uid, item_id, course_id) (map grade_triple c).
Proof.
  intros Hnone Hin. apply in_map_iff in Hin. destruct Hin as (g & Hg & Hin).
  eapply find_none in Hnone; [|exact Hin].
  apply grade_key_triple in Hg. congruence.
Qed.

(** X17. One grade per student, item and course: if no two grades of the
    store share the three, none do after [set_grade] or after
    [submit_quiz_attempt], whatever the arguments and the outcome. *)
Theorem grades_stay_unique db :
  unique_grades db ->
  (forall uid item_id course_id g u now,
     unique_grades (snd (set_grade uid item_id course_id g u now db))) /\
  (forall attempt_id answers u now,
     unique_grades (snd (submit_quiz_attempt attempt_id answers u now db))).
Proof.
  unfold unique_grades. intros Huniq. split.
  - intros uid item_id course_id g u now.
    unfold set_grade. cbv [bind read write ret uuid4].
    destruct (find_one _ (grades db)) as [existing|] eqn:Hfind; cbn.
    + now rewrite map_key_update_one.
    + unfold insert_one. rewrite map_app. apply NoDup_snoc; [assumption|].
      now apply no_grade_triple.
  - intros attempt_id answers u now.
    destruct (submit_quiz_attempt attempt_id answers u now db) as [r db'] eqn:Hrun.
    cbn [snd].
    destruct (submit_quiz_attempt_outcome _ _ _ _ _ _ _ Hrun)
      as [[-> _]|(attempt & quiz & sc & _ & _ & _ & _ & Hrest)]; [assumption|].
    cbv zeta in Hrest. destruct Hrest as (_ & _ & _ & ->).
    destruct (z_item_id quiz) as [item_id|]; [|assumption].
    destruct (negb (String.eqb item_id "")); [|assumption].
    unfold upsert_grade.
    destruct (find_one _ (grades db)) as [existing|] eqn:Hfind.
    + now rewrite map_key_update_one.
    + unfold insert_one. rewrite map_app. apply NoDup_snoc; [assumption|].
      now apply no_grade_triple.
Qed.

Lemma grades_stay_unique_witness :
  unique_grades graded_quiz_store /\
  unique_grades
    (snd (submit_quiz_attempt "t1" [("q1", PStr "true")] ana "t9" graded_quiz_store)).
Proof.
  assert (H : unique_grades graded_quiz_store).
  { unfold unique_grades. cbn. constructor; [intros []|constructor]. }
  split; [exact H|].
  apply (proj2 (grades_stay_unique graded_quiz_store H)).
Defined.

(** X18. [set_grade] after [set_grade]: on a store whose grade ids are
    pairwise distinct, the call answers with the id of the grade that the
    triple of student, item and course now has; that grade carries the
    value given, the caller and the time of the call; a grade that was
    there keeps its id and no document is added, and a grade that was not
    is added under a fresh id. *)
Theorem set_grade_upserts uid item_id course_id g u now db :
  NoDup (map g_id (grades db)) ->
  exists d db',
    set_grade uid item_id course_id g u now db = (Ok (g_id d), db') /\
    find_one (grade_key uid item_id course_id) (grades db') = Some d /\
    grade d = g /\ graded_by d = user_id u /\ graded_at d = now /\
    match find_one (grade_key uid item_id course_id) (grades db) with
    | Some existing =>
        g_id d = g_id existing /\
        List.length (grades db') = List.length (grades db)
    | None =>
        g_id d = uuid_of_nat (uuid_counter db) /\
        grades db' = (grades db ++ [d])%list
    end.
Proof.
  intros Hnd. unfold set_grade. cbv [bind read write ret uuid4].
  destruct (find_one _ (grades db)) as [existing|] eqn:Hfind.
  - pose proof (find_some _ _ Hfind) as [Hin Hkey].
    set (upd := fun d : Grade => mkGrade (g_id d) (g_user_id d) (g_item_id d)
                                         (g_course_id d) g (user_id u) now).
    exists (upd existing). eexists. split; [reflexivity|].
    cbn [grades set_grades].
    assert (Hsame : find_one (fun d => String.eqb (g_id d) (g_id existing)) (grades db)
                    = Some existing).
    { apply (find_one_unique_key g_id _ _ _ existing Hnd Hfind eq_refl). }
    destruct (first_match_split _ _ _ Hsame) as (l1 & l2 & Hl & Hnone & Hid).
    rewrite Hl, (update_one_at _ _ _ _ _ Hnone Hid).
    fold upd. split.
    + rewrite Hl in Hfind.
      assert (Hbefore : find_one (grade_key uid item_id course_id) l1 = None).
      { clear - Hfind Hnone. unfold find_one in *.
        induction l1 as [|a l1 IH]; [reflexivity|].
        cbn in *. destruct (grade_key uid item_id course_id a) eqn:Ha.
        - injection Hfind as <-. now rewrite String.eqb_refl in Hnone.
        - destruct (String.eqb (g_id a) (g_id existing)); [discriminate|].
          now apply IH. }
      apply find_one_at; [assumption|exact Hkey].
    + cbn. repeat split. rewrite !length_app. reflexivity.
  - eexists (mkGrade _ uid item_id course_id g (user_id u) now). eexists.
    split; [reflexivity|]. cbn [grades set_grades set_uuid_counter].
    split.
    + unfold insert_one. rewrite (find_one_app_none _ _ _ Hfind).
      unfold grade_key. cbn. now rewrite !String.eqb_refl.
    + cbn. repeat split.
Qed.

Lemma set_grade_upserts_witness :
  NoDup (map g_id (grades graded_quiz_store)) /\
  exists d db',
    set_grade "ana" "i1" "c1" 75%float sample_teacher "t5" graded_quiz_store
    = (Ok (g_id d), db') /\
    find_one (grade_key "ana" "i1" "c1") (grades db') = Some d /\
    grade d = 75%float /\ g_id d = "g1".
Proof.
  assert (H : NoDup (map g_id (grades graded_quiz_store))) by (cbn; nodup_strings).
  split; [exact H|].
  destruct (set_grade_upserts "ana" "i1" "c1" 75%float sample_teacher "t5"
              graded_quiz_store H)
    as (d & db' & Hrun & Hfind & Hgrade & _ & _ & Hid).
  exists d, db'. repeat split; try assumption.
  cbn in Hid. apply Hid.
Defined.

(** ** Reading a course, and actions on many *)

(** X19. [get_course] and [check_course_access] without [edit] are one
    rule written twice, with the tests in a different order: on every
    store, course id and user they give the same answer and leave the
    store alone. *)
Theorem get_course_is_read_access course_id u db :
  get_course course_id u db = check_course_access course_id u false db /\
  snd (get_course course_id u db) = db.
Proof.
  unfold get_course, check_course_access, course_not_found.
  cbv [bind read raise ret]. cbn [andb].
  destruct (find_one _ (courses db)) as [course|]; [|split; reflexivity].
  destruct (UserRole_eqb (role u) student); [|split; reflexivity].
  destruct (negb (CourseStatus_eqb (status course) PUBLISHED) || negb (c_visible course));
    destruct (find_one _ (enrollments db)); split; reflexivity.
Qed.

Lemma log_audits_run (act ety uid : string) (l : list string) :
  forall db, exists db',
    for_each l (fun cid => log_audit act ety cid uid) db = (Ok tt, db') /\
    courses db' = courses db /\ course_sections db' = course_sections db /\
    course_items db' = course_items db /\ enrollments db' = enrollments db /\
    course_categories db' = course_categories db /\ grades db' = grades db /\
    List.length (audit_logs db') = (List.length (audit_logs db) + List.length l)%nat.
Proof.
  induction l as [|cid l IH]; intros db.
  - exists db. cbn. unfold ret. repeat split; lia.
  - cbn [for_each]. cbv [bind log_audit uuid4 write].
    match goal with
    | |- context [for_each l ?b ?d] => destruct (IH d) as (db' & Hrun & H)
    end.
    cbv [log_audit bind uuid4 write] in Hrun. rewrite Hrun.
    exists db'. split; [reflexivity|]. cbn in H.
    unfold insert_one in H. rewrite length_app in H. cbn in H |- *.
    repeat split; try apply H. lia.
Qed.

Lemma bulk_update_run course_ids action (upd : Course -> Course) (msg : string) uid db :
  exists db',
    (write (set_courses (update_many (id_in course_ids) upd)) ;;;
     for_each course_ids (fun cid => log_audit ("bulk_" ++ action) "course" cid uid) ;;;
     ret msg) db = (Ok msg, db') /\
    courses db' = update_many (id_in course_ids) upd (courses db) /\
    course_sections db' = course_sections db /\
    course_items db' = course_items db /\ enrollments db' = enrollments db /\
    course_categories db' = course_categories db /\ grades db' = grades db.
Proof.
  unfold bind at 1, write at 1. unfold bind at 1.
  match goal with
  | |- context [for_each ?l ?b ?d] =>
      destruct (log_audits_run ("bulk_" ++ action) "course" uid l d)
        as (db' & Hrun & Hc & Hs & Hi & He & Hk & Hg & _)
  end.
  rewrite Hrun. exists db'. split; [reflexivity|].
  rewrite Hc, Hs, Hi, He, Hk, Hg. repeat split.
Qed.

Lemma find_one_update_many_listed course_ids (upd : Course -> Course) cid course l :
  (forall c, c_id (upd c) = c_id c) ->
  In cid course_ids ->
  find_one (is_course cid) l = Some course ->
  find_one (is_course cid) (update_many (id_in course_ids) upd l) = Some (upd course).
Proof.
  intros Hupd Hin Hfind. unfold update_many.
  rewrite find_one_map.
  - rewrite Hfind. cbn. pose proof (find_some _ _ Hfind) as [_ Hid].
    unfold is_course in Hid. apply String.eqb_eq in Hid.
    replace (id_in course_ids course) with true; [reflexivity|].
    symmetry. unfold id_in. apply existsb_exists. exists cid.
    split; [assumption|]. rewrite Hid. apply String.eqb_refl.
  - intros c. unfold is_course. destruct (id_in course_ids c); [|reflexivity].
    now rewrite Hupd.
Qed.

(** X20. Archiving in bulk locks: once [bulk_course_action] has run with
    "archive", every course of the list that exists is archived, and
    [update_course] and the edit gate of the section handlers refuse it
    with 400 for every caller, writing nothing. *)
Theorem bulk_archive_locks course_ids u now db cid course :
  In cid course_ids ->
  find_one (is_course cid) (courses db) = Some course ->
  let db1 := snd (bulk_course_action course_ids "archive" u now db) in
  find_one (is_course cid) (courses db1)
  = Some (set_course_status ARCHIVED now course) /\
  (forall upd u' now', update_course cid upd u' now' db1 = (Raise archived_error, db1)) /\
  (forall u', check_course_access cid u' true db1 = (Raise archived_error, db1)).
Proof.
  intros Hin Hfind. unfold bulk_course_action.
  change (String.eqb "archive" "delete") with false.
  change (String.eqb "archive" "hide") with false.
  change (String.eqb "archive" "show") with false.
  change (String.eqb "archive" "suspend") with false.
  change (String.eqb "archive" "archive") with true.
  cbn [andb]. cbv zeta. cbv iota.
  match goal with
  | |- context [(write (set_courses (update_many _ ?upd)) ;;; _ ;;; ret ?msg) db] =>
      destruct (bulk_update_run course_ids "archive" upd msg (user_id u) db)
        as (db' & Hrun & Hcourses & _)
  end.
  rewrite Hrun. cbn [snd].
  assert (Hfound : find_one (is_course cid) (courses db')
                   = Some (set_course_status ARCHIVED now course)).
  { rewrite Hcourses. now apply find_one_update_many_listed. }
  split; [exact Hfound|]. split.
  - intros upd u' now'. now apply (update_course_archived _ _ _ _ _ _ Hfound).
  - intros u'. now apply (check_course_access_archived _ _ _ _ Hfound).
Qed.

Lemma bulk_archive_locks_witness :
  In "c1" ["c9"; "c1"] /\
  update_course "c1" (rename "Redes")  sample_admin "t2"
    (snd (bulk_course_action ["c9"; "c1"] "archive" sample_teacher "t1" five_sections))
  = (Raise archived_error,
     snd (bulk_course_action ["c9"; "c1"] "archive" sample_teacher "t1" five_sections)).
Proof.
  assert (Hin : In "c1" ["c9"; "c1"]) by (right; now left).
  split; [exact Hin|].
  apply (bulk_archive_locks ["c9"; "c1"] sample_teacher "t1" five_sections "c1"
           (sample_course "c1" PUBLISHED) Hin eq_refl).
Defined.

(** X21. The lock is taken off the same way: [bulk_course_action] has no
    test for archived courses, so after "suspend" a listed course that was
    archived is suspended, and the edit gate lets every non-student
    through again. *)
Theorem bulk_suspend_reopens course_ids u now db cid course :
  In cid course_ids ->
  find_one (is_course cid) (courses db) = Some course ->
  status course = ARCHIVED ->
  let db1 := snd (bulk_course_action course_ids "suspend" u now db) in
  (forall u', check_course_access cid u' true db = (Raise archived_error, db)) /\
  (forall u', role u' <> student ->
     check_course_access cid u' true db1
     = (Ok (set_course_status SUSPENDED now course), db1)).
Proof.
  intros Hin Hfind Harch. unfold bulk_course_action.
  change (String.eqb "suspend" "delete") with false.
  change (String.eqb "suspend" "hide") with false.
  change (String.eqb "suspend" "show") with false.
  change (String.eqb "suspend" "suspend") with true.
  cbn [andb]. cbv zeta. cbv iota.
  match goal with
  | |- context [(write (set_courses (update_many _ ?upd)) ;;; _ ;;; ret ?msg) db] =>
      destruct (bulk_update_run course_ids "suspend" upd msg (user_id u) db)
        as (db' & Hrun & Hcourses & _)
  end.
  rewrite Hrun. cbn [snd].
  split; [intros u'; now apply (check_course_access_archived _ _ _ _ Hfind)|].
  intros u' Hrole.
  assert (Hfound : find_one (is_course cid) (courses db')
                   = Some (set_course_status SUSPENDED now course)).
  { rewrite Hcourses. now apply find_one_update_many_listed. }
  unfold check_course_access. cbv [bind read ret]. rewrite Hfound.
  cbn [status set_course_status CourseStatus_eqb andb].
  destruct (role u'); try reflexivity. now destruct Hrole.
Qed.

Lemma bulk_suspend_reopens_witness :
  status (sample_course "c1" ARCHIVED) = ARCHIVED /\
  role sample_teacher <> student /\
  check_course_access "c1" sample_teacher true
    (snd (bulk_course_action ["c1"] "suspend" sample_admin "t1" archived_sections))
  = (Ok (set_course_status SUSPENDED "t1" (sample_course "c1" ARCHIVED)),
     snd (bulk_course_action ["c1"] "suspend" sample_admin "t1" archived_sections)).
Proof.
  assert (Hrole : role sample_teacher <> student) by discriminate.
  split; [reflexivity|]. split; [exact Hrole|].
  apply (bulk_suspend_reopens ["c1"] sample_admin "t1" archived_sections "c1"
           (sample_course "c1" ARCHIVED) (or_introl eq_refl) eq_refl eq_refl).
  exact Hrole.
Defined.

(** ** The audit log *)

(** X22. Writes that leave no trace: [move_section], [move_item],
    [toggle_item_visibility], [set_grade] and [submit_quiz_attempt] never
    add to the audit log, whatever they are given and whatever they
    answer, although each of them can change the store. *)
Theorem unaudited_writes db :
  (forall course_id section_id p u now,
     audit_logs (snd (move_section course_id section_id p u now db)) = audit_logs db) /\
  (forall item_id target_section_id p u now,
     audit_logs (snd (move_item item_id target_section_id p u now db)) = audit_logs db) /\
  (forall item_id v u now,
     audit_logs (snd (toggle_item_visibility item_id v u now db)) = audit_logs db) /\
  (forall uid item_id course_id g u now,
     audit_logs (snd (set_grade uid item_id course_id g u now db)) = audit_logs db) /\
  (forall attempt_id answers u now,
     audit_logs (snd (submit_quiz_attempt attempt_id answers u now db)) = audit_logs db).
Proof.
  repeat split.
  - intros course_id section_id p u now. unfold move_section. unfold bind at 1.
    destruct (check_course_access course_id u true db) as [[c|e] db1] eqn:Hgate;
      apply check_course_access_reads in Hgate; subst db1; [|reflexivity].
    cbv [bind read write ret raise section_not_found].
    destruct (find_one _ (course_sections db)) as [section|]; [|reflexivity].
    destruct (p =? s_position section); [reflexivity|].
    destruct (s_position section <? p); reflexivity.
  - intros item_id target_section_id p u now. unfold move_item.
    cbv [bind read write ret raise item_not_found].
    destruct (find_one _ (course_items db)) as [item|]; [|reflexivity].
    destruct (find_one _ (course_sections db)) as [target|]; [|reflexivity].
    destruct (String.eqb target_section_id (i_section_id item)); [|reflexivity].
    destruct (p =? i_position item); [reflexivity|].
    destruct (i_position item <? p); reflexivity.
  - intros item_id v u now. unfold toggle_item_visibility.
    cbv [bind read write ret raise item_not_found].
    destruct (find_one _ (course_items db)); reflexivity.
  - intros uid item_id course_id g u now. unfold set_grade.
    cbv [bind read write ret uuid4].
    destruct (find_one _ (grades db)); reflexivity.
  - intros attempt_id answers u now. unfold submit_quiz_attempt.
    cbv [bind read write ret raise uuid4].
    destruct (find_one _ (quiz_attempts db)) as [attempt|]; [|reflexivity].
    destruct (negb (String.eqb (at_user_id attempt) (user_id u))); [reflexivity|].
    destruct (negb (String.eqb (at_status attempt) "in_progress")); [reflexivity|].
    destruct (find_one _ (quizzes db)) as [quiz|]; [|reflexivity].
    destruct (z_item_id quiz) as [item_id|]; [|reflexivity].
    destruct (negb (String.eqb item_id "")); reflexivity.
Qed.

Example move_changes_the_store_unaudited :
  let db' := snd (move_section "u" "--u" 3 sample_admin "t1" created_course) in
  section_positions "u" db' <> section_positions "u" created_course /\
  audit_logs db' = audit_logs created_course.
Proof. vm_compute. split; [discriminate|reflexivity]. Qed.

(** ** One enrolment and many *)

(** X23. [bulk_enroll] is [enroll_user] repeated: on every store, the
    enrolments after a bulk enrolment of a list of user ids are those
    after one [enroll_user] per id, in the order of the list, each with
    the same role and caller and with its errors dropped. *)
Theorem bulk_enroll_is_repeated_enroll course_id user_ids r u db :
  enrollments (snd (bulk_enroll course_id user_ids r u db))
  = enrollments
      (fold_left (fun d uid =>
                    snd (enroll_user course_id (mkEnrollmentCreate course_id uid r) u d))
                 user_ids db).
Proof.
  set (step := fun d uid =>
                 snd (enroll_user course_id (mkEnrollmentCreate course_id uid r) u d)).
  destruct (find_one (is_course course_id) (courses db)) as [course|] eqn:Hcourse.
  - assert (Hloop : forall ids db1 db2 e s,
              users db1 = users db2 -> courses db1 = courses db2 ->
              enrollments db1 = enrollments db2 -> uuid_counter db1 = uuid_counter db2 ->
              find_one (is_course course_id) (courses db2) = Some course ->
              enrollments (snd (bulk_enroll_loop course_id r u ids e s db1))
              = enrollments (fold_left step ids db2)).
    { induction ids as [|uid ids IH]; intros db1 db2 e s Hu Hc He Hn Hfound;
        [exact He|].
      cbn [bulk_enroll_loop fold_left]. unfold step at 2. unfold enroll_user.
      cbv [bind read write ret raise uuid4 log_audit]. cbn [ec_user_id ec_role].
      rewrite Hfound, Hu.
      destruct (find_one _ (users db2)); [|cbn [snd]; now apply IH].
      cbv beta. rewrite He.
      destruct (find_one _ (enrollments db2)); cbn [snd]; [now apply IH|].
      apply IH; cbn; auto; try (now rewrite He, Hn); try (now rewrite Hn);
        now rewrite Hc. }
    unfold bulk_enroll. cbv [bind read]. rewrite Hcourse.
    specialize (Hloop user_ids db db 0 0 eq_refl eq_refl eq_refl eq_refl Hcourse).
    rewrite <- Hloop.
    destruct (bulk_enroll_loop course_id r u user_ids 0 0 db) as [[[e s]|x] db'];
      reflexivity.
  - unfold bulk_enroll. cbv [bind read course_not_found raise]. rewrite Hcourse.
    cbn [snd]. clear - Hcourse. induction user_ids as [|uid ids IH]; [reflexivity|].
    cbn [fold_left]. unfold step at 2. unfold enroll_user.
    cbv [bind read course_not_found raise]. rewrite Hcourse. exact IH.
Qed.

(** ** Deleting courses in bulk *)

Lemma in_delete_one_key {A} (key : A -> string) (x : string) (c : list A) (d : A) :
  NoDup (map key c) ->
  (In d (delete_one (fun a => String.eqb (key a) x) c) <-> In d c /\ key d <> x).
Proof.
  induction c as [|a c IH]; intros Hnd; [cbn; tauto|].
  inversion Hnd as [|? ? Hnotin Hnd']; subst. cbn.
  destruct (String.eqb_spec (key a) x) as [Heq|Hne].
  - split.
    + intros Hin. split; [now right|]. intros Hk. apply Hnotin.
      rewrite Heq, <- Hk. now apply in_map.
    + intros [[->|Hin] Hk]; [contradiction|assumption].
  - cbn. rewrite (IH Hnd'). split.
    + intros [->|[Hin Hk]]; [split; [now left|assumption]|split; [now right|assumption]].
    + intros [[->|Hin] Hk]; [now left|right; now split].
Qed.

Lemma find_one_delete_other {A} (key : A -> string) (x y : string) (c : list A) :
  x <> y ->
  find_one (fun a => String.eqb (key a) x)
           (delete_one (fun a => String.eqb (key a) y) c)
  = find_one (fun a => String.eqb (key a) x) c.
Proof.
  intros Hne. unfold find_one. induction c as [|a c IH]; [reflexivity|].
  cbn. destruct (String.eqb_spec (key a) y) as [Hy|Hy].
  - destruct (String.eqb_spec (key a) x) as [Hx|Hx]; [congruence|reflexivity].
  - cbn. destruct (String.eqb (key a) x); [reflexivity|exact IH].
Qed.

(** The loop of the "delete" branch. *)
Lemma bulk_delete_loop (uid : string) (course_ids : list string) :
  forall db, NoDup (map c_id (courses db)) ->
  exists db',
    for_each course_ids (fun cid =>
      course <- read (fun db => find_one (is_course cid) (courses db)) ;;
      match course with
      | Some course =>
          write (set_course_sections (delete_many (in_course cid))) ;;;
          write (set_course_items
                   (delete_many (fun i => String.eqb (i_course_id i) cid))) ;;;
          write (set_enrollments
                   (delete_many (fun e => String.eqb (e_course_id e) cid))) ;;;
          write (set_courses (delete_one (is_course cid))) ;;;
          write (set_course_categories
                   (update_one (is_category (category_id course))
                               (inc_course_count (-1)))) ;;;
          log_audit "bulk_delete" "course" cid uid
      | None => ret tt
      end) db = (Ok tt, db') /\
    let gone := fun cid =>
      In cid course_ids /\ find_one (is_course cid) (courses db) <> None in
    (forall c, In c (courses db') <->
               In c (courses db) /\ ~ In (c_id c) course_ids) /\
    (forall s, In s (course_sections db') <->
               In s (course_sections db) /\ ~ gone (s_course_id s)) /\
    (forall i, In i (course_items db') <->
               In i (course_items db) /\ ~ gone (i_course_id i)) /\
    (forall e, In e (enrollments db') <->
               In e (enrollments db) /\ ~ gone (e_course_id e)) /\
    grades db' = grades db.
Proof.
  induction course_ids as [|cid l IH]; intros db Hnd.
  - exists db. split; [reflexivity|]. cbn. repeat split; tauto.
  - cbn [for_each]. unfold bind at 1. unfold bind at 1, read at 1.
    destruct (find_one (is_course cid) (courses db)) as [course|] eqn:Hfind.
    + cbv [bind read write log_audit uuid4 ret].
      match goal with
      | |- context [for_each l ?b ?d] =>
          destruct (IH d) as (db' & Hrun & Hc & Hs & Hi & He & Hg);
            [cbn; now apply NoDup_map_delete_one|]
      end.
      cbv [bind read write log_audit uuid4 ret] in Hrun. rewrite Hrun.
      exists db'. split; [reflexivity|].
      cbn [courses course_sections course_items enrollments grades
           set_courses set_course_sections set_course_items set_enrollments
           set_course_categories set_audit_logs set_uuid_counter] in Hc, Hs, Hi, He, Hg.
      assert (Hother : forall x, x <> cid ->
                (find_one (is_course x) (delete_one (is_course cid) (courses db)) <> None
                 <-> find_one (is_course x) (courses db) <> None)).
      { intros x Hx. unfold is_course.
        now rewrite (find_one_delete_other c_id x cid). }
      assert (Hfound : find_one (is_course cid) (courses db) <> None)
        by (rewrite Hfind; discriminate).
      cbv zeta. split; [|split; [|split; [|split]]].
      * intros c. rewrite Hc. unfold is_course.
        rewrite (in_delete_one_key c_id cid _ c Hnd). cbn [In]. intuition congruence.
      * intros s. rewrite Hs. unfold delete_many. rewrite filter_In.
        unfold in_course. cbn [In].
        destruct (String.eqb_spec (s_course_id s) cid) as [Heq|Hne]; cbn [negb].
        -- rewrite Heq. intuition discriminate.
        -- specialize (Hother _ Hne). intuition congruence.
      * intros i. rewrite Hi. unfold delete_many. rewrite filter_In. cbn [In].
        destruct (String.eqb_spec (i_course_id i) cid) as [Heq|Hne]; cbn [negb].
        -- rewrite Heq. intuition discriminate.
        -- specialize (Hother _ Hne). intuition congruence.
      * intros e. rewrite He. unfold delete_many. rewrite filter_In. cbn [In].
        destruct (String.eqb_spec (e_course_id e) cid) as [Heq|Hne]; cbn [negb].
        -- rewrite Heq. intuition discriminate.
        -- specialize (Hother _ Hne). intuition congruence.
      * exact Hg.
    + cbv [bind read write log_audit uuid4 ret].
      destruct (IH db Hnd) as (db' & Hrun & Hc & Hs & Hi & He & Hg).
      cbv [bind read write log_audit uuid4 ret] in Hrun. rewrite Hrun. exists db'. split; [reflexivity|].
      assert (Habsent : forall c, In c (courses db) -> c_id c <> cid).
      { intros c Hin Heq. eapply find_none in Hfind; [|exact Hin].
        unfold is_course in Hfind. rewrite Heq, String.eqb_refl in Hfind.
        discriminate. }
      cbv zeta in *. split; [|split; [|split; [|split]]].
      * intros c. rewrite Hc. cbn [In]. specialize (Habsent c). intuition congruence.
      * intros s. rewrite Hs. cbn [In]. intuition (subst; congruence).
      * intros i. rewrite Hi. cbn [In]. intuition (subst; congruence).
      * intros e. rewrite He. cbn [In]. intuition (subst; congruence).
      * exact Hg.
Qed.

(** X24. The "delete" action of [bulk_course_action]: refused with 403
    and nothing written unless the caller is an administrator; for an
    administrator, on a store with distinct course ids, it removes exactly
    the listed courses and the sections, items and enrolments of those
    listed courses that existed, leaves every grade in place, and reports
    the length of the list as the number of courses deleted. *)
Theorem bulk_delete_cascade course_ids u now db :
  (role u <> admin ->
   bulk_course_action course_ids "delete" u now db
   = (Raise (HTTPException HTTP_403_FORBIDDEN
               "Solo los administradores pueden eliminar cursos"), db)) /\
  (role u = admin ->
   NoDup (map c_id (courses db)) ->
   let db1 := snd (bulk_course_action course_ids "delete" u now db) in
   let gone := fun cid =>
     In cid course_ids /\ find_one (is_course cid) (courses db) <> None in
   fst (bulk_course_action course_ids "delete" u now db)
   = Ok (str_of_Z (Z.of_nat (List.length course_ids)) ++ " cursos eliminados") /\
   (forall c, In c (courses db1) <-> In c (courses db) /\ ~ In (c_id c) course_ids) /\
   (forall s, In s (course_sections db1) <->
              In s (course_sections db) /\ ~ gone (s_course_id s)) /\
   (forall i, In i (course_items db1) <->
              In i (course_items db) /\ ~ gone (i_course_id i)) /\
   (forall e, In e (enrollments db1) <->
              In e (enrollments db) /\ ~ gone (e_course_id e)) /\
   grades db1 = grades db).
Proof.
  unfold bulk_course_action.
  change (String.eqb "delete" "delete") with true.
  change (String.eqb "delete" "hide") with false.
  change (String.eqb "delete" "show") with false.
  change (String.eqb "delete" "suspend") with false.
  change (String.eqb "delete" "archive") with false.
  cbv iota. cbn [andb]. split.
  - intros Hrole. destruct (role u); try reflexivity. now destruct Hrole.
  - intros Hrole Hnd. rewrite Hrole. cbn [UserRole_eqb negb]. cbv iota.
    assert (Hthen : forall (m : M unit) (msg : string) d d',
              m d = (Ok tt, d') -> (m ;;; ret msg) d = (Ok msg, d')).
    { intros m msg d d' Hm. unfold bind, ret. now rewrite Hm. }
    destruct (bulk_delete_loop (user_id u) course_ids db Hnd) as (db' & Hrun & H).
    rewrite (Hthen _ _ _ _ Hrun). cbv zeta in *. cbn [fst snd].
    split; [reflexivity|exact H].
Qed.

Lemma bulk_delete_cascade_witness :
  role sample_admin = admin /\
  NoDup (map c_id (courses two_courses)) /\
  map c_id (courses (snd (bulk_course_action ["c1"; "c7"] "delete" sample_admin "t1"
                            two_courses))) = ["c2"] /\
  course_sections (snd (bulk_course_action ["c1"; "c7"] "delete" sample_admin "t1"
                          two_courses)) = [] /\
  grades (snd (bulk_course_action ["c1"; "c7"] "delete" sample_admin "t1" two_courses))
  = grades two_courses.
Proof.
  assert (Hnd : NoDup (map c_id (courses two_courses))) by (cbn; nodup_strings).
  split; [reflexivity|]. split; [exact Hnd|].
  split; [vm_compute; reflexivity|]. split; [vm_compute; reflexivity|].
  apply (proj2 (bulk_delete_cascade ["c1"; "c7"] sample_admin "t1" two_courses)
           eq_refl Hnd).
Defined.

(** ** The layout of a copied course *)

Lemma map_get_app m1 m2 key d :
  map_get (m1 ++ m2) key d = map_get m1 key (map_get m2 key d).
Proof.
  induction m1 as [|[k v] m1 IH]; [reflexivity|].
  cbn. destruct (String.eqb k key); [reflexivity|exact IH].
Qed.

Lemma section_copy_map_cons k s sections :
  section_copy_map k (s :: sections)
  = (section_copy_map (S k) sections ++ [(s_id s, uuid_of_nat k)])%list.
Proof. reflexivity. Qed.

Lemma map_get_missed k sections key d :
  ~ In key (map s_id sections) -> map_get (section_copy_map k sections) key d = d.
Proof.
  revert k. induction sections as [|s sections IH]; intros k Hnotin; [reflexivity|].
  rewrite section_copy_map_cons, map_get_app. cbn [map_get].
  destruct (String.eqb_spec (s_id s) key) as [Heq|_].
  - exfalso. apply Hnotin. now left.
  - apply IH. intros Hin. apply Hnotin. now right.
Qed.

Lemma map_get_copied k sections j s d :
  NoDup (map s_id sections) ->
  nth_error sections j = Some s ->
  map_get (section_copy_map k sections) (s_id s) d = uuid_of_nat (k + j).
Proof.
  revert k j d. induction sections as [|a sections IH]; intros k j d Hnd Hj;
    [destruct j; discriminate|].
  inversion Hnd as [|? ? Hnotin Hnd']; subst.
  rewrite section_copy_map_cons, map_get_app. cbn [map_get].
  destruct j as [|j]; cbn in Hj.
  - injection Hj as ->. rewrite String.eqb_refl, Nat.add_0_r.
    now apply map_get_missed.
  - rewrite (IH (S k) j _ Hnd' Hj). f_equal. lia.
Qed.

Lemma filter_item_copies (f g : CourseItem -> bool) k c now m items :
  (forall j i, In i items ->
               f (mkCourseItem (uuid_of_nat j)
                    (map_get m (i_section_id i) (i_section_id i)) c
                    (i_title i) (item_type i) (i_position i) (i_visible i) now)
               = g i) ->
  map i_position (List.filter f (item_copies k c now m items))
  = map i_position (List.filter g items).
Proof.
  intros Hfg. unfold item_copies. revert k.
  induction items as [|i items IH]; intros k; [reflexivity|].
  cbn [List.length seq combine map List.filter]. rewrite Hfg by now left.
  destruct (g i); cbn [map i_position]; [f_equal|]; apply IH;
    intros j i' Hi'; apply Hfg; now right.
Qed.

(** X25. [duplicate_course] keeps the layout: when section ids are
    distinct, the section ids that items refer to were issued by [uuid4],
    and the source has no more sections and items than the handler reads,
    the copy of each section of the source holds the copies of the
    source's items of that section, at the same positions and in the same
    order. *)
Theorem duplicate_course_keeps_layout
    course_id new_shortname new_fullname u now db course :
  find_one (is_course course_id) (courses db) = Some course ->
  find_one (has_shortname new_shortname) (courses db) = None ->
  NoDup (map s_id (course_sections db)) ->
  Forall (issued (uuid_counter db)) (map i_section_id (course_items db)) ->
  let sections := List.filter (in_course course_id) (course_sections db) in
  let items := List.filter (of_course course_id) (course_items db) in
  (List.length sections <= 100)%nat ->
  (List.length items <= 1000)%nat ->
  let db' := snd (duplicate_course course_id new_shortname new_fullname u now db) in
  forall k s,
    nth_error sections k = Some s ->
    nth_error (course_sections db') (List.length (course_sections db) + k)
    = Some (mkCourseSection (uuid_of_nat (S (uuid_counter db) + k))
              (uuid_of_nat (uuid_counter db)) (s_title s) (s_position s)
              (s_visible s) now) /\
    item_positions (uuid_of_nat (S (uuid_counter db) + k)) db'
    = map i_position (List.filter (in_section (s_id s)) items).
Proof.
  intros Hfind Hfree Hnd Hissued sections items Hlen Hlen' db' k s Hk.
  destruct (duplicate_course_run course_id new_shortname new_fullname u now
              db course Hfind Hfree)
    as (db1 & Hrun & _ & Hsecs & Hitems & _).
  subst db'. rewrite Hrun. cbn [snd c_id] in *.
  rewrite (firstn_all2 (n := 100)) in Hsecs, Hitems by exact Hlen.
  rewrite (firstn_all2 (n := 1000)) in Hitems by exact Hlen'.
  fold sections in Hsecs, Hitems. fold items in Hitems.
  set (n := uuid_counter db) in *.
  assert (Hnds : NoDup (map s_id sections)).
  { unfold sections. clear - Hnd. induction (course_sections db) as [|a l IH];
      [constructor|].
    inversion Hnd as [|? ? Hnotin Hnd']; subst. cbn.
    destruct (in_course course_id a); [|now apply IH].
    cbn. constructor; [|now apply IH].
    intros Hin. apply Hnotin. apply in_map_iff in Hin.
    destruct Hin as (x & Hx & Hin). apply filter_In in Hin.
    rewrite <- Hx. apply in_map, Hin. }
  split.
  - rewrite Hsecs, nth_error_app2 by lia.
    replace (List.length (course_sections db) + k - List.length (course_sections db))%nat
      with k by lia.
    unfold section_copies. rewrite nth_error_map.
    assert (Hc : nth_error (combine (seq (S n) (List.length sections)) sections) k
                 = Some ((S n + k)%nat, s)).
    { clear - Hk. revert k Hk. generalize (S n) as m.
      induction sections as [|a l IH]; intros m k Hk; [destruct k; discriminate|].
      destruct k as [|k]; cbn in *.
      - injection Hk as ->. now rewrite Nat.add_0_r.
      - rewrite (IH (S m) k Hk). do 2 f_equal. lia. }
    now rewrite Hc.
  - unfold item_positions. rewrite Hitems, filter_app, map_app.
    rewrite filter_none.
    + cbn [map app]. apply filter_item_copies. intros j i Hi.
      assert (Hold : issued n (i_section_id i)).
      { rewrite Forall_forall in Hissued. apply Hissued, in_map.
        unfold items in Hi. apply filter_In in Hi. apply Hi. }
      unfold in_section. cbn [i_section_id].
      destruct (in_dec string_dec (i_section_id i) (map s_id sections)) as [Hin|Hout].
      * apply in_map_iff in Hin. destruct Hin as (s' & Hs' & Hin).
        apply In_nth_error in Hin. destruct Hin as (k' & Hk').
        rewrite <- Hs', (map_get_copied _ _ k' s' _ Hnds Hk').
        destruct (String.eqb_spec (s_id s') (s_id s)) as [Heq|Hne].
        -- assert (k' = k) as ->.
           { apply (proj1 (NoDup_nth_error (map s_id sections)) Hnds).
             - rewrite length_map. apply nth_error_Some. now rewrite Hk'.
             - rewrite !nth_error_map, Hk, Hk'. cbn. now rewrite Heq. }
           apply String.eqb_refl.
        -- apply String.eqb_neq. intros Heq. apply uuid_of_nat_inj in Heq.
           assert (k' = k) by lia. subst k'. rewrite Hk in Hk'. congruence.
      * rewrite (map_get_missed _ _ _ _ Hout).
        destruct (String.eqb_spec (i_section_id i) (s_id s)) as [Heq|Hne].
        -- exfalso. apply Hout. rewrite Heq. apply in_map.
           eapply nth_error_In; eauto.
        -- apply String.eqb_neq. intros Heq.
           destruct Hold as (x & Hx & Hx'). rewrite Heq in Hx'.
           apply uuid_of_nat_inj in Hx'. lia.
    + intros i Hi. unfold in_section. apply String.eqb_neq. intros Heq.
      rewrite Forall_forall in Hissued.
      destruct (Hissued (i_section_id i) (in_map _ _ _ Hi)) as (x & Hx & Hx').
      rewrite Heq in Hx'. apply uuid_of_nat_inj in Hx'. lia.
Qed.

Lemma duplicate_course_keeps_layout_witness :
  NoDup (map s_id (course_sections course_with_items)) /\
  Forall (issued (uuid_counter course_with_items))
         (map i_section_id (course_items course_with_items)) /\
  item_positions (uuid_of_nat 8)
    (snd (duplicate_course "u" "C2" None sample_teacher "t1" course_with_items))
  = [0; 1].
Proof.
  assert (Hnd : NoDup (map s_id (course_sections course_with_items)))
    by (vm_compute; nodup_strings).
  assert (Hissued : Forall (issued (uuid_counter course_with_items))
                           (map i_section_id (course_items course_with_items))).
  { repeat constructor; [exists 1%nat|exists 1%nat|exists 2%nat];
      (split; [vm_compute; lia|reflexivity]). }
  split; [exact Hnd|]. split; [exact Hissued|].
  destruct (duplicate_course_keeps_layout "u" "C2" None sample_teacher "t1"
              course_with_items
              (mkCourse "u" "Curso" "C1" "cat-1" TOPICS 4 true DRAFT
                        (Some "admin-1") "t0" None)
              eq_refl eq_refl Hnd Hissued
              ltac:(vm_compute; lia) ltac:(vm_compute; lia)
              0%nat (mkCourseSection "-u" "u" "Introducción" 0 true "t0") eq_refl)
    as [_ Hpos].
  exact Hpos.
Defined.

(** ** Moving an item inside its section *)

Lemma move_item_within_run db item_id new_position u now item section :
  NoDup (map i_id (course_items db)) ->
  find_one (is_item item_id) (course_items db) = Some item ->
  find_one (is_section (i_section_id item)) (course_sections db) = Some section ->
  new_position <> i_position item ->
  exists msg db',
    move_item item_id (i_section_id item) new_position u now db = (Ok msg, db') /\
    course_sections db' = course_sections db /\
    course_items db'
    = map (fun d =>
             if is_item item_id d
             then relocate_item (i_section_id item) (s_course_id section)
                                new_position now d
             else if in_section (i_section_id item) d
                     && (i_position item <? i_position d)
                     && (i_position d <=? new_position)
             then inc_item_position (-1) d
             else if in_section (i_section_id item) d
                     && (new_position <=? i_position d)
                     && (i_position d <? i_position item)
             then inc_item_position 1 d
             else d)
          (course_items db).
Proof.
  intros Hnd Hfind Hsection Hne.
  unfold move_item, bind at 1, read at 1. rewrite Hfind.
  unfold bind at 1, read at 1. rewrite Hsection.
  rewrite String.eqb_refl. apply Z.eqb_neq in Hne. rewrite Hne.
  apply Z.eqb_neq in Hne.
  pose proof (find_some _ _ Hfind) as [Hin Hid].
  assert (Huniq : forall d, In d (course_items db) -> i_id d = item_id -> d = item).
  { intros d Hd Hdid.
    apply (unique_key_eq i_id (course_items db)); auto.
    unfold is_item in Hid. apply String.eqb_eq in Hid. congruence. }
  destruct (i_position item <? new_position) eqn:Hlt;
    (eexists _, _; split; [reflexivity|];
     cbn [course_items course_sections set_course_items]; split; [reflexivity|];
     unfold is_item at 1;
     rewrite (update_one_unique_key i_id)
       by (rewrite !update_many_keys by reflexivity; assumption);
     unfold update_many; rewrite !map_map; apply map_ext_in; intros d Hd;
     specialize (Huniq d Hd); unfold is_item, in_section;
     destruct (String.eqb_spec (i_id d) item_id) as [Hmoved|Hmoved];
     [specialize (Huniq Hmoved); subst d;
      rewrite String.eqb_refl, Z.ltb_irrefl, ?andb_false_r; cbn [andb];
      apply String.eqb_eq in Hmoved; rewrite ?Hmoved; reflexivity
     |clear Huniq;
      assert (Hmoved' : String.eqb (i_id d) item_id = false)
        by (now apply String.eqb_neq);
      repeat match goal with
             | |- context [if ?b then _ else _] => destruct b eqn:?
             end;
      cbn in *; break_bools; try congruence; try lia; try reflexivity]).
Qed.

(** X26. A [move_item] inside the item's own section to a position of
    that section keeps the section in order: every position of the
    section goes where the reordering contract sends it, the positions
    stay dense, and no other section changes. *)
Theorem move_item_within_keeps_density db item_id new_position u now item section :
  NoDup (map i_id (course_items db)) ->
  find_one (is_item item_id) (course_items db) = Some item ->
  find_one (is_section (i_section_id item)) (course_sections db) = Some section ->
  dense (item_positions (i_section_id item) db) ->
  0 <= new_position < Z.of_nat (List.length (item_positions (i_section_id item) db)) ->
  let db' := snd (move_item item_id (i_section_id item) new_position u now db) in
  item_positions (i_section_id item) db'
  = map (moved_position (i_position item) new_position)
        (item_positions (i_section_id item) db) /\
  dense (item_positions (i_section_id item) db') /\
  (forall other, other <> i_section_id item ->
     item_positions other db' = item_positions other db).
Proof.
  intros Hnd Hfind Hsection Hdense Hrange. cbv zeta.
  pose proof (find_some _ _ Hfind) as [Hin Hid].
  assert (Hold : In (i_position item) (item_positions (i_section_id item) db)).
  { unfold item_positions. apply in_map, filter_In. split; [assumption|].
    unfold in_section. apply String.eqb_refl. }
  assert (Hmoved : dense (map (moved_position (i_position item) new_position)
                              (item_positions (i_section_id item) db))).
  { apply dense_moved; auto. now apply dense_bounds. }
  destruct (Z.eq_dec new_position (i_position item)) as [Heq|Hne].
  - assert (Hsame : move_item item_id (i_section_id item) new_position u now db
                    = (Ok "Sin cambios", db)).
    { unfold move_item, bind, read, ret. rewrite Hfind, Hsection, String.eqb_refl.
      apply Z.eqb_eq in Heq. now rewrite Heq. }
    rewrite Hsame. cbn [snd].
    assert (Hid' : map (moved_position (i_position item) new_position)
                       (item_positions (i_section_id item) db)
                   = item_positions (i_section_id item) db).
    { rewrite <- (map_id (item_positions _ _)) at 2. apply map_ext. intros p.
      unfold moved_position. rewrite Heq.
      repeat match goal with
             | |- context [if ?b then _ else _] => destruct b eqn:?
             end; break_bools; try apply Z.eqb_eq in Heqb; lia. }
    rewrite Hid'. repeat split; auto.
  - destruct (move_item_within_run db item_id new_position u now item section
                Hnd Hfind Hsection Hne) as (msg & db' & -> & _ & Hitems).
    cbn [snd]. set (g := fun d : CourseItem => _) in Hitems.
    assert (Huniq : forall d, In d (course_items db) -> i_id d = item_id -> d = item).
    { intros d Hd Hdid.
      apply (unique_key_eq i_id (course_items db)); auto.
      unfold is_item in Hid. apply String.eqb_eq in Hid. congruence. }
    assert (Hsec : forall s d, In d (course_items db) ->
                     in_section s (g d) = in_section s d).
    { intros s d Hd. unfold g. unfold is_item.
      destruct (String.eqb_spec (i_id d) item_id) as [Hd'|Hd'].
      - now rewrite (Huniq d Hd Hd').
      - now repeat destruct (_ && _). }
    assert (Hfilter : forall s,
              item_positions s db'
              = map (fun d => i_position (g d))
                    (List.filter (in_section s) (course_items db))).
    { intros s. unfold item_positions.
      rewrite Hitems, filter_map_pointwise by (intros d Hd; now apply Hsec).
      now rewrite map_map. }
    assert (Hpositions : item_positions (i_section_id item) db'
                         = map (moved_position (i_position item) new_position)
                               (item_positions (i_section_id item) db)).
    { rewrite Hfilter. unfold item_positions. rewrite map_map.
      apply map_ext_in. intros d Hd.
      pose proof Hd as Hd'. apply filter_In in Hd'. destruct Hd' as [Hdin Hds].
      unfold g, is_item, moved_position. rewrite Hds.
      destruct (String.eqb_spec (i_id d) item_id) as [Hd'|Hd'].
      - rewrite (Huniq d Hdin Hd'). cbn. now rewrite Z.eqb_refl.
      - assert (Hp : i_position d <> i_position item).
        { intros Hp. apply Hd'. unfold is_item in Hid. apply String.eqb_eq in Hid.
          rewrite <- Hid. f_equal.
          apply (unique_key_eq i_position
                   (List.filter (in_section (i_section_id item)) (course_items db)));
            auto.
          - now apply dense_NoDup.
          - apply filter_In. split; [assumption|]. apply String.eqb_refl. }
        apply Z.eqb_neq in Hp. rewrite Hp. cbn [andb].
        repeat match goal with
               | |- context [if ?b then _ else _] => destruct b eqn:?
               end; cbn; break_bools; lia. }
    split; [exact Hpositions|]. split; [now rewrite Hpositions|].
    intros other Hother. rewrite Hfilter. unfold item_positions.
    apply map_ext_in. intros d Hd. apply filter_In in Hd. destruct Hd as [Hdin Hds].
    unfold in_section in Hds. apply String.eqb_eq in Hds.
    unfold g, is_item, in_section.
    destruct (String.eqb_spec (i_id d) item_id) as [Hd'|Hd'].
    + rewrite (Huniq d Hdin Hd') in Hds. congruence.
    + replace (String.eqb (i_section_id d) (i_section_id item)) with false;
        [reflexivity|].
      symmetry. apply String.eqb_neq. congruence.
Qed.

Lemma move_item_within_keeps_density_witness :
  item_positions "s0"
    (snd (move_item "a0" "s0" 2 sample_teacher "t1" five_sections)) = [2; 0; 1] /\
  dense (item_positions "s0"
           (snd (move_item "a0" "s0" 2 sample_teacher "t1" five_sections))).
Proof.
  split; [vm_compute; reflexivity|].
  destruct (move_item_within_keeps_density five_sections "a0" 2 sample_teacher "t1"
              (sample_item "a0" "s0" "c1" 0) (sample_section "s0" "c1" 0))
    as (_ & Hdense & _).
  - cbn. nodup_strings.
  - reflexivity.
  - reflexivity.
  - apply (dense_iota 3).
  - vm_compute. split; [discriminate|reflexivity].
  - exact Hdense.
Defined.

(** ** Enrolment status and the student's access *)

Lemma find_one_none_forall {A} (f : A -> bool) (l : list A) :
  (forall x, In x l -> f x = false) -> find_one f l = None.
Proof.
  unfold find_one. induction l as [|a l IH]; intros H; [reflexivity|].
  cbn. rewrite (H a (or_introl eq_refl)). apply IH. intros x Hx. apply H. now right.
Qed.

(** X27. The status of an enrolment decides what a student sees of a
    course that is not published or not visible: on a store with one
    enrolment per course and user, after [update_enrollment] has set the
    status of the student's enrolment, [get_course] answers the student
    with the course when the status is active and with 403 otherwise. *)
Theorem enrollment_status_gates_student
    db enrollment_id st caller e course student_user :
  unique_enrollments db ->
  find_one (is_enrollment enrollment_id) (enrollments db) = Some e ->
  find_one (is_course (e_course_id e)) (courses db) = Some course ->
  status course <> PUBLISHED \/ c_visible course = false ->
  role student_user = student ->
  user_id student_user = e_user_id e ->
  let db1 := snd (update_enrollment enrollment_id
                    (mkEnrollmentUpdate None (Some st)) caller db) in
  get_course (e_course_id e) student_user db1
  = (match st with
     | ACTIVE => Ok course
     | _ => Raise (HTTPException HTTP_403_FORBIDDEN "No tienes acceso a este curso")
     end, db1).
Proof.
  intros Huniq Hfind Hcourse Hclosed Hrole Huser.
  unfold update_enrollment. cbv [bind read write log_audit uuid4]. rewrite Hfind.
  cbn [snd]. cbv zeta.
  destruct (first_match_split _ _ _ Hfind) as (l1 & l2 & Hl & Hnone & Hid).
  unfold get_course. cbv [bind read ret raise].
  cbn [courses enrollments set_enrollments set_audit_logs set_uuid_counter].
  rewrite Hcourse, Hrole. cbn [UserRole_eqb].
  replace (negb (CourseStatus_eqb (status course) PUBLISHED) || negb (c_visible course))
    with true.
  2:{ symmetry. destruct Hclosed as [Hst|Hvis].
      - destruct (status course); cbn; try reflexivity. now destruct Hst.
      - rewrite Hvis. now rewrite orb_true_r. }
  cbv beta iota.
  cbn [courses enrollments set_enrollments set_audit_logs set_uuid_counter].
  rewrite Hl, (update_one_at _ _ _ _ _ Hnone Hid).
  set (e' := apply_enrollment_update (mkEnrollmentUpdate None (Some st)) e).
  assert (Hothers : forall x, In x (l1 ++ l2) ->
            active_enrollment (e_course_id e) (user_id student_user) x = false).
  { intros x Hx. unfold unique_enrollments in Huniq. rewrite Hl, map_app in Huniq.
    cbn [map] in Huniq. apply NoDup_remove_2 in Huniq. rewrite <- map_app in Huniq.
    unfold active_enrollment.
    destruct (String.eqb_spec (e_course_id x) (e_course_id e)) as [Hc|_];
      [|reflexivity].
    destruct (String.eqb_spec (e_user_id x) (user_id student_user)) as [Hu|_];
      [|reflexivity].
    exfalso. apply Huniq. apply in_map_iff. exists x. split; [|assumption].
    unfold enrollment_pair. now rewrite Hc, Hu, Huser. }
  assert (Hfound : find_one (active_enrollment (e_course_id e) (user_id student_user))
                            (l1 ++ e' :: l2)
                   = match st with ACTIVE => Some e' | _ => None end).
  { destruct st.
    - apply find_one_at.
      + apply find_one_none_forall. intros x Hx. apply Hothers, in_or_app. now left.
      + unfold active_enrollment, e'. cbn. now rewrite Huser, !String.eqb_refl.
    - apply find_one_none_forall. intros x Hx. apply in_app_or in Hx.
      destruct Hx as [Hx|[<-|Hx]];
        [apply Hothers, in_or_app; now left
        |unfold active_enrollment, e'; cbn; now rewrite andb_false_r
        |apply Hothers, in_or_app; now right].
    - apply find_one_none_forall. intros x Hx. apply in_app_or in Hx.
      destruct Hx as [Hx|[<-|Hx]];
        [apply Hothers, in_or_app; now left
        |unfold active_enrollment, e'; cbn; now rewrite andb_false_r
        |apply Hothers, in_or_app; now right]. }
  rewrite Hfound. now destruct st.
Qed.

Lemma enrollment_status_gates_student_witness :
  unique_enrollments draft_course_store /\
  get_course "c1" ana draft_course_store
  = (Ok (sample_course "c1" DRAFT), draft_course_store) /\
  get_course "c1" ana
    (snd (update_enrollment "e1" (mkEnrollmentUpdate None (Some ENROLLMENT_SUSPENDED))
                            sample_teacher draft_course_store))
  = (Raise (HTTPException HTTP_403_FORBIDDEN "No tienes acceso a este curso"),
     snd (update_enrollment "e1" (mkEnrollmentUpdate None (Some ENROLLMENT_SUSPENDED))
                            sample_teacher draft_course_store)).
Proof.
  assert (H : unique_enrollments draft_course_store).
  { unfold unique_enrollments. cbn. constructor; [intros []|constructor]. }
  split; [exact H|]. split; [reflexivity|].
  apply (enrollment_status_gates_student draft_course_store "e1" ENROLLMENT_SUSPENDED
           sample_teacher (mkEnrollment "e1" "c1" "ana" STUDENT ACTIVE None)
           (sample_course "c1" DRAFT) ana H eq_refl eq_refl).
  - left. discriminate.
  - reflexivity.
  - reflexivity.
Defined.

(** ** The sections of a new course *)

(** X28. A course that [create_course] has created is a draft of the
    caller, and it has one section more than [num_sections] asks for: the
    introduction at position 0 and the sections 1 to [num_sections] after
    it, appended to the sections of the store; a [num_sections] of zero or
    less leaves the introduction alone.  The category counts one course
    more. *)
Theorem create_course_sections data u now db c db' :
  create_course data u now db = (Ok c, db') ->
  c_id c = uuid_of_nat (uuid_counter db) /\
  status c = DRAFT /\ created_by c = Some (user_id u) /\
  (exists tail,
     course_sections db' = (course_sections db ++ tail)%list /\
     List.length tail = S (Z.to_nat (cc_num_sections data)) /\
     Forall (fun s => s_course_id s = c_id c) tail /\
     map s_position tail
     = map Z.of_nat (seq 0 (S (Z.to_nat (cc_num_sections data))))) /\
  course_categories db'
  = update_one (is_category (cc_category_id data)) (inc_course_count 1)
               (course_categories db).
Proof.
  intros Hrun.
  destruct (create_course_outcome _ _ _ _ _ _ Hrun)
    as [[_ Hno]|(c' & Hc & _ & _ & Hc' & Hcourses & Hcats & _)];
    [now destruct (Hno c)|].
  injection Hc as <-.
  destruct (create_course_run _ _ _ _ _ _ Hrun)
    as [->|(tail & Hsecs & Hpos & Hcid & _)].
  - exfalso. apply (f_equal (@List.length Course)) in Hcourses.
    rewrite length_app in Hcourses. cbn in Hcourses. lia.
  - rewrite Hc'. cbn [c_id status created_by]. repeat split; auto.
    exists tail. repeat split; auto.
    rewrite <- (length_map s_position), Hpos, length_map, length_seq. reflexivity.
Qed.

Lemma create_course_sections_witness :
  exists c db',
    create_course (mkCourseCreate "Curso" "C1" "cat-1" WEEKS (-3)) sample_teacher "t0"
                  one_category = (Ok c, db') /\
    map (fun s => (s_title s, s_position s)) (course_sections db')
    = [("Introducción", 0)] /\
    status c = DRAFT /\
    course_categories db' = [mkCategory "cat-1" 1].
Proof.
  eexists _, _. split; [vm_compute; reflexivity|].
  split; [vm_compute; reflexivity|].
  destruct (create_course_sections
              (mkCourseCreate "Curso" "C1" "cat-1" WEEKS (-3)) sample_teacher "t0"
              one_category _ _ eq_refl) as (_ & Hst & _ & _ & Hcat).
  split; [exact Hst|exact Hcat].
Defined.
